(** * AttendTrack: QR check-in, course creation, fake analytics and the
      attendance schema, embedded from the TypeScript components and the SQL
      migration of the repository.

    The file is organised as the repository is:
    - [JS]        the JavaScript values and library functions the components
                  call (strings, truthiness, [JSON.parse], [JSON.stringify]);
    - [Ui]        what the Supabase client returns, the requests the
                  components send, and handlers as programs over them;
    - [Schema]    the tables, constraints and row-level policies of the
                  migration, with the statements that change the data;
    - [Supabase]  the hosted backend: how it answers each request;
    - [QRCodeGenerator], [ScanQR], [CreateCourse], [ChatAnalytics]
                  the components themselves, the last with [Binary64], the
                  rounding of the numbers it computes with;
    - [Samples]   a small school, for examples;
    - [ProfessorDashboard], [AnalyticsView]
                  the course list of the dashboard and the figures of the
                  analytics panel;
    - [Integrity], [Scans], [Years]
                  notions the later facts are stated with;
    - the facts, one module per part: [JsonFacts], [SchemaFacts],
      [ScanFacts], [CreateCourseFacts], [Binary64Facts],
      [AnalyticsFacts], then
      [IntegrityFacts], [CheckInFacts], [CourseFacts], [DashboardFacts],
      [ViewFacts]. *)

From Stdlib Require Import ZArith NArith List String Ascii Bool Lia.
From Stdlib Require Import QArith Qround Qpower Qabs Lqa.
From Stdlib Require Import Floats DecimalString.
From Stdlib Require DecimalN DecimalPos.
Import ListNotations.

Set Implicit Arguments.

(* ================================================================== *)
(** * JavaScript values                                                 *)
(* ================================================================== *)

Module JS.

Local Open Scope N_scope.

(** A JavaScript string is a sequence of UTF-16 code units. *)
Definition jsstring := list N.

(** String literals of the source are written as Rocq strings. *)
Definition js (s : string) : jsstring :=
  map N_of_ascii (list_ascii_of_string s).

Fixpoint jsstring_eqb (a b : jsstring) : bool :=
  match a, b with
  | [], [] => true
  | x :: a', y :: b' => (x =? y) && jsstring_eqb a' b'
  | _, _ => false
  end.

Definition is_empty (s : jsstring) : bool :=
  match s with [] => true | _ => false end.

(** [a || b] on strings: the empty string is falsy. *)
Definition str_or (a b : jsstring) : jsstring :=
  if is_empty a then b else a.

(** Values: what [JSON.parse] returns, plus [undefined].  A number read by
    [JSON.parse] is kept as its decimal literal [m * 10^e]. *)
#[local] Unset Elimination Schemes.
Inductive value : Type :=
| VUndefined
| VNull
| VBool (b : bool)
| VNum (m e : Z)
| VStr (s : jsstring)
| VArr (l : list value)
| VObj (props : list (jsstring * value)).
#[local] Set Elimination Schemes.

(** The binary64 number nearest to [m * 10^e] is zero exactly when
    [|m| * 10^e <= 2^-1075] (half of the least subnormal, ties to even). *)
Definition rounds_to_zero (m e : Z) : bool :=
  (m =? 0)%Z
  || ((e <? 0)%Z && (Z.abs m * 2 ^ 1075 <=? 10 ^ (- e))%Z).

(** ToBoolean. *)
Definition truthy (v : value) : bool :=
  match v with
  | VUndefined | VNull => false
  | VBool b => b
  | VNum m e => negb (rounds_to_zero m e)
  | VStr s => negb (is_empty s)
  | VArr _ | VObj _ => true
  end.

(** [a || b]. *)
Definition or_else (a b : value) : value :=
  if truthy a then a else b.

(** Own property of an object literal or of a parsed object; a repeated key
    keeps its last value. *)
Fixpoint lookup (k : jsstring) (props : list (jsstring * value))
  : option value :=
  match props with
  | [] => None
  | (k', v) :: rest =>
      match lookup k rest with
      | Some w => Some w
      | None => if jsstring_eqb k k' then Some v else None
      end
  end.

(** [v.k] for the two keys the scanner reads, [course_id] and [id]: reading
    a property of [null] or [undefined] throws a TypeError ([None]);
    primitives and arrays have no such property, own or inherited. *)
Definition get_prop (v : value) (k : jsstring) : option value :=
  match v with
  | VUndefined | VNull => None
  | VObj props =>
      match lookup k props with
      | Some w => Some w
      | None => Some VUndefined
      end
  | _ => Some VUndefined
  end.

(** Whether [String(v)] returns a text.  On an object with an own property
    [toString] it throws a TypeError instead: after [JSON.parse] that
    property is no function, and [valueOf], own or inherited, gives no
    primitive value.  An array is joined, each element through [String]
    but for [null] and [undefined], so it throws when an element does. *)
Fixpoint has_text (v : value) : bool :=
  match v with
  | VObj props =>
      match lookup (js "toString") props with
      | Some _ => false
      | None => true
      end
  | VArr l =>
      (fix all (l : list value) : bool :=
         match l with
         | [] => true
         | x :: r => has_text x && all r
         end) l
  | _ => true
  end.

(* ------------------------------------------------------------------ *)
(** ** JSON.stringify on strings                                        *)
(* ------------------------------------------------------------------ *)

Definition hexdigit (n : N) : N := if n <? 10 then 48 + n else 87 + n.

(** [\uXXXX] with lower-case hexadecimal digits. *)
Definition UnicodeEscape (c : N) : jsstring :=
  [92; 117; hexdigit (c / 4096 mod 16); hexdigit (c / 256 mod 16);
   hexdigit (c / 16 mod 16); hexdigit (c mod 16)].

Definition is_high_surrogate (c : N) : bool := (55296 <=? c) && (c <=? 56319).
Definition is_low_surrogate (c : N) : bool := (56320 <=? c) && (c <=? 57343).
Definition is_surrogate (c : N) : bool := (55296 <=? c) && (c <=? 57343).

(** One code point that is not a surrogate pair. *)
Definition quote_unit (c : N) : jsstring :=
  if c =? 8 then [92; 98]
  else if c =? 9 then [92; 116]
  else if c =? 10 then [92; 110]
  else if c =? 12 then [92; 102]
  else if c =? 13 then [92; 114]
  else if c =? 34 then [92; 34]
  else if c =? 92 then [92; 92]
  else if (c <? 32) || is_surrogate c then UnicodeEscape c
  else [c].

(** QuoteJSONString walks the code points of the string: a high surrogate
    followed by a low one is one code point and is copied; a surrogate on
    its own is escaped. *)
Fixpoint quote_body (s : jsstring) : jsstring :=
  match s with
  | [] => []
  | c :: r =>
      if is_high_surrogate c then
        match r with
        | d :: r' =>
            if is_low_surrogate d then c :: d :: quote_body r'
            else UnicodeEscape c ++ quote_body r
        | [] => UnicodeEscape c
        end
      else quote_unit c ++ quote_body r
  end.

Definition QuoteJSONString (s : jsstring) : jsstring :=
  34 :: quote_body s ++ [34].

Fixpoint stringify_members (ps : list (jsstring * jsstring)) : jsstring :=
  match ps with
  | [] => []
  | (k, v) :: rest =>
      QuoteJSONString k ++ [58] ++ QuoteJSONString v ++
      match rest with
      | [] => []
      | _ :: _ => 44 :: stringify_members rest
      end
  end.

(** [JSON.stringify] of an object literal whose properties are all strings
    (no indentation argument): [{"k1":"v1","k2":"v2"}]. *)
Definition JSON_stringify (ps : list (jsstring * jsstring)) : jsstring :=
  123 :: stringify_members ps ++ [125].

(** The object that [ps] describes, as a value. *)
Definition parsed (ps : list (jsstring * jsstring))
  : list (jsstring * value) :=
  map (fun kv => (fst kv, VStr (snd kv))) ps.

(* ------------------------------------------------------------------ *)
(** ** JSON.parse                                                       *)
(* ------------------------------------------------------------------ *)

Definition is_ws (c : N) : bool :=
  (c =? 32) || (c =? 9) || (c =? 10) || (c =? 13).

Fixpoint skip_ws (s : jsstring) : jsstring :=
  match s with
  | [] => []
  | c :: r => if is_ws c then skip_ws r else s
  end.

Definition hexval (c : N) : option N :=
  if (48 <=? c) && (c <=? 57) then Some (c - 48)
  else if (97 <=? c) && (c <=? 102) then Some (c - 87)
  else if (65 <=? c) && (c <=? 70) then Some (c - 55)
  else None.

Definition hex4 (a b c d : N) : option N :=
  match hexval a, hexval b, hexval c, hexval d with
  | Some x, Some y, Some z, Some w => Some (((x * 16 + y) * 16 + z) * 16 + w)
  | _, _, _, _ => None
  end.

(** The character after a backslash, other than [u]. *)
Definition unescape (c : N) : option N :=
  if c =? 34 then Some 34
  else if c =? 92 then Some 92
  else if c =? 47 then Some 47
  else if c =? 98 then Some 8
  else if c =? 102 then Some 12
  else if c =? 110 then Some 10
  else if c =? 114 then Some 13
  else if c =? 116 then Some 9
  else None.

Definition cons_fst {A B} (a : A) (r : option (list A * B))
  : option (list A * B) :=
  match r with
  | Some (t, rest) => Some (a :: t, rest)
  | None => None
  end.

(** The characters of a string literal after its opening quote, up to and
    including the closing quote. *)
Fixpoint parse_chars (s : jsstring) : option (jsstring * jsstring) :=
  match s with
  | [] => None
  | c :: r =>
      if c =? 34 then Some ([], r)
      else if c =? 92 then
        match r with
        | [] => None
        | e :: r1 =>
            if e =? 117 then
              match r1 with
              | h1 :: h2 :: h3 :: h4 :: r2 =>
                  match hex4 h1 h2 h3 h4 with
                  | Some u => cons_fst u (parse_chars r2)
                  | None => None
                  end
              | _ => None
              end
            else
              match unescape e with
              | Some u => cons_fst u (parse_chars r1)
              | None => None
              end
        end
      else if c <? 32 then None
      else cons_fst c (parse_chars r)
  end.

Definition is_digit (c : N) : bool := (48 <=? c) && (c <=? 57).

Fixpoint take_digits (s : jsstring) : list N * jsstring :=
  match s with
  | [] => ([], [])
  | c :: r =>
      if is_digit c then
        let '(ds, rest) := take_digits r in (c - 48 :: ds, rest)
      else ([], s)
  end.

Definition digits_value (ds : list N) : Z :=
  fold_left (fun acc d => (acc * 10 + Z.of_N d)%Z) ds 0%Z.

(** Integer part: a single [0], or a non-zero digit and more digits. *)
Definition parse_int (s : jsstring) : option (list N * jsstring) :=
  match s with
  | [] => None
  | c :: r =>
      if c =? 48 then Some ([0], r)
      else if is_digit c then Some (take_digits s)
      else None
  end.

Definition parse_frac (s : jsstring) : option (list N * jsstring) :=
  match s with
  | 46 :: r =>
      match take_digits r with
      | ([], _) => None
      | (ds, rest) => Some (ds, rest)
      end
  | _ => Some ([], s)
  end.

Definition parse_exp (s : jsstring) : option (Z * jsstring) :=
  match s with
  | c :: r =>
      if (c =? 101) || (c =? 69) then
        let '(neg, r1) :=
          match r with
          | 45 :: r' => (true, r')
          | 43 :: r' => (false, r')
          | _ => (false, r)
          end in
        match take_digits r1 with
        | ([], _) => None
        | (ds, rest) =>
            Some (if neg then (- digits_value ds)%Z else digits_value ds, rest)
        end
      else Some (0%Z, s)
  | [] => Some (0%Z, s)
  end.

Definition parse_number (s : jsstring) : option (value * jsstring) :=
  let '(neg, s1) :=
    match s with
    | 45 :: r => (true, r)
    | _ => (false, s)
    end in
  match parse_int s1 with
  | None => None
  | Some (ip, s2) =>
      match parse_frac s2 with
      | None => None
      | Some (fp, s3) =>
          match parse_exp s3 with
          | None => None
          | Some (ex, s4) =>
              let m := digits_value (ip ++ fp) in
              Some (VNum (if neg then (- m)%Z else m)
                         (ex - Z.of_nat (List.length fp))%Z, s4)
          end
      end
  end.

Fixpoint strip_prefix (p s : jsstring) : option jsstring :=
  match p, s with
  | [], _ => Some s
  | x :: p', y :: s' => if x =? y then strip_prefix p' s' else None
  | _ :: _, [] => None
  end.

Definition parse_literal (s : jsstring) : option (value * jsstring) :=
  match strip_prefix (js "true") s with
  | Some r => Some (VBool true, r)
  | None =>
  match strip_prefix (js "false") s with
  | Some r => Some (VBool false, r)
  | None =>
  match strip_prefix (js "null") s with
  | Some r => Some (VNull, r)
  | None => parse_number s
  end end end.

(** The grammar of JSON values.  [fuel] bounds the nesting; [JSON_parse]
    starts with more fuel than the text has characters. *)
Fixpoint parse_value (fuel : nat) (s : jsstring) {struct fuel}
  : option (value * jsstring) :=
  match fuel with
  | O => None
  | S f =>
      match skip_ws s with
      | [] => None
      | c :: r =>
          if c =? 34 then
            match parse_chars r with
            | Some (t, rest) => Some (VStr t, rest)
            | None => None
            end
          else if c =? 123 then
            match skip_ws r with
            | [] => None
            | c1 :: r1 =>
                if c1 =? 125 then Some (VObj [], r1)
                else
                  match parse_members f r with
                  | Some (ps, rest) => Some (VObj ps, rest)
                  | None => None
                  end
            end
          else if c =? 91 then
            match skip_ws r with
            | [] => None
            | c1 :: r1 =>
                if c1 =? 93 then Some (VArr [], r1)
                else
                  match parse_elements f r with
                  | Some (vs, rest) => Some (VArr vs, rest)
                  | None => None
                  end
            end
          else parse_literal (c :: r)
      end
  end

with parse_members (fuel : nat) (s : jsstring) {struct fuel}
  : option (list (jsstring * value) * jsstring) :=
  match fuel with
  | O => None
  | S f =>
      match skip_ws s with
      | [] => None
      | c :: r =>
          if c =? 34 then
            match parse_chars r with
            | None => None
            | Some (k, r1) =>
                match skip_ws r1 with
                | [] => None
                | c2 :: r2 =>
                    if c2 =? 58 then
                      match parse_value f r2 with
                      | None => None
                      | Some (v, r3) =>
                          match skip_ws r3 with
                          | [] => None
                          | c4 :: r4 =>
                              if c4 =? 44 then
                                cons_fst (k, v) (parse_members f r4)
                              else if c4 =? 125 then Some ([(k, v)], r4)
                              else None
                          end
                      end
                    else None
                end
            end
          else None
      end
  end

with parse_elements (fuel : nat) (s : jsstring) {struct fuel}
  : option (list value * jsstring) :=
  match fuel with
  | O => None
  | S f =>
      match parse_value f s with
      | None => None
      | Some (v, r1) =>
          match skip_ws r1 with
          | [] => None
          | c :: r2 =>
              if c =? 44 then cons_fst v (parse_elements f r2)
              else if c =? 93 then Some ([v], r2)
              else None
          end
      end
  end.

(** [JSON.parse text]: [None] is the SyntaxError it throws. *)
Definition JSON_parse (text : jsstring) : option value :=
  match parse_value (S (List.length text)) text with
  | Some (v, rest) =>
      match skip_ws rest with
      | [] => Some v
      | _ :: _ => None
      end
  | None => None
  end.

End JS.

Import JS.

(* ================================================================== *)
(** * Components as programs                                            *)
(* ================================================================== *)

Module Ui.

(** ** What the Supabase client returns *)

(** The [error] object of a response.  Every error the database or
    PostgREST produces carries a non-empty message; [OtherError] is any
    other error object (a failed fetch, say) with the message it has. *)
Inductive pg_error : Type :=
| NotSingleRow                    (* PGRST116: .single() on 0 or many rows *)
| InvalidTextRepresentation       (* 22P02 *)
| DatatypeMismatch                (* 42804 *)
| NotNullViolation (column : string)            (* 23502 *)
| UniqueViolation (columns : list string)       (* 23505 *)
| ForeignKeyViolation (column : string)         (* 23503 *)
| NumericValueOutOfRange                        (* 22003 *)
| RlsViolation                                  (* 42501 *)
| OtherError (message : jsstring).

(** Issues collected by [courseSchema.parse]. *)
Inductive zod_issue : Type :=
| InvalidType (path : string)                   (* not a string *)
| TooSmall (path : string) (message : jsstring) (* .min(1, message) *).

(** Values that the handlers throw or catch. *)
Inductive js_error : Type :=
| TypeError                       (* property read on null or undefined,
                                     or [String] of an object without text *)
| PostgrestError (e : pg_error)
| ZodError (issues : list zod_issue)
| GeolocationPositionError.       (* given to the error callback of
                                     [getCurrentPosition] *)

(** Text shown to the user: a string built by the component, or the
    [message] of an error object whose wording the runtime decides. *)
Inductive text : Type :=
| Lit (s : jsstring)
| MessageOf (e : js_error).

(** [error.message || fallback]. *)
Definition message_or (e : js_error) (fallback : jsstring) : text :=
  match e with
  | PostgrestError (OtherError m) => Lit (str_or m fallback)
  | _ => MessageOf e
  end.

Inductive variant : Type := Default | Destructive.

Record toast : Type := mkToast {
  t_variant : variant;
  t_title : jsstring;
  t_description : text
}.

Definition is_destructive (t : toast) : bool :=
  match t_variant t with Destructive => true | Default => false end.

(** [{ data, error }] of a query ended by [.single()]. *)
Record single_result (A : Type) : Type := mkSingle {
  data : option A;
  error : option pg_error
}.
Arguments mkSingle {A} _ _.

(** Row of [select("id, name, code")] on courses. *)
Record course_row : Type := mkCourseRow {
  cr_id : jsstring;
  cr_name : jsstring;
  cr_code : jsstring
}.

(** Object literal given to [from("attendance_records").insert]. *)
Record attendance_insert : Type := mkAttendanceInsert {
  ai_student_id : value;
  ai_course_id : value;
  ai_latitude : option float;
  ai_longitude : option float;
  ai_location_accuracy : option float
}.

(** Object literal given to [from("courses").insert].  [ci_year] is the
    number [parseInt] returned, [None] standing for both [null] and [NaN]
    (which is sent as [null]). *)
Record course_insert : Type := mkCourseInsert {
  ci_name : jsstring;
  ci_code : jsstring;
  ci_professor_id : value;
  ci_semester : option jsstring;
  ci_year : option Z
}.

(** The requests the components send.  Instants are milliseconds since the
    epoch; [toISOString] and the server's timestamp input carry them as
    text without loss. *)
Inductive call : Type :=
| CoursesSelectSingle (id : value)
    (* from("courses").select("id, name, code").eq("id", id).single() *)
| AttendanceSelectSingle (student_id course_id : value) (gte lt : Z)
    (* from("attendance_records").select("id").eq("student_id", ..)
       .eq("course_id", ..).gte("checked_in_at", ..).lt("checked_in_at", ..)
       .single() *)
| AttendanceInsert (row : attendance_insert)
| CoursesInsert (row : course_insert).

Definition response (c : call) : Type :=
  match c with
  | CoursesSelectSingle _ => single_result course_row
  | AttendanceSelectSingle _ _ _ _ => single_result jsstring
  | AttendanceInsert _ => option pg_error
  | CoursesInsert _ => option pg_error
  end.

(** ** Programs *)

(** An async handler: it causes events of the component ([E]), awaits
    requests, and returns. *)
Inductive prog (E A : Type) : Type :=
| Ret (a : A)
| Emit (e : E) (k : prog E A)
| Await (c : call) (k : response c -> prog E A).
Arguments Ret {E A} _.
Arguments Emit {E A} _ _.
Arguments Await {E A} _ _.

Fixpoint bind {E A B} (p : prog E A) (f : A -> prog E B) : prog E B :=
  match p with
  | Ret a => f a
  | Emit e k => Emit e (bind k f)
  | Await c k => Await c (fun r => bind (k r) f)
  end.

(** [try { body } catch (error) { handler }]: the body returns [inl e] when
    it throws [e]. *)
Definition try_catch {E A} (body : prog E (js_error + A))
    (handler : js_error -> prog E A) : prog E A :=
  bind body (fun r => match r with inl e => handler e | inr a => Ret a end).

Definition throw {E A} (e : js_error) : prog E (js_error + A) := Ret (inl e).
Definition ret {E A} (a : A) : prog E (js_error + A) := Ret (inr a).

(** ** Running a program against a backend *)

(** What an observer of the page and of the network sees. *)
Inductive obs (E : Type) : Type :=
| Ev (e : E)
| Net (c : call).
Arguments Ev {E} _.
Arguments Net {E} _.

(** A backend answers each request and moves to a new state. *)
Record backend (S : Type) : Type := mkBackend {
  serve : forall c : call, S -> response c * S
}.

Fixpoint run {E A S} (b : backend S) (p : prog E A) (s : S)
  : list (obs E) * A * S :=
  match p with
  | Ret a => ([], a, s)
  | Emit e k =>
      let '(tr, a, s') := run b k s in (Ev e :: tr, a, s')
  | Await c k =>
      let '(r, s1) := serve b c s in
      let '(tr, a, s') := run b (k r) s1 in (Net c :: tr, a, s')
  end.

Definition trace {E A S} (b : backend S) (p : prog E A) (s : S)
  : list (obs E) := fst (fst (run b p s)).

Definition final {E A S} (b : backend S) (p : prog E A) (s : S) : S :=
  snd (run b p s).

(** The requests of a trace, in order. *)
Fixpoint calls {E} (tr : list (obs E)) : list call :=
  match tr with
  | [] => []
  | Ev _ :: r => calls r
  | Net c :: r => c :: calls r
  end.

(** The events of a trace, in order. *)
Fixpoint events {E} (tr : list (obs E)) : list E :=
  match tr with
  | [] => []
  | Ev e :: r => e :: events r
  | Net _ :: r => events r
  end.

Definition prefix_of {A} (p l : list A) : Prop := exists rest, l = p ++ rest.

(** ** The signed-in user *)

(** [User] of the Supabase client; the components read its [id]. *)
Record User : Type := mkUser { user_id : jsstring }.

(** [user?.id] *)
Definition user_id_opt (u : option User) : value :=
  match u with
  | Some u => VStr (user_id u)
  | None => VUndefined
  end.

End Ui.

Import Ui.

(* ================================================================== *)
(** * The migration: tables, constraints, policies                      *)
(* ================================================================== *)

Module Schema.

Local Open Scope string_scope.

(** The migration is declarative: it is embedded as data (columns,
    constraints, policies), and the statements below give it the meaning
    PostgreSQL gives it, as far as the components use the database: typed
    rows, NOT NULL, primary keys and UNIQUE, foreign keys with their
    ON DELETE action, and row-level security by permissive policies. *)

(** A uuid in the text form the database prints. *)
Definition uuid := jsstring.

(** [CREATE TYPE public.app_role AS ENUM ('student', 'professor', 'admin')] *)
Inductive app_role : Type := student | professor | admin.

Inductive sqlval : Type :=
| Null
| Uuid (u : uuid)
| TextV (s : jsstring)
| IntV (n : Z)
| Timestamptz (t : Z)
| Numeric (x : float)
| RoleV (r : app_role).

(** A row gives a value to each column; a column it does not list is
    [Null]. *)
Definition row := list (string * sqlval).

Fixpoint get (c : string) (r : row) : sqlval :=
  match r with
  | [] => Null
  | (c', v) :: r' => if String.eqb c c' then v else get c r'
  end.

Definition is_null (v : sqlval) : bool :=
  match v with Null => true | _ => false end.

Definition role_eqb (a b : app_role) : bool :=
  match a, b with
  | student, student | professor, professor | admin, admin => true
  | _, _ => false
  end.

(** SQL [a = b] taken as a condition: a comparison with NULL is not true. *)
Definition sql_eq (a b : sqlval) : bool :=
  match a, b with
  | Uuid x, Uuid y => jsstring_eqb x y
  | TextV x, TextV y => jsstring_eqb x y
  | IntV x, IntV y => Z.eqb x y
  | Timestamptz x, Timestamptz y => Z.eqb x y
  | Numeric x, Numeric y => PrimFloat.eqb x y
  | RoleV x, RoleV y => role_eqb x y
  | _, _ => false
  end.

Inductive table : Type :=
| auth_users          (* auth.users, kept by Supabase *)
| profiles
| user_roles
| courses
| attendance_records.

Definition table_eqb (a b : table) : bool :=
  match a, b with
  | auth_users, auth_users | profiles, profiles | user_roles, user_roles
  | courses, courses | attendance_records, attendance_records => true
  | _, _ => false
  end.

(** ** Table definitions *)

Inductive sqltype : Type :=
| UUID | TEXT | INTEGER | TIMESTAMPTZ | DECIMAL (precision scale : nat)
| APP_ROLE.

Inductive default : Type := NoDefault | gen_random_uuid | now.

Inductive on_delete : Type := NoAction | Cascade.

Record column : Type := mkColumn {
  c_name : string;
  c_type : sqltype;
  c_primary_key : bool;
  c_not_null : bool;
  c_default : default;
  c_references : option (table * on_delete)
}.

Definition col (name : string) (ty : sqltype) : column :=
  mkColumn name ty false false NoDefault None.
Definition PRIMARY_KEY (c : column) : column :=
  mkColumn (c_name c) (c_type c) true (c_not_null c) (c_default c)
           (c_references c).
Definition NOT_NULL (c : column) : column :=
  mkColumn (c_name c) (c_type c) (c_primary_key c) true (c_default c)
           (c_references c).
Definition DEFAULT (d : default) (c : column) : column :=
  mkColumn (c_name c) (c_type c) (c_primary_key c) (c_not_null c) d
           (c_references c).
Definition REFERENCES (t : table) (a : on_delete) (c : column) : column :=
  mkColumn (c_name c) (c_type c) (c_primary_key c) (c_not_null c)
           (c_default c) (Some (t, a)).

(** The columns of each table, as the [CREATE TABLE] statements give them.
    Of [auth.users] only the columns the migration reads are kept
    ([raw_user_meta_data->>'full_name'] as [full_name]).  Every reference
    is to the [id] column of the referenced table. *)
Definition columns (t : table) : list column :=
  match t with
  | auth_users =>
      [ PRIMARY_KEY (col "id" UUID);
        col "email" TEXT;
        col "full_name" TEXT ]
  | profiles =>
      [ REFERENCES auth_users Cascade (PRIMARY_KEY (col "id" UUID));
        NOT_NULL (col "email" TEXT);
        col "full_name" TEXT;
        DEFAULT now (NOT_NULL (col "created_at" TIMESTAMPTZ));
        DEFAULT now (NOT_NULL (col "updated_at" TIMESTAMPTZ)) ]
  | user_roles =>
      [ DEFAULT gen_random_uuid (PRIMARY_KEY (col "id" UUID));
        REFERENCES auth_users Cascade (NOT_NULL (col "user_id" UUID));
        NOT_NULL (col "role" APP_ROLE);
        DEFAULT now (NOT_NULL (col "created_at" TIMESTAMPTZ)) ]
  | courses =>
      [ DEFAULT gen_random_uuid (PRIMARY_KEY (col "id" UUID));
        NOT_NULL (col "name" TEXT);
        NOT_NULL (col "code" TEXT);
        REFERENCES auth_users Cascade (NOT_NULL (col "professor_id" UUID));
        col "semester" TEXT;
        col "year" INTEGER;
        col "qr_code_url" TEXT;
        DEFAULT now (NOT_NULL (col "created_at" TIMESTAMPTZ));
        DEFAULT now (NOT_NULL (col "updated_at" TIMESTAMPTZ)) ]
  | attendance_records =>
      [ DEFAULT gen_random_uuid (PRIMARY_KEY (col "id" UUID));
        REFERENCES auth_users Cascade (NOT_NULL (col "student_id" UUID));
        REFERENCES courses Cascade (NOT_NULL (col "course_id" UUID));
        DEFAULT now (NOT_NULL (col "checked_in_at" TIMESTAMPTZ));
        col "latitude" (DECIMAL 10 8);
        col "longitude" (DECIMAL 11 8);
        col "location_accuracy" (DECIMAL 10 2);
        DEFAULT now (NOT_NULL (col "created_at" TIMESTAMPTZ)) ]
  end.

(** Table-level [UNIQUE (...)] constraints. *)
Definition uniques (t : table) : list (list string) :=
  match t with
  | user_roles => [ ["user_id"; "role"] ]
  | _ => []
  end.

Definition all_tables : list table :=
  [auth_users; profiles; user_roles; courses; attendance_records].

(** ** Database states *)

Record database : Type := mkDb {
  t_auth_users : list row;
  t_profiles : list row;
  t_user_roles : list row;
  t_courses : list row;
  t_attendance_records : list row
}.

Definition empty_db : database := mkDb [] [] [] [] [].

Definition rows_of (t : table) (db : database) : list row :=
  match t with
  | auth_users => t_auth_users db
  | profiles => t_profiles db
  | user_roles => t_user_roles db
  | courses => t_courses db
  | attendance_records => t_attendance_records db
  end.

Definition with_rows (t : table) (l : list row) (db : database) : database :=
  match t with
  | auth_users =>
      mkDb l (t_profiles db) (t_user_roles db) (t_courses db)
           (t_attendance_records db)
  | profiles =>
      mkDb (t_auth_users db) l (t_user_roles db) (t_courses db)
           (t_attendance_records db)
  | user_roles =>
      mkDb (t_auth_users db) (t_profiles db) l (t_courses db)
           (t_attendance_records db)
  | courses =>
      mkDb (t_auth_users db) (t_profiles db) (t_user_roles db) l
           (t_attendance_records db)
  | attendance_records =>
      mkDb (t_auth_users db) (t_profiles db) (t_user_roles db)
           (t_courses db) l
  end.

(** ** Constraints *)

(** The sets of columns that must identify a row: the primary key and the
    [UNIQUE] constraints. *)
Definition keys (t : table) : list (list string) :=
  map (fun c => [c_name c]) (filter c_primary_key (columns t)) ++ uniques t.

(** A foreign key, read off a column definition. *)
Record foreign_key : Type := mkFk {
  fk_table : table;
  fk_column : string;
  fk_ref : table;
  fk_action : on_delete
}.

Definition foreign_keys_of (t : table) : list foreign_key :=
  flat_map (fun c =>
    match c_references c with
    | Some (t', a) => [mkFk t (c_name c) t' a]
    | None => []
    end) (columns t).

Definition foreign_keys : list foreign_key :=
  flat_map foreign_keys_of all_tables.

(** The foreign keys that reference table [t]. *)
Definition referencing (t : table) : list foreign_key :=
  filter (fun fk => table_eqb (fk_ref fk) t) foreign_keys.

(** A value fits a column when it is NULL or of the column's type. *)
Definition has_type (ty : sqltype) (v : sqlval) : bool :=
  match v, ty with
  | Null, _ => true
  | Uuid _, UUID => true
  | TextV _, TEXT => true
  | IntV _, INTEGER => true
  | Timestamptz _, TIMESTAMPTZ => true
  | Numeric _, DECIMAL _ _ => true
  | RoleV _, APP_ROLE => true
  | _, _ => false
  end.

Definition well_typed (t : table) (r : row) : bool :=
  forallb (fun c => has_type (c_type c) (get (c_name c) r)) (columns t).

Definition same_key (cols : list string) (r r' : row) : bool :=
  forallb (fun c => sql_eq (get c r) (get c r')) cols.

Definition not_null_violation (t : table) (r : row) : option string :=
  match filter (fun c => (c_primary_key c || c_not_null c)
                         && is_null (get (c_name c) r)) (columns t) with
  | c :: _ => Some (c_name c)
  | [] => None
  end.

Definition unique_violation (t : table) (r : row) (db : database)
  : option (list string) :=
  match filter (fun cols => existsb (same_key cols r) (rows_of t db))
               (keys t) with
  | cols :: _ => Some cols
  | [] => None
  end.

Definition fk_resolved (fk : foreign_key) (r : row) (db : database) : bool :=
  is_null (get (fk_column fk) r)
  || existsb (fun p => sql_eq (get "id" p) (get (fk_column fk) r))
             (rows_of (fk_ref fk) db).

Definition fk_violation (t : table) (r : row) (db : database)
  : option string :=
  match filter (fun fk => negb (fk_resolved fk r db)) (foreign_keys_of t) with
  | fk :: _ => Some (fk_column fk)
  | [] => None
  end.

(** [INSERT INTO t VALUES r]: the values must fit the columns, then the
    constraints of [t] are checked: not-null, then keys, then foreign keys.
    A violation leaves the database as it was. *)
Definition insert (t : table) (r : row) (db : database)
  : pg_error + database :=
  if negb (well_typed t r) then inl DatatypeMismatch
  else
    match not_null_violation t r with
    | Some c => inl (NotNullViolation c)
    | None =>
        match unique_violation t r db with
        | Some cols => inl (UniqueViolation cols)
        | None =>
            match fk_violation t r db with
            | Some c => inl (ForeignKeyViolation c)
            | None => inr (with_rows t (rows_of t db ++ [r]) db)
            end
        end
    end.

Definition mem (v : sqlval) (l : list sqlval) : bool :=
  existsb (sql_eq v) l.

(** [DELETE FROM t WHERE id IN ids] with the referential actions of the
    foreign keys that reference [t]: the rows that reference a deleted row
    are deleted in turn ([Cascade]) or block the statement ([NoAction],
    [None]).  [fuel] bounds the length of a chain of references. *)
Fixpoint delete_keys (fuel : nat) (t : table) (ids : list sqlval)
    (db : database) : option database :=
  match fuel with
  | O => None
  | S f =>
      let db1 :=
        with_rows t
          (filter (fun r => negb (mem (get "id" r) ids)) (rows_of t db)) db in
      fold_left
        (fun acc fk =>
           match acc with
           | None => None
           | Some d =>
               let hit :=
                 filter (fun r => mem (get (fk_column fk) r) ids)
                        (rows_of (fk_table fk) d) in
               match hit with
               | [] => Some d
               | _ :: _ =>
                   match fk_action fk with
                   | Cascade =>
                       delete_keys f (fk_table fk) (map (get "id") hit) d
                   | NoAction => None
                   end
               end
           end)
        (referencing t) (Some db1)
  end.

(** No chain of references is longer than the number of tables. *)
Definition delete_by_id (t : table) (id : uuid) (db : database)
  : option database :=
  delete_keys (List.length all_tables) t [Uuid id] db.

(** ** Row-level security *)

Inductive command : Type := SELECT | INSERT | UPDATE | DELETE.

Definition command_eqb (a b : command) : bool :=
  match a, b with
  | SELECT, SELECT | INSERT, INSERT | UPDATE, UPDATE | DELETE, DELETE => true
  | _, _ => false
  end.

(** [public.has_role(_user_id, _role)]: security definer, so it reads
    [user_roles] whatever the caller may see. *)
Definition has_role (db : database) (_user_id : option uuid)
    (_role : app_role) : bool :=
  match _user_id with
  | None => false
  | Some u =>
      existsb (fun r => sql_eq (get "user_id" r) (Uuid u)
                        && sql_eq (get "role" r) (RoleV _role))
              (rows_of user_roles db)
  end.

(** [auth.uid() = v]. *)
Definition is_uid (uid : option uuid) (v : sqlval) : bool :=
  match uid with
  | Some u => sql_eq (Uuid u) v
  | None => false
  end.

(** A policy: its [USING] expression (or [WITH CHECK] for INSERT), over the
    database, [auth.uid()] and the row. *)
Record policy : Type := mkPolicy {
  p_name : string;
  p_table : table;
  p_command : command;
  p_expr : database -> option uuid -> row -> bool
}.

Definition policies : list policy :=
  [ mkPolicy "Users can view all profiles" profiles SELECT
      (fun _ _ _ => true);
    mkPolicy "Users can update own profile" profiles UPDATE
      (fun _ uid r => is_uid uid (get "id" r));
    mkPolicy "Users can insert own profile" profiles INSERT
      (fun _ uid r => is_uid uid (get "id" r));
    mkPolicy "Users can view own roles" user_roles SELECT
      (fun _ uid r => is_uid uid (get "user_id" r));
    mkPolicy "Users can insert own role during signup" user_roles INSERT
      (fun _ uid r => is_uid uid (get "user_id" r));
    mkPolicy "Everyone can view courses" courses SELECT
      (fun _ _ _ => true);
    mkPolicy "Professors can create courses" courses INSERT
      (fun db uid _ => has_role db uid professor || has_role db uid admin);
    mkPolicy "Professors can update own courses" courses UPDATE
      (fun db uid r =>
         is_uid uid (get "professor_id" r) || has_role db uid admin);
    mkPolicy "Admins can delete courses" courses DELETE
      (fun db uid _ => has_role db uid admin);
    mkPolicy "Students can view own attendance" attendance_records SELECT
      (fun db uid r =>
         is_uid uid (get "student_id" r)
         || has_role db uid professor
         || has_role db uid admin);
    mkPolicy "Students can create own attendance" attendance_records INSERT
      (fun _ uid r => is_uid uid (get "student_id" r));
    mkPolicy "Professors and admins can update attendance"
      attendance_records UPDATE
      (fun db uid _ => has_role db uid professor || has_role db uid admin) ].

(** The four tables of the migration have row-level security enabled, so a
    command on a row passes when some policy of that table and command
    accepts the row. *)
Definition rls (t : table) (cmd : command) (db : database)
    (uid : option uuid) (r : row) : bool :=
  existsb (fun p => table_eqb (p_table p) t
                    && command_eqb (p_command p) cmd
                    && p_expr p db uid r) policies.

(** An INSERT sent through the API: the policy is checked on the new row,
    then the constraints. *)
Definition api_insert (t : table) (uid : option uuid) (r : row)
    (db : database) : pg_error + database :=
  if rls t INSERT db uid r then insert t r db else inl RlsViolation.

(** A DELETE of one row by id sent through the API: a row the policies do
    not show is not deleted, and that is no error. *)
Definition api_delete (t : table) (uid : option uuid) (id : uuid)
    (db : database) : option database :=
  if existsb (fun r => sql_eq (get "id" r) (Uuid id) && rls t DELETE db uid r)
             (rows_of t db)
  then delete_by_id t id db
  else Some db.

(** ** Updates *)

(** [public.update_updated_at_column()]: [NEW.updated_at = now()]. *)
Definition update_updated_at_column (clock : Z) (NEW : row) : row :=
  ("updated_at", Timestamptz clock) :: NEW.

(** Triggers [update_profiles_updated_at] and [update_courses_updated_at],
    BEFORE UPDATE, FOR EACH ROW. *)
Definition before_update (t : table) (clock : Z) (NEW : row) : row :=
  match t with
  | profiles | courses => update_updated_at_column clock NEW
  | _ => NEW
  end.

Fixpoint first_some {A B} (f : A -> option B) (l : list A) : option B :=
  match l with
  | [] => None
  | a :: l' =>
      match f a with
      | Some b => Some b
      | None => first_some f l'
      end
  end.

(** No later row agrees with an earlier one on the columns [cols]. *)
Fixpoint unique_onb (cols : list string) (l : list row) : bool :=
  match l with
  | [] => true
  | r :: l' =>
      forallb (fun r' => negb (same_key cols r' r)) l' && unique_onb cols l'
  end.

(** The first foreign key column, if any, of a row that references no
    row. *)
Definition fk_broken (db : database) : option string :=
  first_some (fun t => first_some (fun r => fk_violation t r db)
                                  (rows_of t db))
             all_tables.

(** [UPDATE t SET changes WHERE id = ...] sent through the API at time
    [clock].  The policies select the rows the client may update and are
    checked again on the new rows; the BEFORE UPDATE trigger of the table
    runs on each new row; the constraints are checked on the result (a
    referenced key that is changed away leaves a broken reference, which
    fails the statement: ON UPDATE is NO ACTION throughout). *)
Definition api_update (t : table) (uid : option uuid) (id : uuid)
    (changes : row) (clock : Z) (db : database) : pg_error + database :=
  let hit r := sql_eq (get "id" r) (Uuid id) && rls t UPDATE db uid r in
  let new r := before_update t clock (changes ++ r)%list in
  let l' := map (fun r => if hit r then new r else r) (rows_of t db) in
  let db' := with_rows t l' db in
  if negb (forallb (fun r => negb (hit r) || rls t UPDATE db uid (new r))
                   (rows_of t db))
  then inl RlsViolation
  else if negb (forallb (well_typed t) l') then inl DatatypeMismatch
  else
    match first_some (not_null_violation t) l' with
    | Some c => inl (NotNullViolation c)
    | None =>
        match filter (fun cols => negb (unique_onb cols l')) (keys t) with
        | cols :: _ => inl (UniqueViolation cols)
        | [] =>
            match fk_broken db' with
            | Some c => inl (ForeignKeyViolation c)
            | None => inr db'
            end
        end
    end.

(** ** Sign-up *)

(** Trigger [on_auth_user_created]: [handle_new_user] inserts the profile
    of the new user; [COALESCE(full_name, '')]. *)
Definition handle_new_user (NEW : row) (clock : Z) (db : database)
  : pg_error + database :=
  insert profiles
    [ ("id", get "id" NEW);
      ("email", get "email" NEW);
      ("full_name",
        match get "full_name" NEW with Null => TextV [] | v => v end);
      ("created_at", Timestamptz clock);
      ("updated_at", Timestamptz clock) ] db.

(** A new row of [auth.users]; the trigger runs in the same transaction. *)
Definition sign_up (id : uuid) (email : jsstring) (full_name : sqlval)
    (clock : Z) (db : database) : pg_error + database :=
  let NEW := [ ("id", Uuid id); ("email", TextV email);
               ("full_name", full_name) ] in
  match insert auth_users NEW db with
  | inl e => inl e
  | inr db1 => handle_new_user NEW clock db1
  end.

(** ** Statements, and the databases they lead to *)

(** The statements that change the data: a sign-up, an INSERT, an UPDATE
    or a DELETE sent through the API by the client [uid], and the removal
    of a user. *)
Inductive statement : Type :=
| SignUp (id : uuid) (email : jsstring) (full_name : sqlval) (clock : Z)
| ApiInsert (t : table) (uid : option uuid) (r : row)
| ApiUpdate (t : table) (uid : option uuid) (id : uuid) (changes : row)
            (clock : Z)
| ApiDelete (t : table) (uid : option uuid) (id : uuid)
| DeleteUser (id : uuid).

(** The database after a statement; [None] when the statement fails. *)
Definition execute (st : statement) (db : database) : option database :=
  match st with
  | SignUp id email full_name clock =>
      match sign_up id email full_name clock db with
      | inr db' => Some db'
      | inl _ => None
      end
  | ApiInsert t uid r =>
      match api_insert t uid r db with
      | inr db' => Some db'
      | inl _ => None
      end
  | ApiUpdate t uid id changes clock =>
      match api_update t uid id changes clock db with
      | inr db' => Some db'
      | inl _ => None
      end
  | ApiDelete t uid id => api_delete t uid id db
  | DeleteUser id => delete_by_id auth_users id db
  end.

Inductive reachable : database -> Prop :=
| reach_empty : reachable empty_db
| reach_step (db db' : database) (st : statement) :
    reachable db -> execute st db = Some db' -> reachable db'.

(** No later row agrees with an earlier one on the columns [cols]. *)
Fixpoint unique_on (cols : list string) (l : list row) : Prop :=
  match l with
  | [] => True
  | r :: l' =>
      (forall r', In r' l' -> same_key cols r' r = false)
      /\ unique_on cols l'
  end.

(** The rows of [user_roles] that pair the user [u] with the role [ro]. *)
Definition pairs (u : uuid) (ro : app_role) (db : database) : list row :=
  filter (fun r => sql_eq (get "user_id" r) (Uuid u)
                   && sql_eq (get "role" r) (RoleV ro))
         (rows_of user_roles db).


(** The database after a list of statements, run in order. *)
Fixpoint execute_all (sts : list statement) (db : database)
  : option database :=
  match sts with
  | [] => Some db
  | st :: rest =>
      match execute st db with
      | Some db' => execute_all rest db'
      | None => None
      end
  end.

(** ** Invariants *)

(** Every key of every table identifies its rows. *)
Definition keys_hold (db : database) : Prop :=
  forall t cols, In cols (keys t) -> unique_on cols (rows_of t db).

(** Every row fits its table: types and not-null columns. *)
Definition well_formed (db : database) : Prop :=
  forall t r, In r (rows_of t db) ->
    well_typed t r = true /\ not_null_violation t r = None.

(** [db'] has, in each table, some of the rows of [db]. *)
Definition shrinks (db db' : database) : Prop :=
  forall t, exists keep, rows_of t db' = filter keep (rows_of t db).

(** One referential action of a [DELETE]: the body of the fold in
    [delete_keys]. *)
Definition cascade_step (f : nat) (ids : list sqlval)
    (acc : option database) (fk : foreign_key) : option database :=
  match acc with
  | None => None
  | Some d =>
      let hit :=
        filter (fun r => mem (get (fk_column fk) r) ids)
               (rows_of (fk_table fk) d) in
      match hit with
      | [] => Some d
      | _ :: _ =>
          match fk_action fk with
          | Cascade => delete_keys f (fk_table fk) (map (get "id") hit) d
          | NoAction => None
          end
      end
  end.

(** The longest chain of references that ends at [t]. *)
Definition depth (t : table) : nat :=
  match t with
  | auth_users => 2
  | courses => 1
  | _ => 0
  end.

End Schema.

(* ================================================================== *)
(** * The hosted backend                                                *)
(* ================================================================== *)

Module Supabase.

Import Schema.
Local Open Scope string_scope.

(** The requests of the components, answered as the Supabase client,
    PostgREST and the database of the migration answer them. *)

(** What is taken as given of the JavaScript engine and of PostgreSQL:
    - [number_text m e]: [String(x)] for the number [x] read from the
      literal [m * 10^e];
    - [uuid_in]: the input function of type [uuid], [None] when the text is
      not a uuid;
    - [numeric_in p s x]: [x] stored in a [DECIMAL(p, s)] column (rounded
      to [s] decimals), [None] when it does not fit. *)
Record platform : Type := mkPlatform {
  number_text : Z -> Z -> jsstring;
  uuid_in : jsstring -> option uuid;
  numeric_in : nat -> nat -> float -> option float
}.

(** [String(v)], as [.eq] writes a filter value into the request URL;
    [None] is the TypeError of an object that has no text (see
    [has_text]), thrown before anything is sent. *)
Fixpoint ToString (P : platform) (v : value) : option jsstring :=
  match v with
  | VUndefined => Some (js "undefined")
  | VNull => Some (js "null")
  | VBool true => Some (js "true")
  | VBool false => Some (js "false")
  | VNum m e => Some (number_text P m e)
  | VStr s => Some s
  | VArr l =>
      (fix join (l : list value) : option jsstring :=
         match l with
         | [] => Some []
         | x :: r =>
             match ToString P x, join r with
             | Some a, Some b =>
                 Some (match x with
                       | VUndefined | VNull => []
                       | _ => a
                       end ++
                       match r with
                       | [] => []
                       | _ :: _ => 44%N :: b
                       end)%list
             | _, _ => None
             end
         end) l
  | VObj props =>
      match lookup (js "toString") props with
      | Some _ => None
      | None => Some (js "[object Object]")
      end
  end.

(** A uuid column of a JSON body: an omitted ([undefined]) or [null]
    property is NULL, a string goes through [uuid_in], nothing else is a
    uuid. *)
Definition json_uuid (P : platform) (v : value) : pg_error + sqlval :=
  match v with
  | VUndefined | VNull => inr Null
  | VStr s =>
      match uuid_in P s with
      | Some u => inr (Uuid u)
      | None => inl InvalidTextRepresentation
      end
  | _ => inl InvalidTextRepresentation
  end.

(** A decimal column of a JSON body; a number that is not finite is
    written as [null]. *)
Definition json_numeric (P : platform) (p s : nat) (x : option float)
  : pg_error + sqlval :=
  match x with
  | None => inr Null
  | Some x =>
      if PrimFloat.is_nan x || PrimFloat.is_infinity x then inr Null
      else
        match numeric_in P p s x with
        | Some y => inr (Numeric y)
        | None => inl NumericValueOutOfRange
        end
  end.

(** An integer column of a JSON body.  The number nearest to [z] is
    infinite from [2^1024 - 2^970] on, and then written as [null]. *)
Definition json_integer (z : option Z) : pg_error + sqlval :=
  match z with
  | None => inr Null
  | Some z =>
      if (2 ^ 1024 - 2 ^ 970 <=? Z.abs z)%Z then inr Null
      else if ((- 2 ^ 31 <=? z) && (z <? 2 ^ 31))%Z then inr (IntV z)
      else inl NumericValueOutOfRange
  end.

Definition json_text (s : option jsstring) : sqlval :=
  match s with
  | Some s => TextV s
  | None => Null
  end.

(** The state of the backend for one signed-in (or anonymous) client:
    the database, [auth.uid()], [now()], and the values
    [gen_random_uuid()] returns. *)
Record server : Type := mkServer {
  db : database;
  auth_uid : option uuid;
  clock : Z;
  fresh : nat -> uuid;
  used : nat
}.

Definition with_db (s : server) (d : database) : server :=
  mkServer d (auth_uid s) (clock s) (fresh s) (S (used s)).

(** [.single()]: the one row, or an error when there is none or more than
    one. *)
Definition single {A} (l : list A) : single_result A :=
  match l with
  | [x] => mkSingle (Some x) None
  | _ => mkSingle None (Some NotSingleRow)
  end.

(** A text or uuid column as the client receives it. *)
Definition as_text (v : sqlval) : jsstring :=
  match v with
  | Uuid u => u
  | TextV s => s
  | _ => []
  end.

Definition visible (t : table) (s : server) (r : row) : bool :=
  rls t SELECT (db s) (auth_uid s) r.

(** The value of a filter [column=eq.text] on a uuid column: the text the
    client wrote, read by [uuid_in].  A value that has no text is never
    sent. *)
Definition filter_uuid (P : platform) (v : value) : option uuid :=
  match ToString P v with
  | Some text => uuid_in P text
  | None => None
  end.

Definition courses_select_single (P : platform) (id : value) (s : server)
  : single_result course_row :=
  match filter_uuid P id with
  | None => mkSingle None (Some InvalidTextRepresentation)
  | Some u =>
      single
        (map (fun r => mkCourseRow (as_text (get "id" r))
                                   (as_text (get "name" r))
                                   (as_text (get "code" r)))
           (filter (fun r => visible courses s r
                             && sql_eq (get "id" r) (Uuid u))
                   (rows_of courses (db s))))
  end.

Definition in_range (gte lt : Z) (v : sqlval) : bool :=
  match v with
  | Timestamptz t => ((gte <=? t) && (t <? lt))%Z
  | _ => false
  end.

Definition attendance_select_single (P : platform)
    (student_id course_id : value) (gte lt : Z) (s : server)
  : single_result jsstring :=
  match filter_uuid P student_id, filter_uuid P course_id with
  | Some st, Some co =>
      single
        (map (fun r => as_text (get "id" r))
           (filter (fun r => visible attendance_records s r
                             && sql_eq (get "student_id" r) (Uuid st)
                             && sql_eq (get "course_id" r) (Uuid co)
                             && in_range gte lt (get "checked_in_at" r))
                   (rows_of attendance_records (db s))))
  | _, _ => mkSingle None (Some InvalidTextRepresentation)
  end.

(** The row an insert into [attendance_records] builds: the body's
    columns, the defaults for the others. *)
Definition attendance_row (P : platform) (p : attendance_insert)
    (s : server) : pg_error + row :=
  match json_uuid P (ai_student_id p) with
  | inl e => inl e
  | inr st =>
  match json_uuid P (ai_course_id p) with
  | inl e => inl e
  | inr co =>
  match json_numeric P 10 8 (ai_latitude p) with
  | inl e => inl e
  | inr la =>
  match json_numeric P 11 8 (ai_longitude p) with
  | inl e => inl e
  | inr lo =>
  match json_numeric P 10 2 (ai_location_accuracy p) with
  | inl e => inl e
  | inr ac =>
      inr [ ("id", Uuid (fresh s (used s)));
            ("student_id", st);
            ("course_id", co);
            ("checked_in_at", Timestamptz (clock s));
            ("latitude", la);
            ("longitude", lo);
            ("location_accuracy", ac);
            ("created_at", Timestamptz (clock s)) ]
  end end end end end.

Definition course_row_of (P : platform) (p : course_insert) (s : server)
  : pg_error + row :=
  match json_uuid P (ci_professor_id p) with
  | inl e => inl e
  | inr pr =>
  match json_integer (ci_year p) with
  | inl e => inl e
  | inr yr =>
      inr [ ("id", Uuid (fresh s (used s)));
            ("name", TextV (ci_name p));
            ("code", TextV (ci_code p));
            ("professor_id", pr);
            ("semester", json_text (ci_semester p));
            ("year", yr);
            ("qr_code_url", Null);
            ("created_at", Timestamptz (clock s));
            ("updated_at", Timestamptz (clock s)) ]
  end end.

Definition do_insert (t : table) (r : pg_error + row) (s : server)
  : option pg_error * server :=
  match r with
  | inl e => (Some e, s)
  | inr r =>
      match api_insert t (auth_uid s) r (db s) with
      | inl e => (Some e, s)
      | inr d => (None, with_db s d)
      end
  end.

Definition supabase (P : platform) : backend server :=
  mkBackend
    (fun c =>
       match c as c0 return server -> response c0 * server with
       | CoursesSelectSingle id =>
           fun s => (courses_select_single P id s, s)
       | AttendanceSelectSingle st co gte lt =>
           fun s => (attendance_select_single P st co gte lt s, s)
       | AttendanceInsert p =>
           fun s => do_insert attendance_records (attendance_row P p s) s
       | CoursesInsert p =>
           fun s => do_insert courses (course_row_of P p s) s
       end).

End Supabase.

(* ================================================================== *)
(** * QRCodeGenerator.tsx                                               *)
(* ================================================================== *)

Module QRCodeGenerator.

(** [qrData]; [timestamp] is [new Date().toISOString()] at render. *)
Definition qrData (courseId courseName courseCode timestamp : jsstring)
  : jsstring :=
  JSON_stringify
    [ (js "course_id", courseId);
      (js "course_name", courseName);
      (js "course_code", courseCode);
      (js "timestamp", timestamp) ].

End QRCodeGenerator.

(* ================================================================== *)
(** * ScanQR.tsx                                                        *)
(* ================================================================== *)

Module ScanQR.

Record Location : Type := mkLocation {
  lat : float;
  lng : float;
  accuracy : float
}.

(** The clock and the time zone of the browser: [Date_now] is
    [new Date()], [setHours0 d] is [d] after [d.setHours(0, 0, 0, 0)],
    [nextDate d] is [d] after [d.setDate(d.getDate() + 1)]. *)
Record Browser : Type := mkBrowser {
  Date_now : Z;
  setHours0 : Z -> Z;
  nextDate : Z -> Z
}.

(** The component's state that the handler reads. *)
Record state : Type := mkState {
  user : option User;
  location : option Location
}.

Inductive event : Type :=
| Toast (t : toast)
| StopScanning
| ConsoleError (label : jsstring) (e : js_error)
| NavigateAfter (ms : Z) (path : jsstring).

(** [x || null] on a number: zero and NaN are falsy. *)
Definition num_or_null (x : float) : option float :=
  if PrimFloat.is_zero x || PrimFloat.is_nan x then None else Some x.

(** [location?.f || null] *)
Definition coord (l : option Location) (f : Location -> float)
  : option float :=
  match l with
  | Some l => num_or_null (f l)
  | None => None
  end.

(** [courseData.course_id || courseData.id]; [None] is the TypeError of a
    property read on [null]. *)
Definition course_id_of (courseData : value) : option value :=
  match get_prop courseData (js "course_id") with
  | None => None
  | Some a =>
      if truthy a then Some a else get_prop courseData (js "id")
  end.

Definition invalid_qr : toast :=
  mkToast Destructive (js "Invalid QR Code")
    (Lit (js "The scanned QR code does not contain valid course information.")).

Definition course_not_found : toast :=
  mkToast Destructive (js "Course not found")
    (Lit (js "The scanned QR code references a course that doesn't exist.")).

Definition already_checked_in (course : course_row) : toast :=
  mkToast Destructive (js "Already checked in")
    (Lit (js "You've already checked in to " ++ cr_name course
          ++ js " today.")).

Definition check_in_successful (course : course_row) : toast :=
  mkToast Default (js "Check-in successful!")
    (Lit (js "You've been marked present for " ++ cr_name course
          ++ js " (" ++ cr_code course ++ js ").")).

Definition check_in_failed (e : js_error) : toast :=
  mkToast Destructive (js "Check-in failed")
    (message_or e (js "An error occurred while processing your check-in.")).

(** ** The position of the student *)





(** ** The scan *)

Definition handleQRCodeScanned (B : Browser) (st : state)
    (qrData : jsstring) : prog event unit :=
  try_catch
    (let courseData :=
       match JSON_parse qrData with
       | Some v => v
       | None => VObj [(js "course_id", VStr qrData)]
       end in
     match course_id_of courseData with
     | None => throw TypeError
     | Some courseId =>
         if negb (truthy courseId) then
           Emit (Toast invalid_qr) (Emit StopScanning (ret tt))
         else if negb (has_text courseId) then
           throw TypeError          (* in [.eq("id", courseId)] *)
         else
           Await (CoursesSelectSingle courseId) (fun r =>
             match error r, data r with
             | None, Some course =>
                 let today := setHours0 B (Date_now B) in
                 let tomorrow := nextDate B today in
                 Await (AttendanceSelectSingle (user_id_opt (user st))
                          courseId today tomorrow) (fun r2 =>
                   match data r2 with
                   | Some _ =>
                       Emit (Toast (already_checked_in course))
                         (Emit StopScanning (ret tt))
                   | None =>
                       Await (AttendanceInsert
                                (mkAttendanceInsert
                                   (user_id_opt (user st))
                                   courseId
                                   (coord (location st) lat)
                                   (coord (location st) lng)
                                   (coord (location st) accuracy)))
                         (fun insertError =>
                            match insertError with
                            | Some e => throw (PostgrestError e)
                            | None =>
                                Emit StopScanning
                                  (Emit (Toast (check_in_successful course))
                                     (Emit (NavigateAfter 2000 (js "/student"))
                                        (ret tt)))
                            end)
                   end)
             | _, _ =>
                 Emit (Toast course_not_found) (Emit StopScanning (ret tt))
             end)
     end)
    (fun error =>
       Emit (ConsoleError (js "Error processing QR code:") error)
         (Emit (Toast (check_in_failed error))
            (Emit StopScanning (Ret tt)))).

(** ** The requests and the outcomes of a scan *)

(** [courseData] after the inner [try]. *)
Definition courseData (qrData : jsstring) : value :=
  match JSON_parse qrData with
  | Some v => v
  | None => VObj [(js "course_id", VStr qrData)]
  end.

Definition lookup_call (courseId : value) : call :=
  CoursesSelectSingle courseId.

Definition duplicate_call (B : Browser) (st : state) (courseId : value)
  : call :=
  AttendanceSelectSingle (user_id_opt (user st)) courseId
    (setHours0 B (Date_now B)) (nextDate B (setHours0 B (Date_now B))).

Definition insert_call (st : state) (courseId : value) : call :=
  AttendanceInsert
    (mkAttendanceInsert (user_id_opt (user st)) courseId
       (coord (location st) lat) (coord (location st) lng)
       (coord (location st) accuracy)).

(** [!(courseError || !course)] *)
Definition found (r : single_result course_row) : bool :=
  match error r, data r with
  | None, Some _ => true
  | _, _ => false
  end.

(** The three requests of a check-in, in the order of the source. *)
Definition planned (B : Browser) (st : state) (courseId : value)
  : list call :=
  [lookup_call courseId; duplicate_call B st courseId;
   insert_call st courseId].

(** The ways a scan fails. *)
Inductive failure : Type :=
| PayloadIsNull                    (* the payload is the JSON text null *)
| NoCourseId
| IdHasNoText                      (* the course id is an object that
                                      [String] throws on *)
| CourseNotFound
| DuplicateCheckIn (course : course_row)
| InsertError (e : pg_error).

Inductive result : Type :=
| Failed (f : failure)
| CheckedIn (course : course_row).

(** How a scan ends, given what the backend answers. *)
Definition result_of {S} (b : backend S) (B : Browser) (st : state)
    (qrData : jsstring) (s : S) : result :=
  match course_id_of (courseData qrData) with
  | None => Failed PayloadIsNull
  | Some courseId =>
      if negb (truthy courseId) then Failed NoCourseId
      else if negb (has_text courseId) then Failed IdHasNoText
      else
        let '(r1, s1) := serve b (lookup_call courseId) s in
        match error r1, data r1 with
        | None, Some course =>
            let '(r2, s2) := serve b (duplicate_call B st courseId) s1 in
            match data r2 with
            | Some _ => Failed (DuplicateCheckIn course)
            | None =>
                match fst (serve b (insert_call st courseId) s2) with
                | Some e => Failed (InsertError e)
                | None => CheckedIn course
                end
            end
        | _, _ => Failed CourseNotFound
        end
  end.

(** The notification of each failure, and what is logged before it. *)
Definition failure_toast (f : failure) : toast :=
  match f with
  | PayloadIsNull | IdHasNoText => check_in_failed TypeError
  | NoCourseId => invalid_qr
  | CourseNotFound => course_not_found
  | DuplicateCheckIn course => already_checked_in course
  | InsertError e => check_in_failed (PostgrestError e)
  end.

Definition failure_log (f : failure) : list event :=
  match f with
  | PayloadIsNull | IdHasNoText =>
      [ConsoleError (js "Error processing QR code:") TypeError]
  | InsertError e =>
      [ConsoleError (js "Error processing QR code:") (PostgrestError e)]
  | _ => []
  end.

End ScanQR.

(* ================================================================== *)
(** * CreateCourse.tsx                                                  *)
(* ================================================================== *)

Module CreateCourse.

Local Open Scope N_scope.

(** [formData.get(field)] for the four inputs of the form: the text of
    the field, or [null] ([None]) when the form has no such field. *)
Record FormData : Type := mkFormData {
  get_name : option jsstring;
  get_code : option jsstring;
  get_semester : option jsstring;
  get_year : option jsstring
}.

(** [v || undefined] on a form value. *)
Definition or_undefined (v : option jsstring) : option jsstring :=
  match v with
  | Some s => if is_empty s then None else Some s
  | None => None
  end.

(** The value [courseSchema.parse] returns. *)
Record course_data : Type := mkCourseData {
  name : jsstring;
  code : jsstring;
  semester : option jsstring;
  year : option jsstring
}.

(** [z.string().min(1, message)] on the field [path]. *)
Definition string_min1 (path : string) (message : jsstring)
    (v : option jsstring) : list zod_issue :=
  match v with
  | None => [InvalidType path]
  | Some s => if (List.length s <? 1)%nat then [TooSmall path message] else []
  end.

(** [courseSchema.parse]: the issues of all fields are collected; the two
    optional fields accept a string or [undefined], which is all they are
    given. *)
Definition courseSchema_parse (n c se y : option jsstring)
  : list zod_issue + course_data :=
  match string_min1 "name" (js "Course name is required") n
        ++ string_min1 "code" (js "Course code is required") c with
  | [] =>
      match n, c with
      | Some n, Some c => inr (mkCourseData n c se y)
      | _, _ => inl []
      end
  | issues => inl issues
  end.

(** White space and line terminators that [parseInt] skips. *)
Definition is_StrWhiteSpaceChar (c : N) : bool :=
  existsb (N.eqb c)
    [9; 10; 11; 12; 13; 32; 160; 5760; 8192; 8193; 8194; 8195; 8196; 8197;
     8198; 8199; 8200; 8201; 8202; 8232; 8233; 8239; 8287; 12288; 65279].

Fixpoint trim_start (s : jsstring) : jsstring :=
  match s with
  | [] => []
  | c :: r => if is_StrWhiteSpaceChar c then trim_start r else s
  end.

Definition digit_value (radix c : N) : option N :=
  match hexval c with
  | Some d => if d <? radix then Some d else None
  | None => None
  end.

(** The digits at the front of [s], as a number in base [radix]. *)
Fixpoint digits_prefix (radix : N) (s : jsstring) (acc : option Z)
  : option Z :=
  match s with
  | [] => acc
  | c :: r =>
      match digit_value radix c with
      | Some d =>
          digits_prefix radix r
            (Some (match acc with Some a => a | None => 0 end
                   * Z.of_N radix + Z.of_N d)%Z)
      | None => acc
      end
  end.

(** [parseInt(s)] with no radix argument; [None] is [NaN]. *)
Definition parseInt (s : jsstring) : option Z :=
  let s1 := trim_start s in
  let '(neg, s2) :=
    match s1 with
    | 45 :: r => (true, r)
    | 43 :: r => (false, r)
    | _ => (false, s1)
    end in
  let '(radix, s3) :=
    match s2 with
    | 48 :: x :: r => if (x =? 120) || (x =? 88) then (16, r) else (10, s2)
    | _ => (10, s2)
    end in
  match digits_prefix radix s3 None with
  | Some n => Some (if neg then (- n)%Z else n)
  | None => None
  end.

Inductive event : Type :=
| PreventDefault
| SetLoading (b : bool)
| Toast (t : toast)
| ConsoleError (label : jsstring) (e : js_error)
| Navigate (path : jsstring).

Definition course_created (data : course_data) : toast :=
  mkToast Default (js "Course created!")
    (Lit (name data ++ js " has been successfully created.")).

Definition failed_to_create (e : js_error) : toast :=
  mkToast Destructive (js "Failed to create course")
    (message_or e (js "Please check your input and try again.")).

(** The object given to [insert]: [data.semester || null], and
    [data.year ? parseInt(data.year) : null]. *)
Definition course_of (user : option User) (data : course_data)
  : course_insert :=
  mkCourseInsert (name data) (code data) (user_id_opt user)
    (or_undefined (semester data))
    (match or_undefined (year data) with
     | Some y => parseInt y
     | None => None
     end).

Definition handleSubmit (user : option User) (formData : FormData)
  : prog event unit :=
  Emit PreventDefault
    (Emit (SetLoading true)
       (bind
          (try_catch
             (match courseSchema_parse
                      (get_name formData) (get_code formData)
                      (or_undefined (get_semester formData))
                      (or_undefined (get_year formData)) with
              | inl issues => throw (ZodError issues)
              | inr data =>
                  Await (CoursesInsert (course_of user data)) (fun error =>
                    match error with
                    | Some e => throw (PostgrestError e)
                    | None =>
                        Emit (Toast (course_created data))
                          (Emit (Navigate (js "/professor")) (ret tt))
                    end)
              end)
             (fun error =>
                Emit (ConsoleError (js "Error creating course:") error)
                  (Emit (Toast (failed_to_create error)) (Ret tt))))
          (fun _ => Emit (SetLoading false) (Ret tt)))).

(** What [courseSchema.parse] makes of the form in [handleSubmit]. *)
Definition parsed_form (formData : FormData) : list zod_issue + course_data :=
  courseSchema_parse (get_name formData) (get_code formData)
    (or_undefined (get_semester formData))
    (or_undefined (get_year formData)).

(** ** The outcomes of a submission *)

(** The ways a submission fails. *)
Inductive failure : Type :=
| Invalid (issues : list zod_issue)
| InsertFailed (e : pg_error).

Inductive result : Type :=
| Failed (f : failure)
| Created (data : course_data).

(** How a submission ends, given what the backend answers. *)
Definition result_of {S} (b : backend S) (user : option User)
    (formData : FormData) (s : S) : result :=
  match parsed_form formData with
  | inl issues => Failed (Invalid issues)
  | inr data =>
      match fst (serve b (CoursesInsert (course_of user data)) s) with
      | Some e => Failed (InsertFailed e)
      | None => Created data
      end
  end.


End CreateCourse.

(* ================================================================== *)
(** * The numbers of JavaScript                                         *)
(* ================================================================== *)

(** A JavaScript number is an IEEE 754 binary64 value.  The finite ones are
    the rationals [m * 2^e] with [|m| < 2^53] and [-1074 <= e <= 971], and
    the result of a multiplication or a division is the exact result rounded
    to the nearest of them, ties to the even significand.  The numbers of
    [ChatAnalytics] are far below [2^1024], so the overflow to [Infinity]
    is left out. *)
Module Binary64.

Local Open Scope Q_scope.

Definition pow2 (e : Z) : Q := 2 ^ e.

Definition binary64 (x : Q) : Prop :=
  exists m e : Z,
    x == inject_Z m * pow2 e /\ (Z.abs m < 2 ^ 53)%Z /\ (-1074 <= e <= 971)%Z.

(** The [k] with [2^k <= x < 2^(k+1)], for [x > 0]. *)
Definition binade (x : Q) : Z :=
  let k := (Z.log2 (Qnum x) - Z.log2 (Zpos (Qden x)))%Z in
  if Qle_bool (pow2 k) x then k else (k - 1)%Z.

(** The nearest integer, a half going to the even neighbour. *)
Definition nearest_even (q : Q) : Z :=
  let f := Qfloor q in
  match Qcompare (q - inject_Z f) (1 # 2) with
  | Lt => f
  | Gt => (f + 1)%Z
  | Eq => if Z.even f then f else (f + 1)%Z
  end.

(** The distance between the binary64 numbers around [x]: 53 bits of
    significand, and [2^-1074] below the smallest normal number. *)
Definition ulp (x : Q) : Q := pow2 (Z.max (binade (Qabs x)) (-1022) - 52).

Definition round64 (x : Q) : Q :=
  if Qeq_bool x 0 then 0 else inject_Z (nearest_even (x / ulp x)) * ulp x.

(** [a * b] and [a / b] on numbers. *)
Definition mul (a b : Q) : Q := round64 (a * b).
Definition div (a b : Q) : Q := round64 (a / b).

(** The two parts of the rounding error, [2^-53] of the value and, under
    the smallest normal number, less than [2^-107]. *)
Definition eps : Q := 1 # 9007199254740992.
Definition tiny : Q := 1 # 162259276829213363391578010288128.

End Binary64.

(* ================================================================== *)
(** * ChatAnalytics.tsx                                                 *)
(* ================================================================== *)

Module ChatAnalytics.

(** A course of the [courses] prop; the component reads these fields. *)
Record Course : Type := mkCourse {
  id : jsstring;
  name : jsstring;
  code : jsstring
}.

Record Student : Type := mkStudent {
  s_id : jsstring;
  s_name : jsstring;
  email : jsstring;
  attendance : Z;
  courseName : jsstring;
  courseCode : jsstring
}.

Definition firstNames : list jsstring :=
  map js
    [ "John"; "Jane"; "Michael"; "Emily"; "David"; "Sarah"; "James";
      "Jessica"; "Robert"; "Amanda"; "William"; "Ashley"; "Richard";
      "Melissa"; "Joseph"; "Nicole"; "Thomas"; "Michelle"; "Christopher";
      "Kimberly" ]%string.

Definition lastNames : list jsstring :=
  map js
    [ "Smith"; "Johnson"; "Williams"; "Brown"; "Jones"; "Garcia"; "Miller";
      "Davis"; "Rodriguez"; "Martinez"; "Hernandez"; "Lopez"; "Wilson";
      "Anderson"; "Thomas"; "Taylor"; "Moore"; "Jackson"; "Martin";
      "Lee" ]%string.

(** The pseudo-random generator: [draws n] is the value of the [n]-th call
    of [Math.random()], [next] the number of calls made so far. *)
Record Random : Type := mkRandom {
  draws : nat -> Q;
  next : nat
}.

Definition Math_random (g : Random) : Q * Random :=
  (draws g (next g), mkRandom (draws g) (S (next g))).

(** [Math.floor(Math.random() * n)]: the floor of the rounded product. *)
Definition random_below (n : Z) (g : Random) : Z * Random :=
  let '(r, g') := Math_random g in
  (Qfloor (Binary64.mul r (inject_Z n)), g').

(** [a[i]]: [undefined] ([None]) outside the array. *)
Definition index {A} (a : list A) (i : Z) : option A :=
  if (i <? 0)%Z then None else nth_error a (Z.to_nat i).

(** [toLowerCase] on the letters A to Z; the names of the two lists have
    no other upper-case letter. *)
Definition toLowerCase (s : jsstring) : jsstring :=
  map (fun c => if ((65 <=? c) && (c <=? 90))%N then (c + 32)%N else c) s.

(** A non-negative integer in a template literal. *)
Definition decimal (n : Z) : jsstring :=
  js (NilZero.string_of_uint (N.to_uint (Z.to_N n))).

(** The body of the [for] loop, [n] iterations from index [i]; [None] is
    the TypeError of [toLowerCase] on a name that is [undefined]. *)
Fixpoint generate (course : Course) (n : nat) (i : Z) (g : Random)
  : option (list Student * Random) :=
  match n with
  | O => Some ([], g)
  | S n' =>
      let '(fi, g1) := random_below (Z.of_nat (List.length firstNames)) g in
      let '(li, g2) := random_below (Z.of_nat (List.length lastNames)) g1 in
      let '(a, g3) := random_below 50 g2 in
      match index firstNames fi, index lastNames li with
      | Some firstName, Some lastName =>
          let student :=
            mkStudent
              (js "student-" ++ id course ++ js "-" ++ decimal i)
              (firstName ++ js " " ++ lastName)
              (toLowerCase firstName ++ js "." ++ toLowerCase lastName
               ++ js "@student.edu")
              (a + 40)
              (str_or (name course) (code course))
              (code course) in
          match generate course n' (i + 1) g3 with
          | Some (rest, g') => Some (student :: rest, g')
          | None => None
          end
      | _, _ => None
      end
  end.

(** One course of the [forEach]: the students it pushes. *)
Definition students_of_course (course : Course) (g : Random)
  : option (list Student * Random) :=
  let '(c, g1) := random_below 30 g in
  let studentCount := (c + 15)%Z in
  generate course (Z.to_nat studentCount) 0 g1.

Fixpoint allStudents (courses : list Course) (g : Random)
  : option (list Student * Random) :=
  match courses with
  | [] => Some ([], g)
  | course :: rest =>
      match students_of_course course g with
      | None => None
      | Some (l, g1) =>
          match allStudents rest g1 with
          | None => None
          | Some (l', g2) => Some (l ++ l', g2)
          end
      end
  end.

Inductive event : Type :=
| SetLoading (b : bool)
| SetStudents (l : list Student)
| SetSendingEmails (b : bool)
| Toast (t : toast)
| Sleep (ms : Z).

(** [loadFakeData]; it ends in a TypeError ([inl]) if a name is
    [undefined]. *)
Definition loadFakeData (courses : list Course) (g : Random)
  : prog event (js_error + unit) :=
  Emit (SetLoading true)
    (match allStudents courses g with
     | Some (l, _) => Emit (SetStudents l) (Emit (SetLoading false) (ret tt))
     | None => throw TypeError
     end).

(** The state of the component. *)
Record state : Type := mkState {
  students : list Student;
  loading : bool;
  sendingEmails : bool
}.

Definition initial : state := mkState [] true false.

Definition apply (st : state) (e : event) : state :=
  match e with
  | SetLoading b => mkState (students st) b (sendingEmails st)
  | SetStudents l => mkState l (loading st) (sendingEmails st)
  | SetSendingEmails b => mkState (students st) (loading st) b
  | Toast _ | Sleep _ => st
  end.

Definition lowAttendanceStudents (students : list Student) : list Student :=
  filter (fun s => (attendance s <? 75)%Z) students.

(** [Math.round]: the nearest integer, halves upwards. *)
Definition Math_round (q : Q) : Z := Qfloor (q + (1 # 2)).

Record course_bar : Type := mkBar {
  bar_name : jsstring;
  averageAttendance : Z;
  studentCount : nat
}.

(** The sum of the attendances, whole numbers far below [2^53], is exact;
    the quotient is rounded. *)
Definition courseAttendanceData (courses : list Course)
    (students : list Student) : list course_bar :=
  map (fun course =>
         let courseStudents :=
           filter (fun s => jsstring_eqb (courseCode s) (code course))
                  students in
         let avgAttendance :=
           if (0 <? List.length courseStudents)%nat then
             Math_round
               (Binary64.div
                  (inject_Z (fold_left (fun sum s => (sum + attendance s)%Z)
                                       courseStudents 0%Z))
                  (inject_Z (Z.of_nat (List.length courseStudents))))
           else 0%Z in
         mkBar (str_or (code course) (name course)) avgAttendance
               (List.length courseStudents))
      courses.

Definition no_students_to_email : toast :=
  mkToast Destructive (js "No students to email")
    (Lit (js "There are no students with attendance below 75%.")).

Definition warning_emails_sent (n : nat) : toast :=
  mkToast Default (js "Warning emails sent!")
    (Lit (js "Sent attendance warnings to " ++ decimal (Z.of_nat n)
          ++ js " student(s).")).

(** The button that calls [handleSendEmails] is rendered when the panel
    is not [loading], under [lowAttendanceStudents.length > 0]. *)
Definition send_button_rendered (st : state) : bool :=
  negb (loading st)
  && (0 <? List.length (lowAttendanceStudents (students st)))%nat.

Definition handleSendEmails (st : state) : prog event unit :=
  if (List.length (lowAttendanceStudents (students st)) =? 0)%nat then
    Emit (Toast no_students_to_email) (Ret tt)
  else
    Emit (SetSendingEmails true)
      (Emit (Sleep 1500)
         (Emit (SetSendingEmails false)
            (Emit (Toast (warning_emails_sent
                            (List.length
                               (lowAttendanceStudents (students st)))))
               (Ret tt)))).

(** A student made of the two name lists. *)
Definition from_name_lists (s : Student) : Prop :=
  exists firstName lastName,
    In firstName firstNames /\ In lastName lastNames
    /\ s_name s = firstName ++ js " " ++ lastName
    /\ email s = toLowerCase firstName ++ js "." ++ toLowerCase lastName
                 ++ js "@student.edu".

(** Every value of [Math.random()] is a number of [[0, 1)]. *)
Definition unit_draws (g : Random) : Prop :=
  forall n,
    (0 <= draws g n)%Q /\ (draws g n < 1)%Q /\ Binary64.binary64 (draws g n).

(** What [generate] promises of each student. *)
Definition generated_for (course : Course) (s : Student) : Prop :=
  (40 <= attendance s <= 89)%Z
  /\ courseCode s = code course
  /\ from_name_lists s.

(** The object pushed for [course] at index [i] of the loop, with the two
    names and the number drawn for the attendance. *)
Definition fake_student (course : Course) (i : Z)
    (firstName lastName : jsstring) (a : Z) : Student :=
  mkStudent
    (js "student-" ++ id course ++ js "-" ++ decimal i)
    (firstName ++ js " " ++ lastName)
    (toLowerCase firstName ++ js "." ++ toLowerCase lastName
     ++ js "@student.edu")
    (a + 40)
    (str_or (name course) (code course))
    (code course).

(** A student made for one of [courses] from a name of each list and a
    value of [Math.random()]. *)
Definition simulated (courses : list Course) (g : Random) (s : Student)
  : Prop :=
  exists course i firstName lastName k,
    In course courses /\ (0 <= i)%Z
    /\ In firstName firstNames /\ In lastName lastNames
    /\ s = fake_student course i firstName lastName
             (Qfloor (Binary64.mul (draws g k) (inject_Z 50))).

(** The state after the events of a handler. *)
Definition after_events (st : state) (es : list event) : state :=
  fold_left apply es st.

End ChatAnalytics.

(* ================================================================== *)
(** * A small school, for examples                                      *)
(* ================================================================== *)

Module Samples.

Import Schema Supabase ScanQR.
Local Open Scope string_scope.

(** A platform whose uuids are the texts of 36 characters. *)
Definition platform0 : platform :=
  mkPlatform (fun _ _ => js "0")
             (fun t => if (List.length t =? 36)%nat then Some t else None)
             (fun _ _ x => Some x).

Definition ada : uuid := js "11111111-1111-4111-8111-111111111111".
Definition prof : uuid := js "33333333-3333-4333-8333-333333333333".
Definition algebra : uuid := js "22222222-2222-4222-8222-222222222222".

(** 2025-11-08T10:07:59Z, and the start of that day. *)
Definition t0 : Z := 1762596479000.
Definition day0 : Z := 1762560000000.

Definition role_row (id user : uuid) (ro : app_role) : row :=
  [ ("id", Uuid id); ("user_id", Uuid user); ("role", RoleV ro);
    ("created_at", Timestamptz day0) ].

Definition algebra_course : row :=
  [ ("id", Uuid algebra); ("name", TextV (js "Algebra"));
    ("code", TextV (js "MATH101")); ("professor_id", Uuid prof);
    ("created_at", Timestamptz day0); ("updated_at", Timestamptz day0) ].

(** Ada and the professor sign up and take their roles; the professor
    creates Algebra. *)
Definition history0 : list statement :=
  [ SignUp ada (js "ada@student.edu") Null day0;
    SignUp prof (js "prof@uni.edu") Null day0;
    ApiInsert user_roles (Some ada)
      (role_row (js "44444444-4444-4444-8444-444444444444") ada student);
    ApiInsert user_roles (Some prof)
      (role_row (js "55555555-5555-4555-8555-555555555555") prof professor);
    ApiInsert courses (Some prof) algebra_course ].

Definition after (sts : list statement) : database :=
  match execute_all sts empty_db with
  | Some db => db
  | None => empty_db
  end.

Definition db0 : database := Eval vm_compute in after history0.

Definition fresh0 (n : nat) : uuid :=
  (js "a0000000-0000-4000-8000-00000000000"
   ++ [48 + N.of_nat (n mod 10)]%N)%list.

(** Ada signed in, the clock at [t0]. *)
Definition server0 : server := mkServer db0 (Some ada) t0 fresh0 0.

(** A browser on UTC. *)
Definition browser0 : Browser :=
  mkBrowser t0 (fun d => d - d mod 86400000)%Z (fun d => d + 86400000)%Z.

Definition paris : Location := mkLocation 48.5 2.25 12.5.

Definition ada_here : state := mkState (Some (mkUser ada)) (Some paris).
Definition ada_nowhere : state := mkState (Some (mkUser ada)) None.

Definition payload0 : jsstring :=
  QRCodeGenerator.qrData algebra (js "Algebra") (js "MATH101")
    (js "2025-11-08T10:00:00.000Z").

(** The text [{"course_id":{"toString":1}}]: a course id that is an
    object with a property [toString]. *)
Definition payload_toString : jsstring :=
  (js "{" ++ [34%N] ++ js "course_id" ++ [34%N] ++ js ":{" ++ [34%N]
   ++ js "toString" ++ [34%N] ++ js ":1}}")%list.

Definition algebra_row : course_row :=
  mkCourseRow algebra (js "Algebra") (js "MATH101").

(** An attendance row of Ada for Algebra, checked in at [t]. *)
Definition checked_in (id : uuid) (t : Z) : row :=
  [ ("id", Uuid id); ("student_id", Uuid ada); ("course_id", Uuid algebra);
    ("checked_in_at", Timestamptz t); ("latitude", Null);
    ("longitude", Null); ("location_accuracy", Null);
    ("created_at", Timestamptz t) ].

Definition first_check_in : statement :=
  ApiInsert attendance_records (Some ada)
    (checked_in (js "66666666-6666-4666-8666-666666666666") (day0 + 1000)).

Definition second_check_in : statement :=
  ApiInsert attendance_records (Some ada)
    (checked_in (js "77777777-7777-4777-8777-777777777777") (day0 + 2000)).

(** Ada has one record for Algebra on that day. *)
Definition db1 : database :=
  Eval vm_compute in after (history0 ++ [first_check_in]).

(** Ada has two records for Algebra on that day: the policies let her
    insert rows of her own, and no constraint forbids a second one. *)
Definition db2 : database :=
  Eval vm_compute in after (history0 ++ [first_check_in; second_check_in]).

Definition server1 : server := mkServer db1 (Some ada) t0 fresh0 0.
Definition server2 : server := mkServer db2 (Some ada) t0 fresh0 0.

(** The professor signed in. *)
Definition prof_server : server := mkServer db0 (Some prof) t0 fresh0 0.

(** The form filled in for Geometry, semester left empty, no year. *)
Definition geometry_form : CreateCourse.FormData :=
  CreateCourse.mkFormData (Some (js "Geometry")) (Some (js "MATH102"))
    (Some []) None.

(** A generator whose values are 0, 1/16, ..., 15/16, 0, ... *)
Definition g0 : ChatAnalytics.Random :=
  ChatAnalytics.mkRandom (fun n => Z.of_nat (n mod 16) # 16) 0.

(** The courses given to the analytics panel; the second has no name. *)
Definition two_courses : list ChatAnalytics.Course :=
  [ ChatAnalytics.mkCourse algebra (js "Algebra") (js "MATH101");
    ChatAnalytics.mkCourse (js "88888888-8888-4888-8888-888888888888") []
      (js "MATH102") ].

(** The panel once [loadFakeData] has run on these courses. *)
Definition loaded : ChatAnalytics.state :=
  ChatAnalytics.mkState
    (match ChatAnalytics.allStudents two_courses g0 with
     | Some (l, _) => l
     | None => []
     end)
    false false.

(** A value of [Math.random()] just under 17/30. *)
Definition under_17_30 : Q := 2552039788843281 # 4503599627370496.

End Samples.

Unset Implicit Arguments.

(* ================================================================== *)
(** * ProfessorDashboard.tsx                                            *)
(* ================================================================== *)

Module ProfessorDashboard.

Import Schema Supabase.
Local Open Scope string_scope.

(** The instant of a [timestamptz] value. *)
Definition instant (v : sqlval) : Z :=
  match v with
  | Timestamptz t => t
  | _ => 0
  end.

(** [.order("created_at", { ascending: false })]: the rows from the newest
    to the oldest; rows of the same instant stay in the order of the
    table. *)
Fixpoint insert_desc (r : row) (l : list row) : list row :=
  match l with
  | [] => [r]
  | x :: l' =>
      if (instant (get "created_at" x) <=? instant (get "created_at" r))%Z
      then r :: l
      else x :: insert_desc r l'
  end.

Definition order_created_at_desc (l : list row) : list row :=
  fold_right insert_desc [] l.

(** [from("courses").select("*").eq("professor_id", userId)
    .order("created_at", { ascending: false })] *)
Definition courses_of_professor (P : platform) (userId : jsstring)
    (s : server) : pg_error + list row :=
  match uuid_in P userId with
  | None => inl InvalidTextRepresentation
  | Some u =>
      inr (order_created_at_desc
             (filter (fun r => visible courses s r
                               && sql_eq (get "professor_id" r) (Uuid u))
                     (rows_of courses (db s))))
  end.

Inductive event : Type :=
| Toast (t : toast)
| SetCourses (l : list row).

Definition error_loading_courses (e : pg_error) : toast :=
  mkToast Destructive (js "Error loading courses")
    (MessageOf (PostgrestError e)).

(** [loadCourses(userId)], given the answer of the query. *)
Definition loadCourses (P : platform) (userId : jsstring) (s : server)
  : list event :=
  match courses_of_professor P userId s with
  | inl e => [Toast (error_loading_courses e)]
  | inr data => [SetCourses data]
  end.

(** The text of the QR code the dashboard renders for a listed course:
    [QRCodeGenerator] with [courseId={course.id}],
    [courseName={course.name}] and [courseCode={course.code}]. *)
Definition qr_of (timestamp : jsstring) (course : row) : jsstring :=
  QRCodeGenerator.qrData (as_text (get "id" course))
    (as_text (get "name" course)) (as_text (get "code" course)) timestamp.

(** From the newest to the oldest. *)
Fixpoint newest_first (l : list row) : Prop :=
  match l with
  | [] => True
  | r :: l' =>
      (forall x, In x l' ->
         (instant (get "created_at" x) <= instant (get "created_at" r))%Z)
      /\ newest_first l'
  end.

End ProfessorDashboard.

(* ================================================================== *)
(** * Notions the properties below are stated with                      *)
(* ================================================================== *)

Module Integrity.

Import Schema.
Local Open Scope string_scope.

(** Every reference resolves, but for those [D] excuses. *)
Definition resolved_but (D : foreign_key -> sqlval -> Prop) (db : database)
  : Prop :=
  forall fk r, In fk foreign_keys -> In r (rows_of (fk_table fk) db) ->
    fk_resolved fk r db = true \/ D fk (get (fk_column fk) r).

(** Every reference of every row names a row of the referenced table. *)
Definition references_hold (db : database) : Prop :=
  forall fk r, In fk foreign_keys -> In r (rows_of (fk_table fk) db) ->
    exists p, In p (rows_of (fk_ref fk) db)
              /\ get "id" p = get (fk_column fk) r.

(** The row a client sends to [user_roles] to take the role [ro]. *)
Definition own_role (rid u : uuid) (ro : app_role) (clock : Z) : row :=
  [ ("id", Uuid rid); ("user_id", Uuid u); ("role", RoleV ro);
    ("created_at", Timestamptz clock) ].

End Integrity.

Module Scans.

Import Schema Supabase ScanQR.
Local Open Scope string_scope.


(** A JSON value that is not an object. *)
Definition not_an_object (v : value) : Prop := forall props, v <> VObj props.

(** The records the duplicate check of a scan looks for: those of the
    student [u] for the course [co], checked in on the browser's day. *)
Definition checked_in_today (B : Browser) (u co : uuid) (d : database)
  : list row :=
  filter (fun r => sql_eq (get "student_id" r) (Uuid u)
                   && sql_eq (get "course_id" r) (Uuid co)
                   && in_range (setHours0 B (Date_now B))
                               (nextDate B (setHours0 B (Date_now B)))
                               (get "checked_in_at" r))
         (rows_of attendance_records d).

End Scans.

Module Years.

Import CreateCourse.

(** The number a text of decimal digits writes. *)
Definition decimal_value (ds : jsstring) : Z :=
  digits_value (map (fun c => c - 48)%N ds).

(** The form filled in for Geometry, in the fall of 2025. *)
Definition form_2025 : FormData :=
  mkFormData (Some (js "Geometry")) (Some (js "MATH102"))
    (Some (js "Fall")) (Some (js "2025")).

End Years.

Module AnalyticsView.

Import ChatAnalytics.

(** The figure of the [Avg Attendance] card:
    [students.length > 0 ? Math.round(sum / students.length) : 0]. *)
Definition overallAverage (students : list Student) : Z :=
  if (0 <? List.length students)%nat then
    Math_round
      (Binary64.div
         (inject_Z (fold_left (fun sum s => (sum + attendance s)%Z)
                              students 0%Z))
         (inject_Z (Z.of_nat (List.length students))))
  else 0%Z.

(** The students [courseAttendanceData] counts for a course. *)
Definition courseStudents (course : Course) (students : list Student)
  : list Student :=
  filter (fun s => jsstring_eqb (courseCode s) (code course)) students.

(** The sum of a list of counts. *)
Definition total (l : list nat) : nat := fold_right Nat.add 0%nat l.

(** A student whose id is [`student-${course.id}-${k}`] for one of the
    courses. *)
Definition made_for (courses : list Course) (s : Student) : Prop :=
  exists c k, In c courses /\ (0 <= k)%Z
              /\ s_id s = (js "student-" ++ id c ++ js "-" ++ decimal k)%list.

End AnalyticsView.


(* ================================================================== *)
(** * JSON: what the generator writes, the scanner reads                *)
(* ================================================================== *)

Module JsonFacts.

Local Open Scope N_scope.

Ltac test_N :=
  repeat match goal with
         | |- context [N.eqb ?a ?b] => destruct (N.eqb_spec a b); try lia
         | |- context [N.leb ?a ?b] => destruct (N.leb_spec a b); try lia
         | |- context [N.ltb ?a ?b] => destruct (N.ltb_spec a b); try lia
         end.

Lemma hexval_hexdigit (d : N) : d < 16 -> hexval (hexdigit d) = Some d.
Proof.
  intros Hd. unfold hexdigit, hexval.
  destruct (N.ltb_spec d 10); test_N; cbn [andb]; f_equal; lia.
Qed.

Lemma hex4_UnicodeEscape (c : N) :
  c < 65536 ->
  hex4 (hexdigit (c / 4096 mod 16)) (hexdigit (c / 256 mod 16))
       (hexdigit (c / 16 mod 16)) (hexdigit (c mod 16)) = Some c.
Proof.
  intros Hc. unfold hex4.
  rewrite !hexval_hexdigit by (apply N.mod_lt; lia).
  f_equal.
  replace (c / 256) with (c / 16 / 16) by (rewrite N.Div0.div_div; reflexivity).
  replace (c / 4096) with (c / 16 / 16 / 16)
    by (rewrite !N.Div0.div_div; reflexivity).
  pose proof (N.div_mod c 16 ltac:(lia)) as H1.
  pose proof (N.div_mod (c/16) 16 ltac:(lia)) as H2.
  pose proof (N.div_mod (c/16/16) 16 ltac:(lia)) as H3.
  pose proof (N.mod_lt c 16 ltac:(lia)).
  pose proof (N.mod_lt (c/16) 16 ltac:(lia)).
  pose proof (N.mod_lt (c/16/16) 16 ltac:(lia)).
  assert (c / 16 / 16 / 16 < 16).
  { rewrite !N.Div0.div_div. apply N.Div0.div_lt_upper_bound. 
    change (16 * 16 * 16 * 16) with 65536. exact Hc. }
  rewrite (N.mod_small (c / 16 / 16 / 16) 16) by assumption.
  generalize dependent (c / 16 / 16 / 16).
  generalize dependent (c / 16 / 16). generalize dependent (c / 16).
  intros. lia.
Qed.

Lemma parse_chars_UnicodeEscape (c : N) (rest : jsstring) :
  c < 65536 ->
  parse_chars (UnicodeEscape c ++ rest) = cons_fst c (parse_chars rest).
Proof.
  intros Hc. unfold UnicodeEscape.
  cbn [app parse_chars N.eqb Pos.eqb].
  rewrite hex4_UnicodeEscape by assumption. reflexivity.
Qed.

Lemma parse_chars_plain (c : N) (rest : jsstring) :
  c <> 34 -> c <> 92 -> 32 <= c ->
  parse_chars (c :: rest) = cons_fst c (parse_chars rest).
Proof.
  intros H1 H2 H3. cbn [parse_chars]. test_N. reflexivity.
Qed.

Lemma parse_chars_quote_unit (c : N) (rest : jsstring) :
  parse_chars (quote_unit c ++ rest) = cons_fst c (parse_chars rest).
Proof.
  unfold quote_unit.
  destruct (N.eqb_spec c 8) as [->|]; [reflexivity|].
  destruct (N.eqb_spec c 9) as [->|]; [reflexivity|].
  destruct (N.eqb_spec c 10) as [->|]; [reflexivity|].
  destruct (N.eqb_spec c 12) as [->|]; [reflexivity|].
  destruct (N.eqb_spec c 13) as [->|]; [reflexivity|].
  destruct (N.eqb_spec c 34) as [->|]; [reflexivity|].
  destruct (N.eqb_spec c 92) as [->|]; [reflexivity|].
  destruct (N.ltb_spec c 32) as [Hlt|Hge]; cbn [orb].
  - apply parse_chars_UnicodeEscape. lia.
  - unfold is_surrogate.
    destruct (N.leb_spec 55296 c); cbn [andb].
    + destruct (N.leb_spec c 57343).
      * apply parse_chars_UnicodeEscape. lia.
      * apply parse_chars_plain; assumption.
    + apply parse_chars_plain; assumption.
Qed.

(** A string literal written by [QuoteJSONString] is read back as the
    string it was written from. *)
Lemma parse_chars_quote_body (n : nat) :
  forall (s rest : jsstring),
    (List.length s <= n)%nat ->
    parse_chars (quote_body s ++ 34 :: rest) = Some (s, rest).
Proof.
  induction n as [|n IH]; intros s rest Hlen.
  - destruct s; [reflexivity | cbn in Hlen; lia].
  - destruct s as [|c r]; [reflexivity|].
    cbn [quote_body].
    destruct (is_high_surrogate c) eqn:Hh.
    + unfold is_high_surrogate in Hh.
      apply andb_true_iff in Hh. destruct Hh as [Ha Hb].
      apply N.leb_le in Ha. apply N.leb_le in Hb.
      destruct r as [|d r'].
      * rewrite parse_chars_UnicodeEscape by lia. reflexivity.
      * destruct (is_low_surrogate d) eqn:Hl.
        -- unfold is_low_surrogate in Hl.
           apply andb_true_iff in Hl. destruct Hl as [Hc Hd].
           apply N.leb_le in Hc. apply N.leb_le in Hd.
           cbn [app].
           rewrite parse_chars_plain by lia.
           rewrite parse_chars_plain by lia.
           rewrite IH by (cbn in Hlen; lia). reflexivity.
        -- rewrite <- app_assoc.
           rewrite parse_chars_UnicodeEscape by lia.
           rewrite IH by (cbn in Hlen |- *; lia). reflexivity.
    + rewrite <- app_assoc. rewrite parse_chars_quote_unit.
      rewrite IH by (cbn in Hlen; lia). reflexivity.
Qed.

Lemma parse_value_string (f : nat) (s rest : jsstring) :
  parse_value (S f) (QuoteJSONString s ++ rest) = Some (VStr s, rest).
Proof.
  unfold QuoteJSONString. cbn [app parse_value skip_ws is_ws N.eqb Pos.eqb orb].
  rewrite <- app_assoc. cbn [app].
  rewrite (parse_chars_quote_body (List.length s)) by lia. reflexivity.
Qed.

Lemma parse_members_stringify (ps : list (jsstring * jsstring)) :
  forall (f : nat) (rest : jsstring),
    ps <> [] ->
    (List.length ps < f)%nat ->
    parse_members f (stringify_members ps ++ 125 :: rest)
    = Some (parsed ps, rest).
Proof.
  induction ps as [|[k v] ps IH]; intros f rest Hne Hf; [congruence|].
  destruct f as [|f1]; [lia|].
  assert (Hf1 : exists f2, f1 = S f2).
  { destruct f1; [cbn in Hf; lia | eauto]. }
  cbn [stringify_members].
  unfold QuoteJSONString at 1.
  rewrite <- !app_assoc.
  cbn [app parse_members skip_ws is_ws N.eqb Pos.eqb orb].
  rewrite <- !app_assoc. cbn [app].
  rewrite (parse_chars_quote_body (List.length k)) by lia.
  cbn [skip_ws is_ws N.eqb Pos.eqb orb].
  destruct Hf1 as [f2 Hf2].
  rewrite Hf2 at 1. rewrite parse_value_string.
  destruct ps as [|kv ps'].
  - cbn [app skip_ws is_ws N.eqb Pos.eqb orb]. reflexivity.
  - cbn [app skip_ws is_ws N.eqb Pos.eqb orb].
    rewrite IH by (try discriminate; cbn in Hf |- *; lia).
    reflexivity.
Qed.

Lemma stringify_members_length (ps : list (jsstring * jsstring)) :
  (List.length ps <= List.length (stringify_members ps))%nat.
Proof.
  induction ps as [|[k v] ps IH]; [cbn; lia|].
  cbn [stringify_members]. unfold QuoteJSONString.
  cbn [app List.length]. repeat (rewrite length_app; cbn [List.length]).
  destruct ps as [|kv ps']; cbn [List.length] in *; lia.
Qed.

(** [JSON.parse(JSON.stringify(o))] for an object [o] of string
    properties is an object with the same properties. *)
Lemma JSON_parse_stringify (ps : list (jsstring * jsstring)) :
  JSON_parse (JSON_stringify ps) = Some (VObj (parsed ps)).
Proof.
  unfold JSON_parse, JSON_stringify.
  destruct ps as [|kv ps'].
  - reflexivity.
  - cbn [parse_value skip_ws is_ws N.eqb Pos.eqb orb].
    remember (kv :: ps') as ps eqn:Eps.
    assert (Hhead : exists t, stringify_members ps ++ [125] = 34 :: t).
    { subst ps. destruct kv as [k v]. cbn [stringify_members].
      unfold QuoteJSONString at 1. cbn [app]. eauto. }
    destruct Hhead as [t Ht]. rewrite Ht.
    cbn [skip_ws is_ws N.eqb Pos.eqb orb].
    rewrite <- Ht.
    rewrite parse_members_stringify.
    + reflexivity.
    + subst ps. discriminate.
    + pose proof (stringify_members_length ps).
      cbn [List.length]. rewrite ?length_app. cbn [List.length]. lia.
Qed.

End JsonFacts.

(* ================================================================== *)
(** * The schema                                                        *)
(* ================================================================== *)

Module SchemaFacts.

Import Schema Supabase Samples.

Lemma rows_of_with_rows (t t' : table) (l : list row) (db : database) :
  rows_of t' (with_rows t l db)
  = if table_eqb t t' then l else rows_of t' db.
Proof. destruct t, t'; reflexivity. Qed.

Lemma with_rows_same (t : table) (db : database) :
  with_rows t (rows_of t db) db = db.
Proof. destruct t, db; reflexivity. Qed.

Lemma table_eqb_refl (t : table) : table_eqb t t = true.
Proof. destruct t; reflexivity. Qed.

Lemma filter_nil_forall {A} (f : A -> bool) (l : list A) :
  filter f l = [] -> forall x, In x l -> f x = false.
Proof.
  induction l as [|a l IH]; intros H x Hin; [destruct Hin|].
  cbn in H. destruct (f a) eqn:E; [discriminate|].
  destruct Hin as [<- | Hin]; [exact E | apply IH; assumption].
Qed.

Lemma existsb_false_forall {A} (f : A -> bool) (l : list A) :
  existsb f l = false -> forall x, In x l -> f x = false.
Proof.
  induction l as [|a l IH]; intros H x Hin; [destruct Hin|].
  cbn in H. apply orb_false_iff in H. destruct H as [H1 H2].
  destruct Hin as [<- | Hin]; [exact H1 | apply IH; assumption].
Qed.

Lemma unique_on_app (cols : list string) (l : list row) (r : row) :
  unique_on cols l ->
  (forall r', In r' l -> same_key cols r r' = false) ->
  unique_on cols (l ++ [r]).
Proof.
  induction l as [|a l IH]; intros Hu Hr.
  - cbn. split; [intros r' []| exact I].
  - cbn [app unique_on]. destruct Hu as [Ha Hu]. split.
    + intros r' Hin. apply in_app_or in Hin. destruct Hin as [Hin | [<- | []]].
      * apply Ha. exact Hin.
      * apply Hr. left. reflexivity.
    + apply IH; [exact Hu|]. intros r' Hin. apply Hr. right. exact Hin.
Qed.

Lemma unique_on_filter (cols : list string) (keep : row -> bool)
    (l : list row) :
  unique_on cols l -> unique_on cols (filter keep l).
Proof.
  induction l as [|a l IH]; intros Hu; [exact I|].
  destruct Hu as [Ha Hu]. cbn [filter].
  destruct (keep a).
  - split; [|apply IH; exact Hu].
    intros r' Hin. apply filter_In in Hin. apply Ha. apply Hin.
  - apply IH. exact Hu.
Qed.

Lemma shrinks_refl (db : database) : shrinks db db.
Proof.
  intros t. exists (fun _ => true).
  symmetry. apply forallb_filter_id. apply forallb_forall. reflexivity.
Qed.

Lemma filter_filter {A} (f g : A -> bool) (l : list A) :
  filter g (filter f l) = filter (fun x => f x && g x) l.
Proof.
  induction l as [|a l IH]; [reflexivity|].
  cbn [filter]. destruct (f a); cbn [filter andb]; rewrite IH; reflexivity.
Qed.

Lemma shrinks_trans (a b c : database) :
  shrinks a b -> shrinks b c -> shrinks a c.
Proof.
  intros H1 H2 t. destruct (H1 t) as [f Hf]. destruct (H2 t) as [g Hg].
  exists (fun x => f x && g x). rewrite Hg, Hf. apply filter_filter.
Qed.

Lemma shrinks_with_rows (t : table) (keep : row -> bool) (db : database) :
  shrinks db (with_rows t (filter keep (rows_of t db)) db).
Proof.
  intros t'. rewrite rows_of_with_rows.
  destruct (table_eqb t t') eqn:E.
  - exists keep. destruct t, t'; try discriminate; reflexivity.
  - apply shrinks_refl.
Qed.

Lemma delete_keys_shrinks (fuel : nat) :
  forall t ids db db',
    delete_keys fuel t ids db = Some db' -> shrinks db db'.
Proof.
  induction fuel as [|f IH]; intros t ids db db' H; [discriminate|].
  cbn [delete_keys] in H.
  set (db1 := with_rows t _ db) in H.
  assert (H1 : shrinks db db1) by apply shrinks_with_rows.
  revert H1 H. generalize db1. clear db1.
  induction (referencing t) as [|fk fks IHf]; intros d Hd H.
  - cbn in H. injection H as <-. exact Hd.
  - cbn [fold_left] in H.
    destruct (filter _ (rows_of (fk_table fk) d)) as [|h hs] eqn:Eh.
    + apply (IHf d); assumption.
    + destruct (fk_action fk).
      * exfalso. clear - H. induction fks as [|x xs IHx]; cbn in H;
          [discriminate | auto].
      * destruct (delete_keys f (fk_table fk) (map (get "id") (h :: hs)) d)
          as [d2|] eqn:Ed.
        -- apply (IHf d2); [|exact H].
           eapply shrinks_trans; [exact Hd|]. eapply IH. exact Ed.
        -- exfalso. clear - H. induction fks as [|x xs IHx]; cbn in H;
             [discriminate | auto].
Qed.

Lemma keys_hold_shrinks (db db' : database) :
  shrinks db db' -> keys_hold db -> keys_hold db'.
Proof.
  intros Hs Hk t cols Hin. destruct (Hs t) as [keep ->].
  apply unique_on_filter. apply Hk. exact Hin.
Qed.

Lemma well_formed_shrinks (db db' : database) :
  shrinks db db' -> well_formed db -> well_formed db'.
Proof.
  intros Hs Hw t r Hin. destruct (Hs t) as [keep Hk].
  rewrite Hk in Hin. apply filter_In in Hin. apply Hw. apply Hin.
Qed.

Lemma insert_inr (t : table) (r : row) (db db' : database) :
  insert t r db = inr db' ->
  well_typed t r = true
  /\ not_null_violation t r = None
  /\ unique_violation t r db = None
  /\ fk_violation t r db = None
  /\ db' = with_rows t (rows_of t db ++ [r]) db.
Proof.
  unfold insert. intros H.
  destruct (well_typed t r); [|discriminate]. cbn [negb] in H.
  destruct (not_null_violation t r); [discriminate|].
  destruct (unique_violation t r db); [discriminate|].
  destruct (fk_violation t r db); [discriminate|].
  injection H as <-. repeat split.
Qed.

Lemma insert_keeps (t : table) (r : row) (db db' : database) :
  insert t r db = inr db' ->
  keys_hold db /\ well_formed db -> keys_hold db' /\ well_formed db'.
Proof.
  intros H [Hk Hw].
  apply insert_inr in H. destruct H as [Hty [Hnn [Hu [_ ->]]]].
  split.
  - intros t' cols Hin. rewrite rows_of_with_rows.
    destruct (table_eqb t t') eqn:E; [|apply Hk; exact Hin].
    assert (t = t') as <- by (destruct t, t'; try discriminate; reflexivity).
    apply unique_on_app; [apply Hk; exact Hin|].
    unfold unique_violation in Hu.
    destruct (filter _ (keys t)) eqn:Ef; [|discriminate].
    pose proof (filter_nil_forall _ _ Ef cols Hin) as Hc. cbv beta in Hc.
    apply existsb_false_forall. exact Hc.
  - intros t' r' Hin. rewrite rows_of_with_rows in Hin.
    destruct (table_eqb t t') eqn:E; [|apply Hw; exact Hin].
    assert (t = t') as <- by (destruct t, t'; try discriminate; reflexivity).
    apply in_app_or in Hin. destruct Hin as [Hin | [<- | []]].
    + apply Hw. exact Hin.
    + split; assumption.
Qed.

Lemma first_some_None {A B} (f : A -> option B) (l : list A) :
  first_some f l = None -> forall a, In a l -> f a = None.
Proof.
  induction l as [|x l IH]; intros H a Hin; [destruct Hin|].
  cbn in H. destruct (f x) eqn:E; [discriminate|].
  destruct Hin as [<- | Hin]; [exact E | apply IH; assumption].
Qed.

Lemma unique_onb_true (cols : list string) (l : list row) :
  unique_onb cols l = true -> unique_on cols l.
Proof.
  induction l as [|r l IH]; intros H; [exact I|].
  cbn in H. apply andb_true_iff in H. destruct H as [H1 H2].
  split; [|apply IH; exact H2].
  intros r' Hin. rewrite forallb_forall in H1.
  apply negb_true_iff. apply H1. exact Hin.
Qed.

Lemma api_update_keeps (t : table) (uid : option uuid) (id : uuid)
    (changes : row) (clock : Z) (db db' : database) :
  api_update t uid id changes clock db = inr db' ->
  keys_hold db /\ well_formed db -> keys_hold db' /\ well_formed db'.
Proof.
  unfold api_update. intros H [Hk Hw].
  destruct (negb (forallb _ (rows_of t db))); [discriminate|].
  destruct (forallb (well_typed t) _) eqn:Ety; [|discriminate].
  cbn [negb] in H.
  destruct (first_some (not_null_violation t) _) eqn:Enn; [discriminate|].
  destruct (filter _ (keys t)) eqn:Eu; [|discriminate].
  destruct (fk_broken _); [discriminate|].
  injection H as <-. split.
  - intros t' cols Hin. rewrite rows_of_with_rows.
    destruct (table_eqb t t') eqn:E; [|apply Hk; exact Hin].
    assert (t = t') as <- by (destruct t, t'; try discriminate; reflexivity).
    apply unique_onb_true.
    pose proof (filter_nil_forall _ _ Eu cols Hin) as Hc. cbv beta in Hc.
    apply negb_false_iff in Hc. exact Hc.
  - intros t' r Hin. rewrite rows_of_with_rows in Hin.
    destruct (table_eqb t t') eqn:E; [|apply Hw; exact Hin].
    assert (t = t') as <- by (destruct t, t'; try discriminate; reflexivity).
    split.
    + rewrite forallb_forall in Ety. apply Ety. exact Hin.
    + eapply first_some_None; eassumption.
Qed.

Lemma execute_keeps (st : statement) (db db' : database) :
  execute st db = Some db' ->
  keys_hold db /\ well_formed db -> keys_hold db' /\ well_formed db'.
Proof.
  intros H Hinv.
  destruct st as [id em fn ck | t uid r | t uid id ch ck | t uid id | id];
    cbn [execute] in H.
  - unfold sign_up in H.
    destruct (insert auth_users _ db) as [e|db1] eqn:E1; [discriminate|].
    unfold handle_new_user in H.
    destruct (insert profiles _ db1) as [e|db2] eqn:E2; [discriminate|].
    injection H as <-.
    eapply insert_keeps; [exact E2|]. eapply insert_keeps; [exact E1|].
    exact Hinv.
  - unfold api_insert in H. destruct (rls _ _ _ _ _); [|discriminate].
    destruct (insert t r db) as [e|db1] eqn:E1; [discriminate|].
    injection H as <-. eapply insert_keeps; eassumption.
  - destruct (api_update t uid id ch ck db) as [e|db1] eqn:E1; [discriminate|].
    injection H as <-. eapply api_update_keeps; eassumption.
  - unfold api_delete in H. destruct (existsb _ _).
    + apply delete_keys_shrinks in H. destruct Hinv. split.
      * eapply keys_hold_shrinks; eassumption.
      * eapply well_formed_shrinks; eassumption.
    + injection H as <-. exact Hinv.
  - apply delete_keys_shrinks in H. destruct Hinv. split.
    + eapply keys_hold_shrinks; eassumption.
    + eapply well_formed_shrinks; eassumption.
Qed.

Lemma reachable_keeps (db : database) :
  reachable db -> keys_hold db /\ well_formed db.
Proof.
  induction 1 as [|db db' st _ IH H].
  - split; intros t; destruct t; cbn; intros; tauto.
  - eapply execute_keeps; eassumption.
Qed.

Lemma jsstring_eqb_eq (a b : jsstring) : jsstring_eqb a b = true <-> a = b.
Proof.
  revert b. induction a as [|x a IH]; intros [|y b]; cbn; split;
    try congruence; try discriminate.
  - intros H. apply andb_true_iff in H. destruct H as [H1 H2].
    apply N.eqb_eq in H1. apply IH in H2. congruence.
  - intros H. injection H as -> ->. rewrite N.eqb_refl.
    apply IH. reflexivity.
Qed.

Lemma sql_eq_uuid (v : sqlval) (u : uuid) :
  sql_eq v (Uuid u) = true <-> v = Uuid u.
Proof.
  destruct v; cbn; split; try discriminate.
  - intros H. apply jsstring_eqb_eq in H. congruence.
  - intros H. injection H as ->. apply jsstring_eqb_eq. reflexivity.
Qed.

Lemma sql_eq_role (v : sqlval) (ro : app_role) :
  sql_eq v (RoleV ro) = true <-> v = RoleV ro.
Proof.
  destruct v; cbn; split; try discriminate.
  - destruct r, ro; cbn; congruence.
  - intros H. injection H as ->. destruct ro; reflexivity.
Qed.

Lemma pairs_at_most_one (db : database) (u : uuid) (ro : app_role) :
  keys_hold db -> (List.length (pairs u ro db) <= 1)%nat.
Proof.
  intros Hk. unfold pairs.
  assert (Hu : unique_on ["user_id"; "role"]%string (rows_of user_roles db)).
  { apply Hk. cbn. right. left. reflexivity. }
  revert Hu. generalize (rows_of user_roles db) as l.
  induction l as [|a l IH]; intros Hu; [cbn; lia|].
  destruct Hu as [Ha Hu]. cbn [filter].
  destruct (sql_eq (get "user_id" a) (Uuid u)
            && sql_eq (get "role" a) (RoleV ro)) eqn:Ea; [|apply IH; exact Hu].
  apply andb_true_iff in Ea. destruct Ea as [E1 E2].
  apply sql_eq_uuid in E1. apply sql_eq_role in E2.
  assert (Hnil : filter (fun r => sql_eq (get "user_id" r) (Uuid u)
                                  && sql_eq (get "role" r) (RoleV ro)) l = []).
  { destruct (filter _ l) as [|r' rs] eqn:Ef; [reflexivity|].
    exfalso.
    assert (Hin : In r' (filter (fun r => sql_eq (get "user_id" r) (Uuid u)
                                  && sql_eq (get "role" r) (RoleV ro)) l))
      by (rewrite Ef; left; reflexivity).
    apply filter_In in Hin. destruct Hin as [Hin Hp].
    apply andb_true_iff in Hp. destruct Hp as [P1 P2].
    apply sql_eq_uuid in P1. apply sql_eq_role in P2.
    specialize (Ha r' Hin). unfold same_key in Ha. cbn [forallb] in Ha.
    rewrite E1, E2, P1, P2 in Ha. cbn [sql_eq] in Ha.
    assert (jsstring_eqb u u = true) as Hr
      by (apply jsstring_eqb_eq; reflexivity).
    rewrite Hr in Ha. destruct ro; discriminate Ha. }
  rewrite Hnil. cbn. lia.
Qed.

(** ** Cascades *)

Lemma delete_keys_S (f : nat) (t : table) (ids : list sqlval)
    (db : database) :
  delete_keys (S f) t ids db
  = fold_left (cascade_step f ids) (referencing t)
      (Some (with_rows t
               (filter (fun r => negb (mem (get "id" r) ids)) (rows_of t db))
               db)).
Proof. reflexivity. Qed.

Lemma fold_cascade_None (f : nat) (ids : list sqlval)
    (fks : list foreign_key) :
  fold_left (cascade_step f ids) fks None = None.
Proof. induction fks; [reflexivity | assumption]. Qed.

Lemma cascade_step_shrinks (f : nat) (ids : list sqlval) (fk : foreign_key)
    (d d' : database) :
  cascade_step f ids (Some d) fk = Some d' -> shrinks d d'.
Proof.
  unfold cascade_step. cbv zeta.
  destruct (filter _ _); [intros H; injection H as <-; apply shrinks_refl|].
  destruct (fk_action fk); [discriminate|]. apply delete_keys_shrinks.
Qed.

Lemma fold_cascade_shrinks (f : nat) (ids : list sqlval)
    (fks : list foreign_key) :
  forall d d',
    fold_left (cascade_step f ids) fks (Some d) = Some d' -> shrinks d d'.
Proof.
  induction fks as [|fk fks IH]; intros d d' H.
  - injection H as <-. apply shrinks_refl.
  - cbn [fold_left] in H.
    destruct (cascade_step f ids (Some d) fk) as [d2|] eqn:E.
    + eapply shrinks_trans; [eapply cascade_step_shrinks; exact E|].
      apply IH. exact H.
    + rewrite fold_cascade_None in H. discriminate.
Qed.

(** The rows a [DELETE] names are gone. *)
Lemma delete_keys_deleted (fuel : nat) (t : table) (ids : list sqlval)
    (db db' : database) :
  delete_keys fuel t ids db = Some db' ->
  forall r, In r (rows_of t db') -> mem (get "id" r) ids = false.
Proof.
  destruct fuel as [|f]; [discriminate|]. rewrite delete_keys_S.
  intros H r Hin. apply fold_cascade_shrinks in H.
  destruct (H t) as [keep Hk]. rewrite Hk in Hin.
  apply filter_In in Hin. destruct Hin as [Hin _].
  rewrite rows_of_with_rows, table_eqb_refl in Hin.
  apply filter_In in Hin. destruct Hin as [_ Hn].
  apply negb_true_iff in Hn. exact Hn.
Qed.

Lemma well_formed_id (db : database) (t : table) (r : row) :
  well_formed db -> In r (rows_of t db) -> exists u, get "id" r = Uuid u.
Proof.
  intros Hw Hin. destruct (Hw t r Hin) as [Hty Hnn].
  unfold well_typed in Hty. unfold not_null_violation in Hnn.
  destruct t; cbn in Hty, Hnn;
    destruct (get "id" r) eqn:E; try discriminate; eauto.
Qed.

Lemma shrinks_In (db db' : database) (t : table) (r : row) :
  shrinks db db' -> In r (rows_of t db') -> In r (rows_of t db).
Proof.
  intros Hs Hin. destruct (Hs t) as [keep Hk]. rewrite Hk in Hin.
  apply filter_In in Hin. apply Hin.
Qed.

Lemma cascade_step_no_refs (f : nat) (ids : list sqlval) (fk : foreign_key)
    (d d' : database) :
  well_formed d ->
  cascade_step f ids (Some d) fk = Some d' ->
  forall r, In r (rows_of (fk_table fk) d') ->
    mem (get (fk_column fk) r) ids = false.
Proof.
  intros Hw H r Hin. unfold cascade_step in H. cbv zeta in H.
  destruct (filter _ (rows_of (fk_table fk) d)) as [|h hs] eqn:Eh.
  - injection H as <-. exact (filter_nil_forall _ _ Eh r Hin).
  - destruct (fk_action fk); [discriminate|].
    pose proof (delete_keys_deleted _ _ _ _ _ H r Hin) as Hgone.
    destruct (mem (get (fk_column fk) r) ids) eqn:Em; [|reflexivity].
    exfalso.
    assert (Hin0 : In r (rows_of (fk_table fk) d)).
    { eapply shrinks_In; [eapply delete_keys_shrinks; exact H | exact Hin]. }
    assert (Hhit : In r (h :: hs)).
    { rewrite <- Eh. apply filter_In. split; assumption. }
    destruct (well_formed_id d (fk_table fk) r Hw Hin0) as [u Hu].
    unfold mem in Hgone.
    pose proof (existsb_false_forall _ _ Hgone (get "id" r)
                  (in_map (get "id") _ _ Hhit)) as Hc.
    rewrite Hu in Hc. cbn in Hc.
    assert (jsstring_eqb u u = true) by (apply jsstring_eqb_eq; reflexivity).
    congruence.
Qed.

Lemma fold_cascade_no_refs (f : nat) (ids : list sqlval)
    (fks : list foreign_key) :
  forall d d',
    well_formed d ->
    fold_left (cascade_step f ids) fks (Some d) = Some d' ->
    forall fk, In fk fks ->
    forall r, In r (rows_of (fk_table fk) d') ->
      mem (get (fk_column fk) r) ids = false.
Proof.
  induction fks as [|fk0 fks IH]; intros d d' Hw H fk Hfk r Hin;
    [destruct Hfk|].
  cbn [fold_left] in H.
  destruct (cascade_step f ids (Some d) fk0) as [d2|] eqn:E;
    [|rewrite fold_cascade_None in H; discriminate].
  assert (Hw2 : well_formed d2).
  { eapply well_formed_shrinks; [|exact Hw].
    eapply cascade_step_shrinks. exact E. }
  destruct Hfk as [<- | Hfk].
  - eapply cascade_step_no_refs; [exact Hw | exact E |].
    eapply shrinks_In; [eapply fold_cascade_shrinks; exact H | exact Hin].
  - eapply IH; eassumption.
Qed.

(** After a [DELETE], no row references a deleted row. *)
Lemma delete_keys_no_refs (fuel : nat) (t : table) (ids : list sqlval)
    (db db' : database) :
  well_formed db ->
  delete_keys fuel t ids db = Some db' ->
  forall fk, In fk (referencing t) ->
  forall r, In r (rows_of (fk_table fk) db') ->
    mem (get (fk_column fk) r) ids = false.
Proof.
  destruct fuel as [|f]; [discriminate|]. rewrite delete_keys_S.
  intros Hw H. eapply fold_cascade_no_refs; [|exact H].
  eapply well_formed_shrinks; [apply shrinks_with_rows | exact Hw].
Qed.

Lemma referencing_cascade (t : table) (fk : foreign_key) :
  In fk (referencing t) ->
  fk_action fk = Cascade /\ (depth (fk_table fk) < depth t)%nat.
Proof.
  destruct t; cbn; intros H;
    repeat (destruct H as [<- | H]; [split; [reflexivity | cbn; lia]|]);
    destruct H.
Qed.

Lemma delete_keys_succeeds (fuel : nat) :
  forall t ids db,
    (depth t < fuel)%nat -> exists db', delete_keys fuel t ids db = Some db'.
Proof.
  induction fuel as [|f IH]; intros t ids db Hd; [lia|].
  rewrite delete_keys_S.
  generalize (with_rows t
                (filter (fun r => negb (mem (get "id" r) ids)) (rows_of t db))
                db) as d.
  pose proof (referencing_cascade t) as Hr. revert Hr.
  induction (referencing t) as [|fk fks IHf]; intros Hr d.
  - cbn. eauto.
  - cbn [fold_left].
    destruct (Hr fk (or_introl eq_refl)) as [Ha Hlt].
    assert (Hs : exists d2, cascade_step f ids (Some d) fk = Some d2).
    { unfold cascade_step. cbv zeta. destruct (filter _ _); [eauto|].
      rewrite Ha. apply IH. lia. }
    destruct Hs as [d2 ->]. apply IHf.
    intros fk' Hin. apply Hr. right. exact Hin.
Qed.

Lemma foreign_keys_listed :
  foreign_keys
  = [ mkFk profiles "id" auth_users Cascade;
      mkFk user_roles "user_id" auth_users Cascade;
      mkFk courses "professor_id" auth_users Cascade;
      mkFk attendance_records "student_id" auth_users Cascade;
      mkFk attendance_records "course_id" courses Cascade ].
Proof. reflexivity. Qed.

(** C8.  In every database reached from the empty one by sign-ups, by
    inserts and deletes sent through the API, and by removals of users:
    for every user and role at most one row of [user_roles] pairs them;
    the foreign keys of the migration are the five listed, each with
    ON DELETE CASCADE; and deleting a referenced row succeeds and leaves
    no row that references it. *)
Theorem schema_constraints (db : database) :
  reachable db ->
  (forall u ro, (List.length (pairs u ro db) <= 1)%nat)
  /\ foreign_keys
     = [ mkFk profiles "id" auth_users Cascade;
         mkFk user_roles "user_id" auth_users Cascade;
         mkFk courses "professor_id" auth_users Cascade;
         mkFk attendance_records "student_id" auth_users Cascade;
         mkFk attendance_records "course_id" courses Cascade ]
  /\ (forall fk id,
        In fk foreign_keys ->
        exists db',
          delete_by_id (fk_ref fk) id db = Some db'
          /\ (forall r, In r (rows_of (fk_ref fk) db') ->
                sql_eq (get "id" r) (Uuid id) = false)
          /\ (forall r, In r (rows_of (fk_table fk) db') ->
                sql_eq (get (fk_column fk) r) (Uuid id) = false)).
Proof.
  intros Hr. apply reachable_keeps in Hr. destruct Hr as [Hk Hw].
  split; [|split].
  - intros u ro. apply pairs_at_most_one. exact Hk.
  - exact foreign_keys_listed.
  - intros fk id Hfk. unfold delete_by_id.
    destruct (delete_keys_succeeds (List.length all_tables) (fk_ref fk)
                [Uuid id] db) as [db' Hd].
    { destruct (fk_ref fk); cbn; lia. }
    exists db'. split; [exact Hd|]. split.
    + intros r Hin.
      pose proof (delete_keys_deleted _ _ _ _ _ Hd r Hin) as H.
      cbn in H. apply orb_false_iff in H. apply H.
    + intros r Hin.
      assert (Href : In fk (referencing (fk_ref fk))).
      { unfold referencing. apply filter_In. split; [exact Hfk|].
        apply table_eqb_refl. }
      pose proof (delete_keys_no_refs _ _ _ _ _ Hw Hd fk Href r Hin) as H.
      cbn in H. apply orb_false_iff in H. apply H.
Qed.

Lemma execute_all_reachable (sts : list statement) :
  forall db db',
    reachable db -> execute_all sts db = Some db' -> reachable db'.
Proof.
  induction sts as [|st sts IH]; intros db db' Hr H; cbn in H.
  - injection H as <-. exact Hr.
  - destruct (execute st db) as [d|] eqn:E; [|discriminate].
    eapply IH; [|exact H]. eapply reach_step; eassumption.
Qed.

Lemma is_uid_spec (uid : uuid) (v : sqlval) :
  is_uid (Some uid) v = true <-> v = Uuid uid.
Proof.
  unfold is_uid, sql_eq. destruct v; split; try discriminate.
  - intros H. apply jsstring_eqb_eq in H. congruence.
  - intros H. injection H as ->. apply jsstring_eqb_eq. reflexivity.
Qed.

(** C6.  For every authenticated identity, the policies let an INSERT
    into [attendance_records] pass exactly when the row's [student_id]
    is that identity's [auth.uid()]; an insert through the API that names
    another student (or none) is rejected, and one that names the caller
    goes on to the constraints. *)
Theorem attendance_insert_policy (db : database) (uid : uuid) (r : row) :
  (rls attendance_records INSERT db (Some uid) r = true
   <-> get "student_id" r = Uuid uid)
  /\ (get "student_id" r = Uuid uid ->
      api_insert attendance_records (Some uid) r db
      = insert attendance_records r db)
  /\ (get "student_id" r <> Uuid uid ->
      api_insert attendance_records (Some uid) r db = inl RlsViolation).
Proof.
  assert (H : rls attendance_records INSERT db (Some uid) r
              = is_uid (Some uid) (get "student_id" r)).
  { unfold rls. cbn. rewrite orb_false_r. reflexivity. }
  split; [|split].
  - rewrite H. apply is_uid_spec.
  - intros Heq. unfold api_insert. rewrite H.
    apply is_uid_spec in Heq. rewrite Heq. reflexivity.
  - intros Hne. unfold api_insert. rewrite H.
    destruct (is_uid (Some uid) (get "student_id" r)) eqn:E; [|reflexivity].
    apply is_uid_spec in E. contradiction.
Qed.


Lemma do_insert_error (t : table) (r : pg_error + row) (s : server)
    (e : pg_error) :
  fst (do_insert t r s) = Some e -> snd (do_insert t r s) = s.
Proof.
  unfold do_insert. destruct r as [e'|r]; [reflexivity|].
  destruct (api_insert t (auth_uid s) r (db s)); [reflexivity|].
  cbn. discriminate.
Qed.

(** ** The small school *)

(** No policy lets a client update [user_roles]: an UPDATE through the
    API leaves its rows as they are. *)
Lemma user_roles_not_updated (uid : option uuid) (id : uuid) (changes : row)
    (clock : Z) (db db' : database) :
  api_update user_roles uid id changes clock db = inr db' ->
  rows_of user_roles db' = rows_of user_roles db.
Proof.
  unfold api_update. intros H.
  destruct (negb (forallb _ (rows_of user_roles db))); [discriminate|].
  destruct (negb (forallb (well_typed user_roles) _)); [discriminate|].
  destruct (first_some (not_null_violation user_roles) _); [discriminate|].
  destruct (filter _ (keys user_roles)); [|discriminate].
  destruct (fk_broken _); [discriminate|].
  injection H as <-. cbn [rows_of t_user_roles].
  induction (t_user_roles db) as [|r l IH]; [reflexivity|].
  cbn [map]. rewrite IH. f_equal.
  replace (rls user_roles UPDATE db uid r) with false by reflexivity.
  rewrite andb_false_r. reflexivity.
Qed.

(** The professor renames Algebra; the trigger stamps the row. *)
Lemma rename_algebra :
  option_map
    (fun d => map (fun r => (get "name" r, get "code" r, get "updated_at" r))
                  (t_courses d))
    (execute (ApiUpdate courses (Some prof) algebra
                [("name"%string, TextV (js "Linear algebra"))] t0) db0)
  = Some [ (TextV (js "Linear algebra"), TextV (js "MATH101"),
            Timestamptz t0) ].
Proof. vm_compute. reflexivity. Qed.

(** Ada is no professor: her UPDATE of Algebra changes nothing. *)
Lemma ada_cannot_rename_algebra :
  execute (ApiUpdate courses (Some ada) algebra
             [("name"%string, TextV (js "Easy"))] t0) db0
  = Some db0.
Proof. vm_compute. reflexivity. Qed.

Lemma db2_reachable : reachable db2.
Proof.
  apply (execute_all_reachable (history0 ++ [first_check_in; second_check_in])
           empty_db db2 reach_empty).
  vm_compute. reflexivity.
Qed.

Lemma schema_constraints_witness :
  (forall u ro, (List.length (pairs u ro db2) <= 1)%nat)
  /\ foreign_keys
     = [ mkFk profiles "id" auth_users Cascade;
         mkFk user_roles "user_id" auth_users Cascade;
         mkFk courses "professor_id" auth_users Cascade;
         mkFk attendance_records "student_id" auth_users Cascade;
         mkFk attendance_records "course_id" courses Cascade ]
  /\ (forall fk id,
        In fk foreign_keys ->
        exists db',
          delete_by_id (fk_ref fk) id db2 = Some db'
          /\ (forall r, In r (rows_of (fk_ref fk) db') ->
                sql_eq (get "id" r) (Uuid id) = false)
          /\ (forall r, In r (rows_of (fk_table fk) db') ->
                sql_eq (get (fk_column fk) r) (Uuid id) = false)).
Proof.
  apply (schema_constraints db2).
  apply (execute_all_reachable (history0 ++ [first_check_in; second_check_in])
           empty_db db2 reach_empty).
  vm_compute. reflexivity.
Defined.

(** Removing Ada removes her profile, her role and her two records. *)
Lemma delete_ada :
  option_map (fun d => (List.length (t_auth_users d),
                        List.length (t_profiles d),
                        List.length (t_user_roles d),
                        List.length (t_courses d),
                        List.length (t_attendance_records d)))
             (execute (DeleteUser ada) db2)
  = Some (1, 1, 1, 1, 0)%nat.
Proof. vm_compute. reflexivity. Qed.

(** Removing the professor removes Algebra, and with it Ada's records. *)
Lemma delete_prof :
  option_map (fun d => (List.length (t_auth_users d),
                        List.length (t_profiles d),
                        List.length (t_user_roles d),
                        List.length (t_courses d),
                        List.length (t_attendance_records d)))
             (execute (DeleteUser prof) db2)
  = Some (1, 1, 1, 0, 0)%nat.
Proof. vm_compute. reflexivity. Qed.

End SchemaFacts.

(* ================================================================== *)
(** * The scanner                                                       *)
(* ================================================================== *)

Module ScanFacts.

Import Schema Supabase ScanQR QRCodeGenerator JsonFacts SchemaFacts Samples.
Import Scans.

(** [String(v)] returns exactly on the values that have a text. *)
Lemma ToString_has_text (P : platform) :
  forall v, has_text v = true <-> exists t, ToString P v = Some t.
Proof.
  fix IH 1. intros [| | [|] | m e | t | l | props];
    try (split; [intros _; eexists; reflexivity | reflexivity]).
  - cbn [has_text ToString]. revert l. fix IHl 1. intros [|x r].
    + split; [intros _; eexists; reflexivity | reflexivity].
    + specialize (IH x). specialize (IHl r).
      rewrite andb_true_iff, IH, IHl.
      destruct (ToString P x) as [a|].
      * match goal with
        | |- context [match ?j with Some _ => _ | None => _ end] =>
            destruct j as [b'|]
        end.
        -- split; [intros _; eexists; reflexivity|].
           intros _. split; eexists; reflexivity.
        -- split; [intros [_ [t' H]]; discriminate | intros [t' H];
                   discriminate].
      * split; [intros [[t' H] _]; discriminate | intros [t' H];
                discriminate].
  - cbn [has_text ToString]. destruct (lookup (js "toString") props).
    + split; [discriminate | intros [t' H]; discriminate].
    + split; [intros _; eexists; reflexivity | reflexivity].
Qed.

Lemma ToString_no_text (P : platform) (v : value) :
  has_text v = false -> ToString P v = None.
Proof.
  intros H. destruct (ToString P v) as [t|] eqn:E; [|reflexivity].
  assert (has_text v = true) by (apply (ToString_has_text P); eauto).
  congruence.
Qed.

Section Run.

Context {S : Type} (b : backend S) (B : Browser) (st : state)
        (qrData : jsstring) (s : S).

Let tr := trace b (handleQRCodeScanned B st qrData) s.

(** The run of the handler, branch by branch. *)
Lemma scan_run :
  run b (handleQRCodeScanned B st qrData) s =
  match course_id_of (courseData qrData) with
  | None =>
      ([Ev (ConsoleError (js "Error processing QR code:") TypeError);
        Ev (Toast (check_in_failed TypeError)); Ev StopScanning], tt, s)
  | Some courseId =>
      if negb (truthy courseId) then
        ([Ev (Toast invalid_qr); Ev StopScanning], tt, s)
      else if negb (has_text courseId) then
        ([Ev (ConsoleError (js "Error processing QR code:") TypeError);
          Ev (Toast (check_in_failed TypeError)); Ev StopScanning], tt, s)
      else
        let '(r1, s1) := serve b (lookup_call courseId) s in
        match error r1, data r1 with
        | None, Some course =>
            let '(r2, s2) := serve b (duplicate_call B st courseId) s1 in
            match data r2 with
            | Some _ =>
                ([Net (lookup_call courseId);
                  Net (duplicate_call B st courseId);
                  Ev (Toast (already_checked_in course)); Ev StopScanning],
                 tt, s2)
            | None =>
                let '(r3, s3) := serve b (insert_call st courseId) s2 in
                match r3 with
                | Some e =>
                    ([Net (lookup_call courseId);
                      Net (duplicate_call B st courseId);
                      Net (insert_call st courseId);
                      Ev (ConsoleError (js "Error processing QR code:")
                            (PostgrestError e));
                      Ev (Toast (check_in_failed (PostgrestError e)));
                      Ev StopScanning], tt, s3)
                | None =>
                    ([Net (lookup_call courseId);
                      Net (duplicate_call B st courseId);
                      Net (insert_call st courseId);
                      Ev StopScanning;
                      Ev (Toast (check_in_successful course));
                      Ev (NavigateAfter 2000 (js "/student"))], tt, s3)
                end
            end
        | _, _ =>
            ([Net (lookup_call courseId); Ev (Toast course_not_found);
              Ev StopScanning], tt, s1)
        end
  end.
Proof.
  unfold handleQRCodeScanned. fold (courseData qrData).
  destruct (course_id_of (courseData qrData)) as [courseId|]; [|reflexivity].
  destruct (truthy courseId); [|reflexivity].
  destruct (has_text courseId); [|reflexivity].
  unfold try_catch, lookup_call, duplicate_call, insert_call.
  cbn [negb bind run].
  destruct (serve b (CoursesSelectSingle courseId) s) as [r1 s1].
  destruct (error r1), (data r1) as [course|]; try reflexivity.
  cbn [bind run].
  destruct (serve b (AttendanceSelectSingle _ _ _ _) s1) as [r2 s2].
  destruct (data r2); [reflexivity|].
  cbn [bind run].
  destruct (serve b (AttendanceInsert _) s2) as [r3 s3].
  destruct r3; reflexivity.
Qed.

(** The requests of a scan. *)
Lemma scan_calls :
  calls tr =
  match course_id_of (courseData qrData) with
  | None => []
  | Some courseId =>
      if truthy courseId && has_text courseId then
        lookup_call courseId ::
        (if found (fst (serve b (lookup_call courseId) s)) then
           duplicate_call B st courseId ::
           match
             data (fst (serve b (duplicate_call B st courseId)
                          (snd (serve b (lookup_call courseId) s))))
           with
           | Some _ => []
           | None => [insert_call st courseId]
           end
         else [])
      else []
  end.
Proof.
  subst tr. unfold trace. rewrite scan_run.
  destruct (course_id_of (courseData qrData)) as [courseId|]; [|reflexivity].
  destruct (truthy courseId); [|reflexivity].
  destruct (has_text courseId); [|reflexivity].
  cbn [negb andb]. unfold found.
  destruct (serve b (lookup_call courseId) s) as [r1 s1]. cbn [fst snd].
  destruct (error r1), (data r1) as [course|]; try reflexivity.
  destruct (serve b (duplicate_call B st courseId) s1) as [r2 s2].
  cbn [fst snd].
  destruct (data r2); [reflexivity|].
  destruct (serve b (insert_call st courseId) s2) as [[e|] s3]; reflexivity.
Qed.

(** What the user sees, for each way a scan ends. *)
Lemma scan_events :
  events tr =
  match result_of b B st qrData s with
  | Failed f => failure_log f ++ [Toast (failure_toast f); StopScanning]
  | CheckedIn course =>
      [ StopScanning; Toast (check_in_successful course);
        NavigateAfter 2000 (js "/student") ]
  end.
Proof.
  subst tr. unfold trace, result_of. rewrite scan_run.
  destruct (course_id_of (courseData qrData)) as [courseId|]; [|reflexivity].
  destruct (truthy courseId); [|reflexivity].
  destruct (has_text courseId); [|reflexivity].
  cbn [negb].
  destruct (serve b (lookup_call courseId) s) as [r1 s1].
  destruct (error r1), (data r1) as [course|]; try reflexivity.
  destruct (serve b (duplicate_call B st courseId) s1) as [r2 s2].
  destruct (data r2); [reflexivity|].
  destruct (serve b (insert_call st courseId) s2) as [[e|] s3]; reflexivity.
Qed.

Lemma scan_calls_prefix :
  exists courseId, prefix_of (calls tr) (planned B st courseId).
Proof.
  rewrite scan_calls.
  destruct (course_id_of (courseData qrData)) as [courseId|];
    [|exists VUndefined; eexists; reflexivity].
  exists courseId.
  destruct (truthy courseId && has_text courseId);
    [|eexists; reflexivity].
  destruct (found _); [|eexists; reflexivity].
  destruct (data _); eexists; reflexivity.
Qed.

End Run.

(** C1, amended.  For every scanned payload and whatever the backend
    answers, the requests of the handler are these, in this order, each
    sent once.  None, when the payload gives no course id (it is [null],
    or has neither a [course_id] nor an [id] that is truthy) or gives one
    that [String] throws on.  Otherwise the course lookup; then, only when
    the lookup returned a course without error, the duplicate check; then,
    only when the duplicate check returned no record, the insert.  So at
    most three requests are made, a prefix of the three in their order,
    and all three exactly when the lookup succeeded and the duplicate
    check found no record. *)
Theorem check_in_calls_in_order {S : Type} (b : backend S) (B : Browser)
    (st : state) (qrData : jsstring) (s : S) :
  calls (trace b (handleQRCodeScanned B st qrData) s) =
  match course_id_of (courseData qrData) with
  | None => []
  | Some courseId =>
      if truthy courseId && has_text courseId then
        CoursesSelectSingle courseId ::
        (if found (fst (serve b (CoursesSelectSingle courseId) s)) then
           let s1 := snd (serve b (CoursesSelectSingle courseId) s) in
           let check :=
             AttendanceSelectSingle (user_id_opt (user st)) courseId
               (setHours0 B (Date_now B))
               (nextDate B (setHours0 B (Date_now B))) in
           check ::
           match data (fst (serve b check s1)) with
           | Some _ => []
           | None =>
               [ AttendanceInsert
                   (mkAttendanceInsert (user_id_opt (user st)) courseId
                      (coord (location st) lat) (coord (location st) lng)
                      (coord (location st) accuracy)) ]
           end
         else [])
      else []
  end.
Proof. apply scan_calls. Qed.

(** C1 as stated fails: the payload [{}] has no course id, and the handler
    sends no request at all, not three. *)
Lemma check_in_calls_none :
  calls (trace (supabase platform0)
           (handleQRCodeScanned browser0 ada_here (js "{}")) server0) = [].
Proof. vm_compute. reflexivity. Qed.

(** The selects of a scan leave the backend as it is; so does an insert
    that fails. *)
Lemma scan_failure_keeps_backend (P : platform) (B : Browser) (st : state)
    (qrData : jsstring) (s : server) (f : failure) :
  result_of (supabase P) B st qrData s = Failed f ->
  final (supabase P) (handleQRCodeScanned B st qrData) s = s.
Proof.
  unfold final, result_of. rewrite scan_run.
  destruct (course_id_of (courseData qrData)) as [courseId|]; [|reflexivity].
  destruct (truthy courseId); [|reflexivity].
  destruct (has_text courseId); [|reflexivity].
  cbn [negb supabase serve lookup_call duplicate_call insert_call].
  destruct (error (courses_select_single P courseId s)),
           (data (courses_select_single P courseId s)) as [course|];
    try reflexivity.
  destruct (data (attendance_select_single P _ _ _ _ s)); [reflexivity|].
  match goal with
  | |- context [do_insert ?t ?r s] =>
      pose proof (do_insert_error t r s) as Hins;
      destruct (do_insert t r s) as [[e|] s3]
  end.
  - intros _. apply (Hins e). reflexivity.
  - discriminate.
Qed.

(** C3.  On every failure of a scan the handler shows one notification,
    which is destructive, then stops scanning, and does nothing else but
    log, before the notification, the error it caught: [Invalid QR Code]
    when the payload has no course id, [Course not found], [Already
    checked in] with the name of the course, and [Check-in failed], with
    the message of the error, for an insert error and for the two
    TypeErrors (the payload [null], a course id without text).  The
    backend is left as it was, so no attendance record is inserted, and
    no request is repeated. *)
Theorem check_in_failure (P : platform) (B : Browser) (st : state)
    (qrData : jsstring) (s : server) (f : failure) :
  result_of (supabase P) B st qrData s = Failed f ->
  let p := handleQRCodeScanned B st qrData in
  let tr := trace (supabase P) p s in
  let logged e := ConsoleError (js "Error processing QR code:") e in
  let shown title description :=
    Toast (mkToast Destructive title description) in
  events tr
  = match f with
    | NoCourseId =>
        [ shown (js "Invalid QR Code")
            (Lit (js "The scanned QR code does not contain valid course information."));
          StopScanning ]
    | CourseNotFound =>
        [ shown (js "Course not found")
            (Lit (js "The scanned QR code references a course that doesn't exist."));
          StopScanning ]
    | DuplicateCheckIn course =>
        [ shown (js "Already checked in")
            (Lit (js "You've already checked in to " ++ cr_name course
                  ++ js " today."));
          StopScanning ]
    | PayloadIsNull | IdHasNoText =>
        [ logged TypeError;
          shown (js "Check-in failed") (MessageOf TypeError);
          StopScanning ]
    | InsertError e =>
        [ logged (PostgrestError e);
          shown (js "Check-in failed")
            (match e with
             | OtherError m =>
                 Lit (if is_empty m
                      then js "An error occurred while processing your check-in."
                      else m)
             | _ => MessageOf (PostgrestError e)
             end);
          StopScanning ]
    end
  /\ final (supabase P) p s = s
  /\ db (final (supabase P) p s) = db s
  /\ (exists courseId, prefix_of (calls tr) (planned B st courseId))
  /\ (forall row, ~ In (AttendanceInsert row) (calls tr)
                  \/ exists e, f = InsertError e).
Proof.
  intros Hf p tr logged shown. subst tr p logged shown.
  pose proof (scan_failure_keeps_backend P B st qrData s f Hf) as Hs.
  split; [|split; [exact Hs|split; [rewrite Hs; reflexivity|split]]].
  - rewrite scan_events, Hf.
    destruct f as [| | | | course|e];
      first [reflexivity | destruct e; reflexivity].
  - apply scan_calls_prefix.
  - intros row. rewrite scan_calls. unfold result_of in Hf.
    destruct (course_id_of (courseData qrData)) as [courseId|];
      [|left; intros []].
    destruct (truthy courseId); [|left; intros []].
    destruct (has_text courseId); [|left; intros []].
    cbn [negb andb] in *. unfold found.
    destruct (serve (supabase P) (lookup_call courseId) s) as [r1 s1].
    cbn [fst snd].
    destruct (error r1), (data r1) as [course|];
      try (left; intros [H|[]]; discriminate).
    destruct (serve (supabase P) (duplicate_call B st courseId) s1)
      as [r2 s2].
    cbn [fst snd].
    destruct (data r2); [left; intros [H|[H|[]]]; discriminate|].
    destruct (fst (serve (supabase P) (insert_call st courseId) s2))
      as [e|]; [|discriminate].
    right. exists e. congruence.
Qed.

Lemma check_in_failure_witness :
  let p := handleQRCodeScanned browser0 ada_here payload0 in
  let tr := trace (supabase platform0) p server1 in
  events tr
  = [ Toast (mkToast Destructive (js "Already checked in")
               (Lit (js "You've already checked in to Algebra today.")));
      StopScanning ]
  /\ final (supabase platform0) p server1 = server1
  /\ db (final (supabase platform0) p server1) = db server1
  /\ (exists courseId,
        prefix_of (calls tr) (planned browser0 ada_here courseId))
  /\ (forall row, ~ In (AttendanceInsert row) (calls tr)
                  \/ exists e, DuplicateCheckIn algebra_row = InsertError e).
Proof.
  apply (check_in_failure platform0 browser0 ada_here payload0 server1
           (DuplicateCheckIn algebra_row)).
  vm_compute. reflexivity.
Defined.

(** Two failures that raise an exception and send no request: the
    payload [null], and a course id that is an object with a [toString]
    property. *)
Lemma check_in_failure_exceptions :
  result_of (supabase platform0) browser0 ada_here (js "null") server0
  = Failed PayloadIsNull
  /\ result_of (supabase platform0) browser0 ada_here payload_toString
       server0
     = Failed IdHasNoText
  /\ trace (supabase platform0)
       (handleQRCodeScanned browser0 ada_here payload_toString) server0
     = [ Ev (ConsoleError (js "Error processing QR code:") TypeError);
         Ev (Toast (check_in_failed TypeError)); Ev StopScanning ].
Proof. vm_compute. repeat split; reflexivity. Qed.

(** ** The position *)

(** What a successful scan went through. *)
Lemma scan_checked_in (P : platform) (B : Browser) (st : state)
    (qrData : jsstring) (s : server) (course : course_row) :
  result_of (supabase P) B st qrData s = CheckedIn course ->
  exists courseId r d,
    course_id_of (courseData qrData) = Some courseId
    /\ truthy courseId = true
    /\ has_text courseId = true
    /\ error (courses_select_single P courseId s) = None
    /\ data (courses_select_single P courseId s) = Some course
    /\ data (attendance_select_single P (user_id_opt (user st)) courseId
               (setHours0 B (Date_now B))
               (nextDate B (setHours0 B (Date_now B))) s) = None
    /\ attendance_row P
         (mkAttendanceInsert (user_id_opt (user st)) courseId
            (coord (location st) lat) (coord (location st) lng)
            (coord (location st) accuracy)) s = inr r
    /\ api_insert attendance_records (auth_uid s) r (db s) = inr d
    /\ final (supabase P) (handleQRCodeScanned B st qrData) s = with_db s d.
Proof.
  unfold final, result_of. rewrite scan_run.
  destruct (course_id_of (courseData qrData)) as [courseId|]; [|discriminate].
  destruct (truthy courseId) eqn:Ht; [|discriminate].
  destruct (has_text courseId) eqn:Hx; [|discriminate].
  cbn [negb supabase serve lookup_call duplicate_call insert_call].
  destruct (error (courses_select_single P courseId s)) eqn:He;
    [destruct (data (courses_select_single P courseId s)); discriminate|].
  destruct (data (courses_select_single P courseId s)) as [c|] eqn:Hl;
    [|discriminate].
  destruct (data (attendance_select_single P _ _ _ _ s)) eqn:Hd;
    [discriminate|].
  unfold do_insert.
  destruct (attendance_row P _ s) as [e|r] eqn:Hr; [discriminate|].
  destruct (api_insert attendance_records (auth_uid s) r (db s))
    as [e|d] eqn:Hi; [discriminate|].
  cbn. intros [= <-]. exists courseId, r, d. repeat split; auto.
Qed.







(** C2, at the failing input.  Ada has two records for Algebra today; the
    duplicate check ends in [.single()], which answers with an error and
    no row when several rows match; the handler takes that for no record,
    inserts a third one and reports success. *)
Lemma duplicate_check_misses_two_records :
  let p := handleQRCodeScanned browser0 ada_here payload0 in
  map (fun r => (get "student_id" r, get "course_id" r,
                 get "checked_in_at" r))
      (t_attendance_records db2)
  = [ (Uuid ada, Uuid algebra, Timestamptz (day0 + 1000));
      (Uuid ada, Uuid algebra, Timestamptz (day0 + 2000)) ]
  /\ attendance_select_single platform0 (VStr ada) (VStr algebra)
       day0 (day0 + 86400000) server2
     = mkSingle None (Some NotSingleRow)
  /\ events (trace (supabase platform0) p server2)
     = [ StopScanning; Toast (check_in_successful algebra_row);
         NavigateAfter 2000 (js "/student") ]
  /\ List.length
       (t_attendance_records (db (final (supabase platform0) p server2)))
     = 3%nat.
Proof. vm_compute. repeat split; reflexivity. Qed.

(** Supporting C2: on a day with exactly one record the duplicate check
    finds it, and nothing is inserted. *)
Lemma duplicate_check_finds_one_record :
  let p := handleQRCodeScanned browser0 ada_here payload0 in
  events (trace (supabase platform0) p server1)
  = [Toast (already_checked_in algebra_row); StopScanning]
  /\ final (supabase platform0) p server1 = server1.
Proof. vm_compute. split; reflexivity. Qed.

(** ** The payload of the generator, read by the scanner *)

Lemma qr_course_id (courseId courseName courseCode timestamp : jsstring) :
  exists data,
    JSON_parse (qrData courseId courseName courseCode timestamp) = Some data
    /\ get_prop data (js "course_id") = Some (VStr courseId).
Proof.
  unfold qrData. rewrite JSON_parse_stringify.
  eexists. split; reflexivity.
Qed.

(** C9.  For every course id (the id of a course is a uuid, so its text
    is not empty), and every name, code and timestamp, the scanner parses
    the generator's payload, reads the same course id from it, and goes
    on to look that course up: it does not take the payload for an
    invalid QR code. *)
Theorem qr_round_trip (B : Browser) (st : state)
    (courseId courseName courseCode timestamp : jsstring) :
  courseId <> [] ->
  let payload := qrData courseId courseName courseCode timestamp in
  exists data,
    JSON_parse payload = Some data
    /\ get_prop data (js "course_id") = Some (VStr courseId)
    /\ course_id_of (courseData payload) = Some (VStr courseId)
    /\ exists k,
         handleQRCodeScanned B st payload
         = Await (CoursesSelectSingle (VStr courseId)) k.
Proof.
  intros Hne payload.
  destruct (qr_course_id courseId courseName courseCode timestamp)
    as [data [Hp Hg]].
  fold payload in Hp.
  exists data. split; [exact Hp|]. split; [exact Hg|].
  assert (Hc : course_id_of (courseData payload) = Some (VStr courseId)).
  { unfold courseData, course_id_of. rewrite Hp, Hg. cbn [truthy].
    destruct courseId; [congruence | reflexivity]. }
  split; [exact Hc|].
  unfold courseData in Hc.
  unfold handleQRCodeScanned. rewrite Hc.
  cbn [truthy]. destruct courseId as [|c r]; [congruence|].
  cbn [is_empty negb try_catch bind]. eexists. reflexivity.
Qed.

Lemma qr_round_trip_witness :
  let payload := payload0 in
  exists data,
    JSON_parse payload = Some data
    /\ get_prop data (js "course_id") = Some (VStr algebra)
    /\ course_id_of (courseData payload) = Some (VStr algebra)
    /\ exists k,
         handleQRCodeScanned browser0 ada_here payload
         = Await (CoursesSelectSingle (VStr algebra)) k.
Proof.
  apply (qr_round_trip browser0 ada_here algebra (js "Algebra")
           (js "MATH101") (js "2025-11-08T10:00:00.000Z")).
  vm_compute. discriminate.
Defined.

(** The generator is never given an empty course id; if it were, the
    payload would be taken for an invalid QR code. *)
Lemma qr_round_trip_empty_id :
  handleQRCodeScanned browser0 ada_here
    (qrData [] (js "Algebra") (js "MATH101") (js "2025-11-08T10:00:00.000Z"))
  = Emit (Toast invalid_qr) (Emit StopScanning (Ret tt)).
Proof. reflexivity. Qed.

End ScanFacts.

(* ================================================================== *)
(** * The course form                                                   *)
(* ================================================================== *)

Module CreateCourseFacts.

Import Schema Supabase SchemaFacts Samples CreateCourse.

Section Submit.

Context {S : Type} (b : backend S) (user : option User) (formData : FormData)
        (s : S).

Let tr := trace b (handleSubmit user formData) s.

Lemma submit_run :
  run b (handleSubmit user formData) s =
  match parsed_form formData with
  | inl issues =>
      ([Ev PreventDefault; Ev (SetLoading true);
        Ev (ConsoleError (js "Error creating course:") (ZodError issues));
        Ev (Toast (failed_to_create (ZodError issues)));
        Ev (SetLoading false)], tt, s)
  | inr data =>
      let '(r, s1) := serve b (CoursesInsert (course_of user data)) s in
      match r with
      | Some e =>
          ([Ev PreventDefault; Ev (SetLoading true);
            Net (CoursesInsert (course_of user data));
            Ev (ConsoleError (js "Error creating course:") (PostgrestError e));
            Ev (Toast (failed_to_create (PostgrestError e)));
            Ev (SetLoading false)], tt, s1)
      | None =>
          ([Ev PreventDefault; Ev (SetLoading true);
            Net (CoursesInsert (course_of user data));
            Ev (Toast (course_created data));
            Ev (Navigate (js "/professor"));
            Ev (SetLoading false)], tt, s1)
      end
  end.
Proof.
  unfold handleSubmit, parsed_form, try_catch.
  destruct (courseSchema_parse _ _ _ _) as [issues|data]; [reflexivity|].
  cbn [bind run].
  destruct (serve b (CoursesInsert (course_of user data)) s) as [[e|] s1];
    reflexivity.
Qed.



End Submit.



Lemma parsed_form_data (formData : FormData) (data : course_data) :
  parsed_form formData = inr data ->
  semester data = or_undefined (get_semester formData)
  /\ year data = or_undefined (get_year formData).
Proof.
  unfold parsed_form, courseSchema_parse. destruct (_ ++ _); [|discriminate].
  destruct (get_name formData), (get_code formData); try discriminate.
  intros H. injection H as <-. split; reflexivity.
Qed.

Lemma submit_failure_keeps_backend (P : platform) (user : option User)
    (formData : FormData) (s : server) (f : failure) :
  result_of (supabase P) user formData s = Failed f ->
  final (supabase P) (handleSubmit user formData) s = s.
Proof.
  unfold final, result_of. rewrite submit_run.
  destruct (parsed_form formData) as [issues|data]; [reflexivity|].
  cbn [supabase serve].
  pose proof (do_insert_error courses
                (course_row_of P (course_of user data) s) s) as Hins.
  destruct (do_insert courses (course_row_of P (course_of user data) s) s)
    as [[e|] s1]; [|discriminate].
  intros _. apply (Hins e). reflexivity.
Qed.



(** The professor creates Geometry, leaving semester and year out. *)
Lemma create_geometry :
  let p := handleSubmit (Some (mkUser prof)) geometry_form in
  events (trace (supabase platform0) p prof_server)
  = [ PreventDefault; SetLoading true;
      Toast (course_created
               (mkCourseData (js "Geometry") (js "MATH102") None None));
      Navigate (js "/professor"); SetLoading false ]
  /\ map (fun r => (get "name" r, get "semester" r, get "year" r))
         (t_courses (db (final (supabase platform0) p prof_server)))
     = [ (TextV (js "Algebra"), Null, Null);
         (TextV (js "Geometry"), Null, Null) ].
Proof. vm_compute. split; reflexivity. Qed.

End CreateCourseFacts.

(* ================================================================== *)
(** * Rounding to binary64                                              *)
(* ================================================================== *)

Module Binary64Facts.

Import Binary64.
Local Open Scope Q_scope.

Lemma pow2_pos (e : Z) : 0 < pow2 e.
Proof. apply Qpower_0_lt. reflexivity. Qed.

Lemma pow2_le (a b : Z) : (a <= b)%Z -> pow2 a <= pow2 b.
Proof. intros H. apply Qpower_le_compat_l; [exact H | discriminate]. Qed.

Lemma pow2_lt (a b : Z) : (a < b)%Z -> pow2 a < pow2 b.
Proof. intros H. apply Qpower_lt_compat_l; [exact H | reflexivity]. Qed.

Lemma pow2_plus (a b : Z) : pow2 (a + b) == pow2 a * pow2 b.
Proof. apply Qpower_plus. discriminate. Qed.

Lemma pow2_nonneg (n : Z) : (0 <= n)%Z -> pow2 n == inject_Z (2 ^ n).
Proof. intros H. unfold pow2. rewrite Zpower_Qpower by exact H. reflexivity. Qed.

(** The binade of a positive number holds it from below. *)
Lemma binade_le (x : Q) : 0 < x -> pow2 (binade x) <= x.
Proof.
  intros Hx. unfold binade. cbv zeta.
  set (k := (Z.log2 (Qnum x) - Z.log2 (Z.pos (Qden x)))%Z).
  destruct (Qle_bool (pow2 k) x) eqn:E; [apply Qle_bool_iff; exact E|].
  destruct x as [a b]. cbn [Qnum Qden] in *.
  assert (Ha : (0 < a)%Z).
  { unfold Qlt in Hx. cbn in Hx. lia. }
  pose proof (Z.log2_spec a Ha) as [Hla _].
  pose proof (Z.log2_spec (Z.pos b) (Pos2Z.is_pos b)) as [_ Hlb].
  pose proof (Z.log2_nonneg a) as Hna.
  pose proof (Z.log2_nonneg (Z.pos b)) as Hnb.
  set (la := Z.log2 a) in *. set (lb := Z.log2 (Z.pos b)) in *.
  replace (k - 1)%Z with (la - (lb + 1))%Z by (unfold k; lia).
  unfold pow2. rewrite Qpower_minus by discriminate.
  fold (pow2 la) (pow2 (lb + 1)).
  rewrite (pow2_nonneg la) by lia. rewrite (pow2_nonneg (lb + 1)) by lia.
  rewrite (Qmake_Qdiv a b).
  assert (0 < inject_Z (2 ^ (lb + 1))).
  { rewrite <- pow2_nonneg by lia. apply pow2_pos. }
  assert (0 < inject_Z (Z.pos b)) by reflexivity.
  apply Qle_shift_div_l; [assumption|].
  unfold Qdiv. rewrite <- Qmult_assoc, (Qmult_comm (/ _)), Qmult_assoc.
  apply Qle_shift_div_r; [assumption|].
  rewrite <- !inject_Z_mult. rewrite <- Zle_Qle.
  replace (Z.succ lb) with (lb + 1)%Z in Hlb by lia.
  assert (0 < 2 ^ la)%Z by (apply Z.pow_pos_nonneg; lia).
  nia.
Qed.

(** ... and from above. *)
Lemma binade_lt (x : Q) : 0 < x -> x < pow2 (binade x + 1).
Proof.
  intros Hx. unfold binade. cbv zeta.
  set (k := (Z.log2 (Qnum x) - Z.log2 (Z.pos (Qden x)))%Z).
  destruct (Qle_bool (pow2 k) x) eqn:E.
  - destruct x as [a b]. cbn [Qnum Qden] in *.
    assert (Ha : (0 < a)%Z).
    { unfold Qlt in Hx. cbn in Hx. lia. }
    pose proof (Z.log2_spec a Ha) as [_ Hla].
    pose proof (Z.log2_spec (Z.pos b) (Pos2Z.is_pos b)) as [Hlb _].
    pose proof (Z.log2_nonneg a) as Hna.
    pose proof (Z.log2_nonneg (Z.pos b)) as Hnb.
    set (la := Z.log2 a) in *. set (lb := Z.log2 (Z.pos b)) in *.
    replace (k + 1)%Z with ((la + 1) - lb)%Z by (unfold k; lia).
    unfold pow2. rewrite Qpower_minus by discriminate.
    fold (pow2 (la + 1)) (pow2 lb).
    rewrite (pow2_nonneg (la + 1)) by lia. rewrite (pow2_nonneg lb) by lia.
    rewrite (Qmake_Qdiv a b).
    assert (0 < inject_Z (2 ^ lb)).
    { rewrite <- pow2_nonneg by lia. apply pow2_pos. }
    assert (0 < inject_Z (Z.pos b)) by reflexivity.
    apply Qlt_shift_div_l; [assumption|].
    unfold Qdiv. rewrite <- Qmult_assoc, (Qmult_comm (/ _)), Qmult_assoc.
    apply Qlt_shift_div_r; [assumption|].
    rewrite <- !inject_Z_mult. rewrite <- Zlt_Qlt.
    replace (Z.succ la) with (la + 1)%Z in Hla by lia.
    assert (0 < 2 ^ lb)%Z by (apply Z.pow_pos_nonneg; lia).
    nia.
  - replace (k - 1 + 1)%Z with k by lia.
    apply Qnot_le_lt. intros H. apply Qle_bool_iff in H. congruence.
Qed.

(** [0.1] is the number [3602879701896397 / 2^55]; a half of the last
    place goes to the even significand; under the smallest normal number
    the numbers are [2^-1074] apart. *)
Example round64_values :
  round64 (1 # 10) == 3602879701896397 # 36028797018963968
  /\ round64 (inject_Z (2 ^ 53 + 1)) == inject_Z (2 ^ 53)
  /\ round64 (inject_Z (2 ^ 53 + 3)) == inject_Z (2 ^ 53 + 4)
  /\ round64 (pow2 (-1074) * (3 # 2)) == pow2 (-1073)
  /\ round64 (- (7 # 3)) == - (5254199565265579 # 2251799813685248).
Proof. repeat split; vm_compute; reflexivity. Qed.

Lemma nearest_even_near (q : Q) :
  inject_Z (nearest_even q) - q <= 1 # 2
  /\ q - inject_Z (nearest_even q) <= 1 # 2.
Proof.
  unfold nearest_even. cbv zeta.
  pose proof (Qfloor_le q) as Hl. pose proof (Qlt_floor q) as Hu.
  rewrite inject_Z_plus in Hu. change (inject_Z 1) with 1 in Hu.
  destruct (Qcompare (q - inject_Z (Qfloor q)) (1 # 2)) eqn:E.
  - apply Qeq_alt in E.
    destruct (Z.even (Qfloor q)); [|rewrite inject_Z_plus;
                                    change (inject_Z 1) with 1]; lra.
  - apply Qlt_alt in E. lra.
  - apply Qgt_alt in E. rewrite inject_Z_plus.
    change (inject_Z 1) with 1. lra.
Qed.

Lemma nearest_even_nonneg (q : Q) : 0 <= q -> (0 <= nearest_even q)%Z.
Proof.
  intros Hq. unfold nearest_even. cbv zeta.
  assert (0 <= Qfloor q)%Z.
  { change 0%Z with (Qfloor 0). apply Qfloor_resp_le. exact Hq. }
  destruct (Qcompare _ _); [destruct (Z.even _)| |]; lia.
Qed.

Lemma round64_pos (x : Q) :
  0 < x -> round64 x = inject_Z (nearest_even (x / ulp x)) * ulp x.
Proof.
  intros Hx. unfold round64.
  destruct (Qeq_bool x 0) eqn:E; [|reflexivity].
  apply Qeq_bool_iff in E. lra.
Qed.

Lemma ulp_pos (x : Q) : 0 < ulp x.
Proof. apply pow2_pos. Qed.

Lemma round64_near (x : Q) :
  0 < x ->
  round64 x - x <= ulp x * (1 # 2) /\ x - round64 x <= ulp x * (1 # 2).
Proof.
  intros Hx. rewrite (round64_pos x Hx).
  pose proof (ulp_pos x) as Hu. set (u := ulp x) in *.
  destruct (nearest_even_near (x / u)) as [H1 H2].
  set (n := inject_Z (nearest_even (x / u))) in *.
  assert (E : x == x / u * u) by (field; lra).
  split.
  - setoid_replace (n * u - x) with ((n - x / u) * u) by (rewrite E at 1; ring).
    rewrite (Qmult_comm u). apply Qmult_le_compat_r; lra.
  - setoid_replace (x - n * u) with ((x / u - n) * u) by (rewrite E at 1; ring).
    rewrite (Qmult_comm u). apply Qmult_le_compat_r; lra.
Qed.

Lemma Qabs_pos_eq (x : Q) : 0 < x -> Qabs x = x.
Proof.
  destruct x as [a b]. unfold Qlt. cbn. intros H.
  rewrite Z.abs_eq by lia. reflexivity.
Qed.

Lemma ulp_bound (x : Q) :
  0 < x -> ulp x <= x * pow2 (-52) + pow2 (-1074).
Proof.
  intros Hx. unfold ulp. rewrite (Qabs_pos_eq x Hx).
  pose proof (binade_le x Hx) as Hb.
  pose proof (pow2_pos (-52)) as H52. pose proof (pow2_pos (-1074)) as Hs.
  destruct (Z.max_spec (binade x) (-1022)) as [[_ ->] | [_ ->]].
  - change (-1022 - 52)%Z with (-1074)%Z.
    assert (0 <= x * pow2 (-52)) by (apply Qmult_le_0_compat; lra). lra.
  - replace (binade x - 52)%Z with (binade x + -52)%Z by lia.
    rewrite pow2_plus.
    assert (pow2 (binade x) * pow2 (-52) <= x * pow2 (-52))
      by (apply Qmult_le_compat_r; lra).
    lra.
Qed.

Lemma round64_error (x : Q) :
  0 <= x ->
  x - x * eps - tiny <= round64 x /\ round64 x <= x + x * eps + tiny.
Proof.
  intros Hx.
  destruct (Qlt_le_dec 0 x) as [Hpos | Hz].
  - destruct (round64_near x Hpos) as [H1 H2].
    pose proof (ulp_bound x Hpos) as Hu.
    assert (E1 : pow2 (-52) * (1 # 2) == eps) by reflexivity.
    assert (E2 : pow2 (-1074) * (1 # 2) <= tiny)
      by (vm_compute; discriminate).
    assert (ulp x * (1 # 2) <= x * eps + tiny).
    { setoid_replace (x * eps) with (x * pow2 (-52) * (1 # 2))
        by (rewrite <- E1; ring).
      lra. }
    lra.
  - assert (E : x == 0) by lra.
    assert (R : round64 x = 0).
    { unfold round64. replace (Qeq_bool x 0) with true; [reflexivity|].
      symmetry. apply Qeq_bool_iff. exact E. }
    rewrite R. unfold eps, tiny. split; lra.
Qed.

Lemma round64_nonneg (x : Q) : 0 <= x -> 0 <= round64 x.
Proof.
  intros Hx. unfold round64. destruct (Qeq_bool x 0); [lra|].
  apply Qmult_le_0_compat; [|apply Qlt_le_weak, ulp_pos].
  change 0 with (inject_Z 0). rewrite <- Zle_Qle.
  apply nearest_even_nonneg.
  apply Qle_shift_div_l; [apply ulp_pos | lra].
Qed.

(** The greatest binary64 number below 1 is [1 - 2^-53]. *)
Lemma binary64_below_1 (r : Q) : binary64 r -> r < 1 -> r <= 1 - eps.
Proof.
  intros (m & e & Hr & Hm & He) H1.
  destruct (Z_le_gt_dec m 0) as [Hm0 | Hm0].
  { assert (r <= 0).
    { rewrite Hr. pose proof (pow2_pos e).
      assert (inject_Z m <= 0) by (change 0 with (inject_Z 0);
                                   rewrite <- Zle_Qle; exact Hm0).
      setoid_replace 0 with (0 * pow2 e) by ring.
      apply Qmult_le_compat_r; lra. }
    unfold eps. lra. }
  assert (He0 : (e < 0)%Z).
  { destruct (Z_lt_ge_dec e 0) as [|Hge]; [assumption|exfalso].
    assert (1 <= pow2 e) by (change 1 with (pow2 0); apply pow2_le; lia).
    assert (1 <= inject_Z m) by (change 1 with (inject_Z 1);
                                 rewrite <- Zle_Qle; lia).
    assert (1 * 1 <= inject_Z m * pow2 e).
    { apply Qle_trans with (inject_Z m * 1); [lra|].
      rewrite !(Qmult_comm (inject_Z m)).
      apply Qmult_le_compat_r; lra. }
    lra. }
  set (k := (- e)%Z). set (K := (2 ^ k)%Z).
  assert (HK : (0 < K)%Z) by (apply Z.pow_pos_nonneg; unfold k; lia).
  assert (Hp : pow2 e == / inject_Z K).
  { replace e with (- k)%Z by (unfold k; lia). unfold pow2.
    rewrite Qpower_opp. fold (pow2 k). rewrite pow2_nonneg by (unfold k; lia).
    reflexivity. }
  assert (HKq : 0 < inject_Z K)
    by (change 0 with (inject_Z 0); rewrite <- Zlt_Qlt; exact HK).
  assert (Hrq : r == inject_Z m / inject_Z K).
  { rewrite Hr, Hp. reflexivity. }
  assert (HmK : (m < K)%Z).
  { destruct (Z_lt_ge_dec m K) as [|Hge]; [assumption|exfalso].
    assert (1 <= inject_Z m / inject_Z K).
    { apply Qle_shift_div_l; [exact HKq|]. rewrite Qmult_1_l.
      rewrite <- Zle_Qle. lia. }
    lra. }
  rewrite Hrq. apply Qle_shift_div_r; [exact HKq|].
  assert (Hz : (m * 9007199254740992 <= 9007199254740991 * K)%Z).
  { change (Z.abs m < 9007199254740992)%Z in Hm.
    destruct (Z_le_gt_dec k 53) as [Hk | Hk].
    - assert (K <= 2 ^ 53)%Z
        by (apply Z.pow_le_mono_r; [lia | exact Hk]).
      change (2 ^ 53)%Z with 9007199254740992%Z in *. nia.
    - assert (2 ^ 54 <= K)%Z
        by (apply Z.pow_le_mono_r; lia).
      change (2 ^ 54)%Z with 18014398509481984%Z in *. nia. }
  rewrite Zle_Qle, !inject_Z_mult in Hz.
  change (inject_Z 9007199254740992) with (9007199254740992 # 1) in Hz.
  change (inject_Z 9007199254740991) with (9007199254740991 # 1) in Hz.
  unfold eps. lra.
Qed.

(** [Math.floor(r * n)] of a draw [r] of [\[0, 1)] is below [n], also
    after the product was rounded. *)
Lemma floor_scaled (r : Q) (n : Z) :
  binary64 r -> 0 <= r -> r < 1 -> (0 < n)%Z ->
  (0 <= Qfloor (round64 (r * inject_Z n)) < n)%Z.
Proof.
  intros Hb H0 H1 Hn.
  assert (HN : 1 <= inject_Z n)
    by (change 1 with (inject_Z 1); rewrite <- Zle_Qle; lia).
  pose proof (binary64_below_1 r Hb H1) as Hr. unfold eps in Hr.
  assert (Hx : 0 <= r * inject_Z n) by (apply Qmult_le_0_compat; lra).
  split.
  - change 0%Z with (Qfloor 0). apply Qfloor_resp_le.
    apply round64_nonneg. exact Hx.
  - destruct (round64_error _ Hx) as [_ Hu]. unfold eps, tiny in Hu.
    assert (Hm : r * inject_Z n
                 <= (1 - (1 # 9007199254740992)) * inject_Z n)
      by (apply Qmult_le_compat_r; lra).
    pose proof (Qfloor_le (round64 (r * inject_Z n))) as Hf.
    rewrite Zlt_Qlt.
    set (x := r * inject_Z n) in *. set (N := inject_Z n) in *.
    set (y := round64 x) in *. set (f := inject_Z (Qfloor y)) in *.
    lra.
Qed.

(** [Math.round] of the rounded quotient of a sum of [n] values of
    [\[40, 89\]] is in that range. *)
Lemma round_mean (sum n : Z) :
  (0 < n)%Z -> (40 * n <= sum <= 89 * n)%Z ->
  (40 <= Qfloor (round64 (inject_Z sum / inject_Z n) + (1 # 2)) <= 89)%Z.
Proof.
  intros Hn [Hl Hu].
  assert (HN : 0 < inject_Z n)
    by (change 0 with (inject_Z 0); rewrite <- Zlt_Qlt; exact Hn).
  rewrite Zle_Qle, inject_Z_mult in Hl, Hu.
  change (inject_Z 40) with 40 in Hl. change (inject_Z 89) with 89 in Hu.
  assert (Hq1 : 40 <= inject_Z sum / inject_Z n)
    by (apply Qle_shift_div_l; [exact HN | exact Hl]).
  assert (Hq2 : inject_Z sum / inject_Z n <= 89)
    by (apply Qle_shift_div_r; [exact HN | exact Hu]).
  set (q := inject_Z sum / inject_Z n) in *.
  assert (Hq0 : 0 <= q) by lra.
  destruct (round64_error q Hq0) as [He1 He2]. unfold eps, tiny in He1, He2.
  pose proof (Qfloor_le (round64 q + (1 # 2))) as Hf1.
  pose proof (Qlt_floor (round64 q + (1 # 2))) as Hf2.
  rewrite inject_Z_plus in Hf2. change (inject_Z 1) with 1 in Hf2.
  set (y := round64 q) in *.
  set (f := Qfloor (y + (1 # 2))) in *.
  assert (A : inject_Z 39 < inject_Z f)
    by (change (inject_Z 39) with 39; lra).
  assert (B : inject_Z f < inject_Z 90)
    by (change (inject_Z 90) with 90; lra).
  rewrite <- Zlt_Qlt in A, B. lia.
Qed.

End Binary64Facts.

(* ================================================================== *)
(** * The analytics panel                                               *)
(* ================================================================== *)

Module AnalyticsFacts.

Import Schema Supabase Samples ChatAnalytics.

Local Open Scope Z_scope.

Lemma inject_Z_pos (n : Z) : 0 < n -> (0 < inject_Z n)%Q.
Proof.
  intros Hn. change (inject_Z 0 < inject_Z n)%Q. rewrite <- Zlt_Qlt. exact Hn.
Qed.

Lemma random_below_range (n : Z) (g : Random) :
  unit_draws g -> 0 < n ->
  0 <= fst (random_below n g) < n
  /\ draws (snd (random_below n g)) = draws g.
Proof.
  intros Hu Hn. unfold random_below, Math_random. cbn [fst snd draws].
  split; [|reflexivity].
  destruct (Hu (next g)) as [H0 [H1 Hb]].
  apply Binary64Facts.floor_scaled; assumption.
Qed.

(** The product is rounded before [Math.floor]: a value just under 17/30
    gives 17, where the exact product has the floor 16. *)
Example random_below_rounds :
  fst (random_below 30 (mkRandom (fun _ => under_17_30) 0)) = 17
  /\ Qfloor (under_17_30 * inject_Z 30) = 16
  /\ unit_draws (mkRandom (fun _ => under_17_30) 0).
Proof.
  split; [vm_compute; reflexivity|]. split; [vm_compute; reflexivity|].
  intros n. cbn [draws]. split; [discriminate|]. split; [reflexivity|].
  exists 2552039788843281, (-52). split; [vm_compute; reflexivity|].
  split; [reflexivity | lia].
Qed.

Lemma random_below_draws (n : Z) (g : Random) :
  draws (snd (random_below n g)) = draws g
  /\ fst (random_below n g)
     = Qfloor (Binary64.mul (draws g (next g)) (inject_Z n)).
Proof. split; reflexivity. Qed.

Lemma unit_draws_ext (g g' : Random) :
  draws g' = draws g -> unit_draws g -> unit_draws g'.
Proof. unfold unit_draws. intros ->. auto. Qed.

Lemma index_in_range {A} (a : list A) (i : Z) :
  0 <= i < Z.of_nat (List.length a) -> exists x, index a i = Some x /\ In x a.
Proof.
  intros H. unfold index.
  destruct (Z.ltb_spec i 0); [lia|].
  destruct (nth_error a (Z.to_nat i)) as [x|] eqn:E.
  - exists x. split; [reflexivity|]. eapply nth_error_In. exact E.
  - apply nth_error_None in E. lia.
Qed.

Lemma index_In {A} (a : list A) (i : Z) (x : A) :
  index a i = Some x -> In x a.
Proof.
  unfold index. destruct (i <? 0); [discriminate|]. apply nth_error_In.
Qed.

Lemma generate_spec (course : Course) (n : nat) :
  forall i g,
    unit_draws g ->
    exists l g',
      generate course n i g = Some (l, g')
      /\ List.length l = n
      /\ Forall (generated_for course) l
      /\ draws g' = draws g.
Proof.
  induction n as [|n IH]; intros i g Hu.
  - exists [], g. repeat split. constructor.
  - cbn [generate].
    destruct (random_below_range (Z.of_nat (List.length firstNames)) g Hu
                ltac:(cbn; lia)) as [Hf Hg1].
    destruct (random_below (Z.of_nat (List.length firstNames)) g) as [fi g1].
    cbn [fst snd] in Hf, Hg1.
    pose proof (unit_draws_ext g g1 Hg1 Hu) as Hu1.
    destruct (random_below_range (Z.of_nat (List.length lastNames)) g1 Hu1
                ltac:(cbn; lia)) as [Hl Hg2].
    destruct (random_below (Z.of_nat (List.length lastNames)) g1) as [li g2].
    cbn [fst snd] in Hl, Hg2.
    pose proof (unit_draws_ext g1 g2 Hg2 Hu1) as Hu2.
    destruct (random_below_range 50 g2 Hu2 ltac:(lia)) as [Ha Hg3].
    destruct (random_below 50 g2) as [a g3]. cbn [fst snd] in Ha, Hg3.
    pose proof (unit_draws_ext g2 g3 Hg3 Hu2) as Hu3.
    destruct (index_in_range firstNames fi Hf) as [fn [-> Hfn]].
    destruct (index_in_range lastNames li Hl) as [ln [-> Hln]].
    destruct (IH (i + 1) g3 Hu3) as [l [g' [-> [Hlen [Hall Hd]]]]].
    eexists. exists g'. split; [reflexivity|]. split; [cbn; lia|]. split.
    + constructor; [|exact Hall].
      split; [cbn; lia|]. split; [reflexivity|].
      exists fn, ln. repeat split; assumption.
    + congruence.
Qed.

Lemma students_of_course_spec (course : Course) (g : Random) :
  unit_draws g ->
  exists l g',
    students_of_course course g = Some (l, g')
    /\ (15 <= List.length l <= 44)%nat
    /\ Forall (generated_for course) l
    /\ draws g' = draws g.
Proof.
  intros Hu. unfold students_of_course.
  destruct (random_below_range 30 g Hu ltac:(lia)) as [Hc Hg1].
  destruct (random_below 30 g) as [c g1]. cbn [fst snd] in Hc, Hg1.
  destruct (generate_spec course (Z.to_nat (c + 15)) 0 g1
              (unit_draws_ext g g1 Hg1 Hu)) as [l [g' [H [Hlen [Hall Hd]]]]].
  exists l, g'. split; [exact H|]. split; [lia|]. split; [exact Hall|].
  congruence.
Qed.

Lemma allStudents_spec (courses : list Course) :
  forall g,
    unit_draws g ->
    exists blocks g',
      allStudents courses g = Some (List.concat blocks, g')
      /\ Forall2 (fun course block =>
                    (15 <= List.length block <= 44)%nat
                    /\ Forall (generated_for course) block)
                 courses blocks.
Proof.
  induction courses as [|course rest IH]; intros g Hu.
  - exists [], g. split; [reflexivity | constructor].
  - cbn [allStudents].
    destruct (students_of_course_spec course g Hu)
      as [l [g1 [-> [Hlen [Hall Hd]]]]].
    destruct (IH g1 (unit_draws_ext g g1 Hd Hu)) as [blocks [g2 [-> HF]]].
    exists (l :: blocks), g2. split; [reflexivity|].
    constructor; [split; assumption | exact HF].
Qed.

Lemma sum_attendance_bounds (l : list Student) :
  Forall (fun s => 40 <= attendance s <= 89) l ->
  forall acc,
    acc + 40 * Z.of_nat (List.length l)
    <= fold_left (fun sum s => sum + attendance s) l acc
    <= acc + 89 * Z.of_nat (List.length l).
Proof.
  induction 1 as [|s l Hs _ IH]; intros acc; cbn [fold_left List.length].
  - lia.
  - specialize (IH (acc + attendance s)). lia.
Qed.

Lemma Math_round_mean (sum n : Z) :
  0 < n -> 40 * n <= sum <= 89 * n ->
  40 <= Math_round (Binary64.div (inject_Z sum) (inject_Z n)) <= 89.
Proof.
  intros Hn H. unfold Math_round, Binary64.div.
  apply Binary64Facts.round_mean; assumption.
Qed.

Lemma Forall_filter {A} (P : A -> Prop) (f : A -> bool) (l : list A) :
  Forall P l -> Forall P (filter f l).
Proof.
  intros H. apply Forall_forall. intros x Hin. apply filter_In in Hin.
  rewrite Forall_forall in H. apply H. apply Hin.
Qed.

Lemma average_in_range (courses : list Course) (students : list Student) :
  Forall (fun s => 40 <= attendance s <= 89) students ->
  forall bar,
    In bar (courseAttendanceData courses students) ->
    (0 < studentCount bar)%nat ->
    40 <= averageAttendance bar <= 89.
Proof.
  intros Hall bar Hin Hpos. unfold courseAttendanceData in Hin.
  apply in_map_iff in Hin. destruct Hin as [course [<- _]].
  cbn [studentCount averageAttendance] in *.
  set (cs := filter _ students) in *.
  destruct (Nat.ltb_spec 0 (List.length cs)); [|lia].
  apply Math_round_mean; [lia|].
  pose proof (sum_attendance_bounds cs (Forall_filter _ _ _ Hall) 0). lia.
Qed.

Lemma generated_for_range (course : Course) (l : list Student) :
  Forall (generated_for course) l ->
  Forall (fun s => 40 <= attendance s <= 89) l.
Proof. apply Forall_impl. intros s H. apply H. Qed.

Lemma blocks_in_range (courses : list Course) (blocks : list (list Student)) :
  Forall2 (fun course block =>
             (15 <= List.length block <= 44)%nat
             /\ Forall (generated_for course) block) courses blocks ->
  Forall (fun s => 40 <= attendance s <= 89) (List.concat blocks).
Proof.
  induction 1 as [|course block courses blocks [_ H] _ IH]; cbn.
  - constructor.
  - apply Forall_app. split; [eapply generated_for_range; exact H | exact IH].
Qed.

Lemma filter_all {A} (f : A -> bool) (l : list A) :
  Forall (fun x => f x = true) l -> filter f l = l.
Proof.
  induction 1 as [|x l Hx _ IH]; cbn [filter]; [reflexivity|].
  rewrite Hx, IH. reflexivity.
Qed.

Lemma filter_length_concat {A} (f : A -> bool) (block : list A)
    (blocks : list (list A)) :
  In block blocks ->
  (List.length (filter f block)
   <= List.length (filter f (List.concat blocks)))%nat.
Proof.
  induction blocks as [|b blocks IH]; intros Hin; [destruct Hin|].
  cbn [List.concat]. rewrite filter_app, length_app.
  destruct Hin as [-> | Hin]; [lia|]. specialize (IH Hin). lia.
Qed.

Lemma Forall2_block (P : Course -> list Student -> Prop)
    (courses : list Course) (blocks : list (list Student)) :
  Forall2 P courses blocks ->
  Forall (fun course => exists block, In block blocks /\ P course block)
         courses.
Proof.
  induction 1 as [|course block courses blocks HP _ IH]; constructor.
  - exists block. split; [left; reflexivity | exact HP].
  - eapply Forall_impl; [|exact IH]. intros c [b [Hin Hb]].
    exists b. split; [right; exact Hin | exact Hb].
Qed.

Lemma Forall2_map_r {A B} (P : A -> B -> Prop) (f : A -> B) (l : list A) :
  Forall (fun x => P x (f x)) l -> Forall2 P l (map f l).
Proof. induction 1; cbn [map]; constructor; assumption. Qed.

(** The bar of every course, when each has its block of students. *)
Lemma bars_in_range (courses : list Course) (blocks : list (list Student)) :
  Forall2 (fun course block =>
             (15 <= List.length block <= 44)%nat
             /\ Forall (generated_for course) block) courses blocks ->
  Forall2 (fun course bar =>
             bar_name bar = str_or (code course) (name course)
             /\ (15 <= studentCount bar)%nat
             /\ 40 <= averageAttendance bar <= 89)
          courses (courseAttendanceData courses (List.concat blocks)).
Proof.
  intros HF. unfold courseAttendanceData. apply Forall2_map_r.
  pose proof (blocks_in_range courses blocks HF) as Hall.
  eapply Forall_impl; [|exact (Forall2_block _ courses blocks HF)].
  cbv beta. intros course [block [Hin [Hlen Hgen]]].
  cbn [bar_name studentCount averageAttendance].
  set (f := fun s : Student => jsstring_eqb (courseCode s) (code course)).
  assert (Hcount : (15 <= List.length (filter f (List.concat blocks)))%nat).
  { pose proof (filter_length_concat f block blocks Hin) as Hle.
    rewrite (filter_all f block) in Hle; [lia|].
    eapply Forall_impl; [|exact Hgen]. intros x [_ [Hc _]].
    unfold f. apply SchemaFacts.jsstring_eqb_eq. exact Hc. }
  split; [reflexivity|]. split; [exact Hcount|].
  destruct (Nat.ltb_spec 0 (List.length (filter f (List.concat blocks))));
    [|lia].
  apply Math_round_mean; [lia|].
  pose proof (sum_attendance_bounds (filter f (List.concat blocks))
                (Forall_filter _ _ _ Hall) 0). lia.
Qed.

(** C10.  When every value of [Math.random()] is a number of [[0, 1)],
    [loadFakeData] generates for each course passed to it between 15 and
    44 students, each with an attendance between 40 and 89 and the code of
    the course; and [courseAttendanceData] has, course by course, a bar
    with the name of the course, at least 15 students and a rounded
    average between 40 and 89.  The products and the quotient are the
    rounded ones of JavaScript. *)
Theorem fake_data_ranges (courses : list Course) (g : Random) :
  unit_draws g ->
  exists blocks g',
    allStudents courses g = Some (List.concat blocks, g')
    /\ Forall2 (fun course block =>
                  (15 <= List.length block <= 44)%nat
                  /\ Forall (fun s => 40 <= attendance s <= 89
                                      /\ courseCode s = code course) block)
               courses blocks
    /\ Forall2 (fun course bar =>
                  bar_name bar = str_or (code course) (name course)
                  /\ (15 <= studentCount bar)%nat
                  /\ 40 <= averageAttendance bar <= 89)
               courses (courseAttendanceData courses (List.concat blocks))
    /\ forall shown bar,
         In bar (courseAttendanceData shown (List.concat blocks)) ->
         (0 < studentCount bar)%nat ->
         40 <= averageAttendance bar <= 89.
Proof.
  intros Hu. destruct (allStudents_spec courses g Hu) as [blocks [g' [H HF]]].
  exists blocks, g'. split; [exact H|]. split; [|split].
  - eapply Forall2_impl; [|exact HF]. intros course block [Hlen Hall].
    split; [exact Hlen|]. eapply Forall_impl; [|exact Hall].
    intros s [Ha [Hc _]]. split; assumption.
  - apply bars_in_range. exact HF.
  - intros shown bar. apply average_in_range.
    eapply blocks_in_range. exact HF.
Qed.

Lemma g0_unit : unit_draws g0.
Proof.
  intros n. cbn [draws g0].
  pose proof (Nat.mod_upper_bound n 16 ltac:(lia)) as Hm.
  split; [unfold Qle; cbn [Qnum Qden]; lia|].
  split; [unfold Qlt; cbn [Qnum Qden]; lia|].
  exists (Z.of_nat (n mod 16)), (-4).
  split; [|split; [change (2 ^ 53) with 9007199254740992; lia | lia]].
  change (Binary64.pow2 (-4)) with (1 # 16)%Q.
  unfold Qeq, Qmult, inject_Z. cbn [Qnum Qden]. lia.
Qed.

Lemma fake_data_ranges_witness :
  exists blocks g',
    allStudents two_courses g0 = Some (List.concat blocks, g')
    /\ Forall2 (fun course block =>
                  (15 <= List.length block <= 44)%nat
                  /\ Forall (fun s => 40 <= attendance s <= 89
                                      /\ courseCode s = code course) block)
               two_courses blocks
    /\ Forall2 (fun course bar =>
                  bar_name bar = str_or (code course) (name course)
                  /\ (15 <= studentCount bar)%nat
                  /\ 40 <= averageAttendance bar <= 89)
               two_courses
               (courseAttendanceData two_courses (List.concat blocks))
    /\ forall shown bar,
         In bar (courseAttendanceData shown (List.concat blocks)) ->
         (0 < studentCount bar)%nat ->
         40 <= averageAttendance bar <= 89.
Proof.
  apply (fake_data_ranges two_courses g0).
  intros n. cbn [draws g0].
  pose proof (Nat.mod_upper_bound n 16 ltac:(lia)) as Hm.
  split; [unfold Qle; cbn [Qnum Qden]; lia|].
  split; [unfold Qlt; cbn [Qnum Qden]; lia|].
  exists (Z.of_nat (n mod 16)), (-4).
  split; [|split; [change (2 ^ 53) with 9007199254740992; lia | lia]].
  change (Binary64.pow2 (-4)) with (1 # 16)%Q.
  unfold Qeq, Qmult, inject_Z. cbn [Qnum Qden]. lia.
Defined.

(** The bars of the two sample courses, of 15 and of 41 students. *)
Example fake_data_of_two_courses :
  option_map (fun r => courseAttendanceData two_courses (fst r))
             (allStudents two_courses g0)
  = Some [ mkBar (js "MATH101") 65 15; mkBar (js "MATH102") 62 41 ].
Proof. vm_compute. reflexivity. Qed.

Lemma generate_from_lists (course : Course) (n : nat) :
  forall i g l g',
    generate course n i g = Some (l, g') -> Forall from_name_lists l.
Proof.
  induction n as [|n IH]; intros i g l g' H; cbn [generate] in H.
  - injection H as <- _. constructor.
  - destruct (random_below _ g) as [fi g1].
    destruct (random_below _ g1) as [li g2].
    destruct (random_below 50 g2) as [a g3].
    destruct (index firstNames fi) as [fn|] eqn:Ef; [|discriminate].
    destruct (index lastNames li) as [ln|] eqn:El; [|discriminate].
    destruct (generate course n (i + 1) g3) as [[rest g4]|] eqn:Eg;
      [|discriminate].
    injection H as <- _. constructor; [|eapply IH; exact Eg].
    exists fn, ln. cbn [s_name email].
    repeat split; eauto using index_In.
Qed.

Lemma allStudents_from_lists (courses : list Course) :
  forall g l g',
    allStudents courses g = Some (l, g') -> Forall from_name_lists l.
Proof.
  induction courses as [|course rest IH]; intros g l g' H;
    cbn [allStudents] in H.
  - injection H as <- _. constructor.
  - destruct (students_of_course course g) as [[l1 g1]|] eqn:E1;
      [|discriminate].
    destruct (allStudents rest g1) as [[l2 g2]|] eqn:E2; [|discriminate].
    injection H as <- _. apply Forall_app. split.
    + unfold students_of_course in E1.
      destruct (random_below 30 g) as [c g0']. eapply generate_from_lists.
      exact E1.
    + eapply IH. exact E2.
Qed.

(** Every student of the loop is the object of the source, made from the
    course, the index, a name of each list and a value of the generator. *)
Lemma generate_simulated (course : Course) (n : nat) :
  forall i g l g',
    0 <= i ->
    generate course n i g = Some (l, g') ->
    draws g' = draws g
    /\ Forall (fun s =>
                 exists k firstName lastName d,
                   0 <= k
                   /\ In firstName firstNames /\ In lastName lastNames
                   /\ s = fake_student course k firstName lastName
                            (Qfloor (Binary64.mul (draws g d) (inject_Z 50))))
              l.
Proof.
  induction n as [|n IH]; intros i g l g' Hi H; cbn [generate] in H.
  - injection H as <- <-. split; [reflexivity | constructor].
  - destruct (random_below_draws (Z.of_nat (List.length firstNames)) g)
      as [D1 _].
    destruct (random_below _ g) as [fi g1]. cbn [snd] in D1.
    destruct (random_below_draws (Z.of_nat (List.length lastNames)) g1)
      as [D2 _].
    destruct (random_below _ g1) as [li g2]. cbn [snd] in D2.
    destruct (random_below_draws 50 g2) as [D3 V3].
    destruct (random_below 50 g2) as [a g3]. cbn [fst snd] in D3, V3.
    destruct (index firstNames fi) as [fn|] eqn:Ef; [|discriminate].
    destruct (index lastNames li) as [ln|] eqn:El; [|discriminate].
    destruct (generate course n (i + 1) g3) as [[rest g4]|] eqn:Eg;
      [|discriminate].
    injection H as <- <-.
    destruct (IH (i + 1) g3 rest g4 ltac:(lia) Eg) as [D4 HF].
    assert (D : draws g3 = draws g) by congruence.
    split; [congruence|]. constructor.
    + exists i, fn, ln, (next g2).
      split; [exact Hi|]. split; [eapply index_In; exact Ef|].
      split; [eapply index_In; exact El|].
      rewrite V3. replace (draws g) with (draws g2) by congruence.
      reflexivity.
    + eapply Forall_impl; [|exact HF]. cbv beta.
      intros s (k & f & la & d & Hk & Hf & Hl & ->).
      exists k, f, la, d. rewrite D. repeat split; assumption.
Qed.

Lemma simulated_incl (courses all : list Course) (g g' : Random)
    (s : Student) :
  incl courses all -> draws g = draws g' ->
  simulated courses g s -> simulated all g' s.
Proof.
  intros Hincl Hd (c & i & f & l & k & Hc & Hi & Hf & Hl & ->).
  exists c, i, f, l, k. rewrite <- Hd.
  repeat split; try assumption. apply Hincl. exact Hc.
Qed.

Lemma allStudents_simulated (courses : list Course) :
  forall g l g',
    allStudents courses g = Some (l, g') ->
    draws g' = draws g /\ Forall (simulated courses g) l.
Proof.
  induction courses as [|course rest IH]; intros g l g' H;
    cbn [allStudents] in H.
  - injection H as <- <-. split; [reflexivity | constructor].
  - destruct (students_of_course course g) as [[l1 g1]|] eqn:E1;
      [|discriminate].
    destruct (allStudents rest g1) as [[l2 g2]|] eqn:E2; [|discriminate].
    injection H as <- <-.
    unfold students_of_course in E1.
    destruct (random_below_draws 30 g) as [D0 _].
    destruct (random_below 30 g) as [c g0']. cbn [snd] in D0.
    destruct (generate_simulated course _ 0 g0' l1 g1 ltac:(lia) E1)
      as [D1 H1].
    destruct (IH g1 l2 g2 E2) as [D2 H2].
    split; [congruence|]. apply Forall_app. split.
    + eapply Forall_impl; [|exact H1]. cbv beta.
      intros s (k & f & la & d & Hk & Hf & Hl & ->).
      exists course, k, f, la, d. rewrite <- D0.
      repeat split; try assumption. left. reflexivity.
    + eapply Forall_impl; [|exact H2]. intros s Hs.
      eapply simulated_incl; [| |exact Hs].
      * intros x Hx. right. exact Hx.
      * congruence.
Qed.

(** C5.  [loadFakeData] sends no request and reads nothing of the
    backend: every student it displays is the object made for one of the
    courses passed to the panel from a name of each of the two hard-coded
    lists and a value of [Math.random()], and with values of [[0, 1)] it
    displays the generated list.  [handleSendEmails] sends no request
    either: called from its button, the only place that refers to it, it
    waits 1.5 s, then reports the emails as sent, and leaves the list of
    students as it is. *)
Theorem analytics_is_simulated {S : Type} (b : backend S) (s : S)
    (courses : list Course) (g : Random) (st : state) :
  (let tr := trace b (loadFakeData courses g) s in
   calls tr = []
   /\ final b (loadFakeData courses g) s = s
   /\ (forall l, In (Ev (SetStudents l)) tr ->
                 Forall (simulated courses g) l
                 /\ Forall from_name_lists l)
   /\ (unit_draws g ->
       exists l g',
         allStudents courses g = Some (l, g')
         /\ events tr = [SetLoading true; SetStudents l; SetLoading false]))
  /\ (send_button_rendered st = true ->
      let low := lowAttendanceStudents (students st) in
      let tr := trace b (handleSendEmails st) s in
      calls tr = []
      /\ final b (handleSendEmails st) s = s
      /\ students (after_events st (events tr)) = students st
      /\ events tr
         = [ SetSendingEmails true; Sleep 1500; SetSendingEmails false;
             Toast (warning_emails_sent (List.length low)) ]
      /\ warning_emails_sent (List.length low)
         = mkToast Default (js "Warning emails sent!")
             (Lit (js "Sent attendance warnings to "
                   ++ decimal (Z.of_nat (List.length low))
                   ++ js " student(s)."))).
Proof.
  split.
  - intros tr. subst tr. unfold loadFakeData, trace, final.
    destruct (allStudents courses g) as [[l g']|] eqn:E; cbn.
    + split; [reflexivity|]. split; [reflexivity|]. split.
      * intros l' [H | [H | [H | []]]]; try discriminate H.
        injection H as <-. split.
        -- eapply allStudents_simulated. exact E.
        -- eapply allStudents_from_lists. exact E.
      * intros _. exists l, g'. split; reflexivity.
    + split; [reflexivity|]. split; [reflexivity|]. split.
      * intros l' [H | []]. discriminate H.
      * intros Hu. destruct (allStudents_spec courses g Hu)
          as [blocks [g' [H _]]]. congruence.
  - intros Hb low tr. subst tr low.
    unfold send_button_rendered in Hb.
    apply andb_true_iff in Hb. destruct Hb as [_ Hb].
    unfold handleSendEmails, trace, final.
    destruct (List.length (lowAttendanceStudents (students st))) as [|n];
      [discriminate Hb|].
    cbn. repeat split.
Qed.

Lemma analytics_is_simulated_witness :
  send_button_rendered loaded = true
  /\ events (trace (supabase platform0) (handleSendEmails loaded) server0)
     = [ SetSendingEmails true; Sleep 1500; SetSendingEmails false;
         Toast (warning_emails_sent
                  (List.length (lowAttendanceStudents (students loaded)))) ].
Proof.
  split; [vm_compute; reflexivity|].
  destruct (proj2 (analytics_is_simulated (supabase platform0) server0
                     two_courses g0 loaded) ltac:(vm_compute; reflexivity))
    as (_ & _ & _ & E & _).
  exact E.
Defined.

(** Called in a state without a student under 75, where the panel shows
    no button for it, the handler reports at once that there is nobody to
    email. *)
Lemma send_emails_without_students :
  send_button_rendered initial = false
  /\ events (trace (supabase platform0) (handleSendEmails initial) server0)
     = [Toast no_students_to_email]
  /\ is_destructive no_students_to_email = true.
Proof. repeat split. Qed.

End AnalyticsFacts.

(* ================================================================== *)
(** * More on the schema                                                *)
(* ================================================================== *)

Module IntegrityFacts.

Import Schema Supabase JsonFacts SchemaFacts Samples Integrity.


Lemma table_eqb_eq (a b : table) : table_eqb a b = true -> a = b.
Proof. destruct a, b; try discriminate; reflexivity. Qed.

Lemma fk_resolved_mono (fk : foreign_key) (r : row) (db db' : database) :
  (forall p, In p (rows_of (fk_ref fk) db) -> In p (rows_of (fk_ref fk) db')) ->
  fk_resolved fk r db = true -> fk_resolved fk r db' = true.
Proof.
  unfold fk_resolved. intros Hsub H.
  apply orb_true_iff in H. apply orb_true_iff.
  destruct H as [H|H]; [left; exact H|right].
  apply existsb_exists in H. destruct H as (p & Hp & He).
  apply existsb_exists. exists p. split; [apply Hsub; exact Hp | exact He].
Qed.

Lemma sql_eq_uuid_l (u : uuid) (v : sqlval) :
  sql_eq (Uuid u) v = true -> v = Uuid u.
Proof.
  destruct v; cbn; try discriminate. intros H.
  apply jsstring_eqb_eq in H. congruence.
Qed.

Lemma remove_rows_resolved (D : foreign_key -> sqlval -> Prop) (t : table)
    (ids : list sqlval) (db : database) :
  well_formed db -> resolved_but D db ->
  resolved_but (fun fk v => D fk v \/ (fk_ref fk = t /\ mem v ids = true))
    (with_rows t
       (filter (fun r => negb (mem (get "id" r) ids)) (rows_of t db)) db).
Proof.
  intros Hw Hinv fk r Hfk Hr.
  assert (Hr0 : In r (rows_of (fk_table fk) db)).
  { rewrite rows_of_with_rows in Hr.
    destruct (table_eqb t (fk_table fk)) eqn:E; [|exact Hr].
    apply table_eqb_eq in E. subst t. apply filter_In in Hr. apply Hr. }
  destruct (Hinv fk r Hfk Hr0) as [Hres | HD]; [|right; left; exact HD].
  unfold fk_resolved in Hres. apply orb_true_iff in Hres.
  destruct Hres as [Hn | Hex].
  { left. unfold fk_resolved. rewrite Hn. reflexivity. }
  apply existsb_exists in Hex. destruct Hex as (p & Hp & He).
  destruct (table_eqb t (fk_ref fk)) eqn:E.
  - apply table_eqb_eq in E. subst t.
    destruct (mem (get "id" p) ids) eqn:Hm.
    + right. right. split; [reflexivity|].
      destruct (well_formed_id db (fk_ref fk) p Hw Hp) as [x Hx].
      rewrite Hx in He. apply sql_eq_uuid_l in He. rewrite He, <- Hx.
      exact Hm.
    + left. unfold fk_resolved. apply orb_true_iff. right.
      apply existsb_exists. exists p. split; [|exact He].
      rewrite rows_of_with_rows, table_eqb_refl.
      apply filter_In. split; [exact Hp|]. rewrite Hm. reflexivity.
  - left. unfold fk_resolved. apply orb_true_iff. right.
    apply existsb_exists. exists p. split; [|exact He].
    rewrite rows_of_with_rows, E. exact Hp.
Qed.

Lemma cascade_step_Some (f : nat) (ids : list sqlval) (fk : foreign_key)
    (d d' : database) :
  cascade_step f ids (Some d) fk = Some d' ->
  d' = d
  \/ delete_keys f (fk_table fk)
       (map (get "id")
            (filter (fun r => mem (get (fk_column fk) r) ids)
                    (rows_of (fk_table fk) d))) d = Some d'.
Proof.
  unfold cascade_step. cbv zeta.
  destruct (filter _ _) eqn:E.
  - intros [= <-]. left. reflexivity.
  - destruct (fk_action fk); [discriminate|]. intros H. right. exact H.
Qed.

Lemma fold_cascade_resolved (f : nat) (ids : list sqlval)
    (IH : forall t ids db db' D,
        well_formed db -> delete_keys f t ids db = Some db' ->
        resolved_but D db -> resolved_but D db')
    (fks : list foreign_key) :
  forall d d' D,
    well_formed d ->
    fold_left (cascade_step f ids) fks (Some d) = Some d' ->
    resolved_but D d -> resolved_but D d'.
Proof.
  induction fks as [|fk fks IHf]; intros d d' D Hw H Hinv.
  - injection H as <-. exact Hinv.
  - cbn [fold_left] in H.
    destruct (cascade_step f ids (Some d) fk) as [d1|] eqn:E;
      [|rewrite fold_cascade_None in H; discriminate].
    pose proof (cascade_step_shrinks _ _ _ _ _ E) as Hs.
    apply (IHf d1 d' D); [eapply well_formed_shrinks; eassumption|exact H|].
    destruct (cascade_step_Some _ _ _ _ _ E) as [-> | Hd]; [exact Hinv|].
    eapply IH; eassumption.
Qed.

Lemma delete_keys_resolved (fuel : nat) :
  forall t ids db db' D,
    well_formed db -> delete_keys fuel t ids db = Some db' ->
    resolved_but D db -> resolved_but D db'.
Proof.
  induction fuel as [|f IH]; intros t ids db db' D Hw H Hinv;
    [discriminate|].
  pose proof H as H0. rewrite delete_keys_S in H.
  assert (Hw1 : well_formed
                  (with_rows t (filter (fun r => negb (mem (get "id" r) ids))
                                       (rows_of t db)) db)).
  { eapply well_formed_shrinks; [apply shrinks_with_rows | exact Hw]. }
  pose proof (fold_cascade_resolved f ids IH (referencing t) _ _ _ Hw1 H
                (remove_rows_resolved D t ids db Hw Hinv)) as Hinv'.
  intros fk r Hfk Hr.
  destruct (Hinv' fk r Hfk Hr) as [Hres | [HD | [Ht Hm]]];
    [left; exact Hres | right; exact HD |].
  exfalso.
  assert (Hin : In fk (referencing t)).
  { unfold referencing. apply filter_In. split; [exact Hfk|].
    rewrite Ht. apply table_eqb_refl. }
  rewrite (delete_keys_no_refs _ _ _ _ _ Hw H0 fk Hin r Hr) in Hm.
  discriminate.
Qed.

Lemma insert_resolved (t : table) (r : row) (db db' : database)
    (D : foreign_key -> sqlval -> Prop) :
  insert t r db = inr db' -> resolved_but D db -> resolved_but D db'.
Proof.
  intros H Hinv. apply insert_inr in H.
  destruct H as (_ & _ & _ & Hfk & ->).
  assert (Hsub : forall t' p, In p (rows_of t' db) ->
            In p (rows_of t' (with_rows t (rows_of t db ++ [r]) db))).
  { intros t' p Hp. rewrite rows_of_with_rows.
    destruct (table_eqb t t') eqn:E; [|exact Hp].
    apply table_eqb_eq in E. subst t'. apply in_or_app. left. exact Hp. }
  intros fk r' Hin Hr'.
  rewrite rows_of_with_rows in Hr'.
  assert (Hold : In r' (rows_of (fk_table fk) db) ->
            fk_resolved fk r' (with_rows t (rows_of t db ++ [r]) db) = true
            \/ D fk (get (fk_column fk) r')).
  { intros Hr0. destruct (Hinv fk r' Hin Hr0) as [Hres|HD];
      [left|right; exact HD].
    eapply fk_resolved_mono; [|exact Hres]. intros p. apply Hsub. }
  destruct (table_eqb t (fk_table fk)) eqn:E; [|apply Hold; exact Hr'].
  apply table_eqb_eq in E.
  apply in_app_or in Hr'. destruct Hr' as [Hr' | [<- | []]].
  - apply Hold. rewrite <- E. exact Hr'.
  - left. eapply fk_resolved_mono; [intros p; apply Hsub|].
    unfold fk_violation in Hfk.
    destruct (filter _ (foreign_keys_of t)) eqn:Ef; [|discriminate].
    assert (Hof : In fk (foreign_keys_of t)).
    { subst t. rewrite foreign_keys_listed in Hin. cbn in Hin.
      repeat (destruct Hin as [<- | Hin]; [cbn; tauto|]). destruct Hin. }
    pose proof (filter_nil_forall _ _ Ef fk Hof) as Hc. cbv beta in Hc.
    apply negb_false_iff in Hc. exact Hc.
Qed.

Lemma api_update_resolved (t : table) (uid : option uuid) (id : uuid)
    (changes : row) (clock : Z) (db db' : database)
    (D : foreign_key -> sqlval -> Prop) :
  api_update t uid id changes clock db = inr db' -> resolved_but D db'.
Proof.
  unfold api_update. intros H.
  destruct (negb (forallb _ (rows_of t db))); [discriminate|].
  destruct (negb (forallb (well_typed t) _)); [discriminate|].
  destruct (first_some (not_null_violation t) _); [discriminate|].
  destruct (filter _ (keys t)); [|discriminate].
  destruct (fk_broken _) eqn:Eb; [discriminate|].
  injection H as <-.
  intros fk r Hin Hr. left.
  unfold fk_broken in Eb.
  assert (Ht : In (fk_table fk) all_tables)
    by (destruct (fk_table fk); cbn; tauto).
  pose proof (first_some_None _ _ Eb _ Ht) as H1. cbv beta in H1.
  pose proof (first_some_None _ _ H1 _ Hr) as H2. cbv beta in H2.
  unfold fk_violation in H2.
  destruct (filter _ (foreign_keys_of (fk_table fk))) eqn:Ef; [|discriminate].
  assert (Hof : In fk (foreign_keys_of (fk_table fk))).
  { rewrite foreign_keys_listed in Hin. cbn in Hin.
    repeat (destruct Hin as [<- | Hin]; [cbn; tauto|]). destruct Hin. }
  pose proof (filter_nil_forall _ _ Ef fk Hof) as Hc. cbv beta in Hc.
  apply negb_false_iff in Hc. exact Hc.
Qed.

Lemma execute_resolved (st : statement) (db db' : database)
    (D : foreign_key -> sqlval -> Prop) :
  execute st db = Some db' -> well_formed db ->
  resolved_but D db -> resolved_but D db'.
Proof.
  intros H Hw Hinv.
  destruct st as [id em fn ck | t uid r | t uid id ch ck | t uid id | id];
    cbn [execute] in H.
  - unfold sign_up in H.
    destruct (insert auth_users _ db) as [e|db1] eqn:E1; [discriminate|].
    unfold handle_new_user in H.
    destruct (insert profiles _ db1) as [e|db2] eqn:E2; [discriminate|].
    injection H as <-.
    eapply insert_resolved; [exact E2|]. eapply insert_resolved; eassumption.
  - unfold api_insert in H. destruct (rls _ _ _ _ _); [|discriminate].
    destruct (insert t r db) as [e|db1] eqn:E1; [discriminate|].
    injection H as <-. eapply insert_resolved; eassumption.
  - destruct (api_update t uid id ch ck db) as [e|db1] eqn:E1; [discriminate|].
    injection H as <-. eapply api_update_resolved; eassumption.
  - unfold api_delete in H. destruct (existsb _ _).
    + eapply delete_keys_resolved; eassumption.
    + injection H as <-. exact Hinv.
  - eapply delete_keys_resolved; eassumption.
Qed.

Lemma reachable_resolved (db : database) :
  reachable db -> resolved_but (fun _ _ => False) db.
Proof.
  induction 1 as [|db db' st Hr IH H].
  - intros fk r _ Hin. destruct (fk_table fk); destruct Hin.
  - eapply execute_resolved; [exact H | apply reachable_keeps; exact Hr
                              | exact IH].
Qed.

(** A reference column is never NULL. *)
Lemma reference_not_null (fk : foreign_key) (r : row) :
  In fk foreign_keys ->
  not_null_violation (fk_table fk) r = None ->
  is_null (get (fk_column fk) r) = false.
Proof.
  intros Hin. rewrite foreign_keys_listed in Hin. cbn in Hin.
  unfold not_null_violation.
  repeat (destruct Hin as [<- | Hin];
          [ cbn; repeat (match goal with
                         | |- context [is_null ?v] => destruct (is_null v)
                         end; cbn; try discriminate); reflexivity
          |]).
  destruct Hin.
Qed.

Lemma reachable_references (db : database) :
  reachable db -> references_hold db.
Proof.
  intros Hr fk r Hfk Hin.
  destruct (reachable_keeps db Hr) as [_ Hw].
  destruct (reachable_resolved db Hr fk r Hfk Hin) as [Hres | []].
  unfold fk_resolved in Hres.
  rewrite (reference_not_null fk r Hfk (proj2 (Hw _ _ Hin))) in Hres.
  cbn [orb] in Hres.
  apply existsb_exists in Hres. destruct Hres as (p & Hp & He).
  exists p. split; [exact Hp|].
  destruct (well_formed_id db (fk_ref fk) p Hw Hp) as [x Hx].
  rewrite Hx in He |- *. apply sql_eq_uuid_l in He. congruence.
Qed.

(** X1.  In every database the statements lead to, every reference
    resolves: each profile, role, course and attendance record names an
    existing user, and each attendance record an existing course
    (foreign keys of lines 5-45, through inserts, updates, deletes with
    their cascades, and sign-ups). *)
Theorem references_resolve (db : database) :
  reachable db ->
  forall fk r,
    In fk foreign_keys -> In r (rows_of (fk_table fk) db) ->
    exists p, In p (rows_of (fk_ref fk) db)
              /\ get "id" p = get (fk_column fk) r.
Proof. exact (reachable_references db). Qed.

Lemma references_resolve_witness :
  exists p, In p (rows_of courses db2) /\ get "id" p = Uuid algebra.
Proof.
  apply (references_resolve db2 db2_reachable
           (mkFk attendance_records "course_id" courses Cascade)
           (checked_in (js "66666666-6666-4666-8666-666666666666")
                       (day0 + 1000))).
  - rewrite foreign_keys_listed. cbn. tauto.
  - vm_compute. left. reflexivity.
Defined.

(** X2.  A DELETE sent through the API changes nothing, unless it
    is on [courses] and the client has the admin role: no other DELETE
    policy exists, and a row the policies hide is not deleted. *)
Theorem api_delete_needs_admin (t : table) (uid : option uuid) (id : uuid)
    (db : database) :
  api_delete t uid id db = Some db
  \/ (t = courses /\ has_role db uid admin = true).
Proof.
  unfold api_delete.
  destruct (existsb _ (rows_of t db)) eqn:E; [|left; reflexivity].
  right. apply existsb_exists in E. destruct E as (r & _ & H).
  apply andb_true_iff in H. destruct H as [_ H].
  unfold rls in H. destruct t; cbn in H; try discriminate.
  rewrite orb_false_r in H. split; [reflexivity | exact H].
Qed.

Lemma existsb_app_last {A} (f : A -> bool) (l : list A) (x : A) :
  existsb f (l ++ [x]) = existsb f l || f x.
Proof. rewrite existsb_app. cbn. rewrite orb_false_r. reflexivity. Qed.

Lemma rls_courses_insert (db : database) (uid : option uuid) (c : row) :
  rls courses INSERT db uid c
  = has_role db uid professor || has_role db uid admin.
Proof. unfold rls. cbn [policies existsb p_table p_command p_expr table_eqb
  command_eqb andb]. rewrite orb_false_r. reflexivity. Qed.


(** X3.  The policy [Users can insert own role during signup]
    lets a signed-in user give themselves any role they do not hold yet,
    admin included: the insert succeeds, [has_role] then holds, and with
    the professor or the admin role every later insert into [courses]
    passes its policy. *)
Theorem own_role_is_granted (db : database) (rid u : uuid) (ro : app_role)
    (clock : Z) :
  (exists a, In a (rows_of auth_users db) /\ get "id" a = Uuid u) ->
  has_role db (Some u) ro = false ->
  (forall x, In x (rows_of user_roles db) -> get "id" x <> Uuid rid) ->
  exists db',
    api_insert user_roles (Some u) (own_role rid u ro clock) db = inr db'
    /\ has_role db' (Some u) ro = true
    /\ (forall c, rls courses INSERT db' (Some u) c
                  = match ro with
                    | student => rls courses INSERT db (Some u) c
                    | _ => true
                    end).
Proof.
  intros (a & Ha & Hid) Hno Hfresh.
  assert (Hu : forall x, jsstring_eqb x x = true)
    by (intros x; apply jsstring_eqb_eq; reflexivity).
  assert (Hr : forall x, role_eqb x x = true) by (intros []; reflexivity).
  exists (with_rows user_roles
            (rows_of user_roles db ++ [own_role rid u ro clock]) db).
  assert (Hrole : forall ro',
            has_role (with_rows user_roles
                        (rows_of user_roles db ++ [own_role rid u ro clock])
                        db) (Some u) ro'
            = has_role db (Some u) ro' || role_eqb ro ro').
  { intros ro'. unfold has_role. cbn [rows_of with_rows t_user_roles].
    rewrite existsb_app_last. cbn. rewrite Hu. reflexivity. }
  split; [|split].
  - unfold api_insert.
    replace (rls user_roles INSERT db (Some u) (own_role rid u ro clock))
      with true by (unfold rls; cbn; rewrite Hu; reflexivity).
    unfold insert.
    replace (well_typed user_roles (own_role rid u ro clock)) with true
      by reflexivity.
    cbn [negb]. replace (not_null_violation _ _) with (@None string)
      by reflexivity.
    replace (unique_violation user_roles (own_role rid u ro clock) db)
      with (@None (list string)).
    2:{ symmetry. unfold unique_violation. cbn [keys columns uniques filter
          map app c_primary_key PRIMARY_KEY DEFAULT NOT_NULL REFERENCES col
          c_name].
        replace (existsb (same_key ["id"%string] (own_role rid u ro clock))
                   (rows_of user_roles db)) with false.
        2:{ symmetry. apply not_true_iff_false. intros H.
            apply existsb_exists in H. destruct H as (x & Hx & H).
            cbn in H. rewrite andb_true_r in H.
            apply sql_eq_uuid_l in H. exact (Hfresh x Hx H). }
        replace (existsb (same_key ["user_id"%string; "role"%string]
                            (own_role rid u ro clock))
                   (rows_of user_roles db)) with false; [reflexivity|].
        symmetry. apply not_true_iff_false. intros H.
        apply existsb_exists in H. destruct H as (x & Hx & H).
        cbn in H. rewrite andb_true_r in H.
        apply andb_true_iff in H. destruct H as [H1 H2].
        apply sql_eq_uuid_l in H1.
        assert (H2' : get "role" x = RoleV ro).
        { destruct (get "role" x); cbn in H2; try discriminate.
          destruct ro, r; try discriminate; reflexivity. }
        unfold has_role in Hno.
        pose proof (existsb_false_forall _ _ Hno x Hx) as Hc. cbv beta in Hc.
        rewrite H1, H2' in Hc. cbn in Hc. rewrite Hu, Hr in Hc.
        discriminate. }
    replace (fk_violation user_roles (own_role rid u ro clock) db)
      with (@None string); [reflexivity|].
    symmetry. unfold fk_violation. cbn. 
    replace (existsb _ (t_auth_users db)) with true; [reflexivity|].
    symmetry. apply existsb_exists. exists a. split; [exact Ha|].
    rewrite Hid. cbn. apply Hu.
  - rewrite Hrole, Hr. apply orb_true_r.
  - intros c. rewrite !rls_courses_insert, !Hrole.
    destruct ro; cbn; rewrite ?orb_false_r, ?orb_true_r; reflexivity.
Qed.

Lemma own_role_is_granted_witness :
  exists db',
    api_insert user_roles (Some ada)
      (own_role (js "99999999-9999-4999-8999-999999999999") ada admin t0) db0
    = inr db'
    /\ has_role db' (Some ada) admin = true
    /\ (forall c, rls courses INSERT db' (Some ada) c
                  = match admin with
                    | student => rls courses INSERT db0 (Some ada) c
                    | _ => true
                    end).
Proof.
  apply (own_role_is_granted db0 (js "99999999-9999-4999-8999-999999999999")
           ada admin t0).
  - eexists. split; [left; reflexivity | vm_compute; reflexivity].
  - vm_compute. reflexivity.
  - intros x Hx. vm_compute in Hx.
    destruct Hx as [<- | [<- | []]]; vm_compute; discriminate.
Defined.

Lemma foreign_keys_of_listed (t : table) (fk : foreign_key) :
  In fk (foreign_keys_of t) -> In fk foreign_keys /\ fk_table fk = t.
Proof.
  rewrite foreign_keys_listed.
  destruct t; cbn; intros H;
    repeat (destruct H as [<- | H]; [cbn; tauto|]); destruct H.
Qed.

Lemma sql_eq_refl_uuid (u : uuid) : sql_eq (Uuid u) (Uuid u) = true.
Proof. apply sql_eq_uuid. reflexivity. Qed.

(** X4.  A sign-up adds the profile of the new user, with the
    user's id and email, the full name or the empty text
    ([COALESCE]), and the time of the statement; it changes no role,
    course or attendance record; and the new user holds no role. *)
Theorem new_user_has_no_role (db db' : database) (id : uuid)
    (email : jsstring) (full_name : sqlval) (clock : Z) :
  reachable db ->
  sign_up id email full_name clock db = inr db' ->
  (exists p,
     rows_of profiles db' = rows_of profiles db ++ [p]
     /\ get "id" p = Uuid id
     /\ get "email" p = TextV email
     /\ get "full_name" p
        = match full_name with Null => TextV [] | v => v end
     /\ get "created_at" p = Timestamptz clock
     /\ get "updated_at" p = Timestamptz clock)
  /\ rows_of user_roles db' = rows_of user_roles db
  /\ rows_of courses db' = rows_of courses db
  /\ rows_of attendance_records db' = rows_of attendance_records db
  /\ forall ro, has_role db' (Some id) ro = false.
Proof.
  intros Hr H. unfold sign_up in H.
  destruct (insert auth_users _ db) as [e|db1] eqn:E1; [discriminate|].
  unfold handle_new_user in H.
  apply insert_inr in E1. destruct E1 as (_ & _ & Hu & _ & ->).
  apply insert_inr in H. destruct H as (_ & _ & _ & _ & ->).
  split; [|repeat split].
  - eexists. split; [reflexivity|]. cbn.
    repeat split; try reflexivity. destruct full_name; reflexivity.
  - intros ro. apply not_true_iff_false. intros Hro.
    unfold has_role in Hro. cbn [rows_of with_rows t_user_roles] in Hro.
    apply existsb_exists in Hro. destruct Hro as (x & Hx & Hro).
    apply andb_true_iff in Hro. destruct Hro as [Hro _].
    apply sql_eq_uuid in Hro.
    destruct (reachable_references db Hr
                (mkFk user_roles "user_id" auth_users Cascade) x)
      as (p & Hp & Hid).
    { rewrite foreign_keys_listed. cbn. tauto. }
    { exact Hx. }
    cbn [fk_column fk_ref] in *. rewrite Hro in Hid.
    unfold unique_violation in Hu.
    destruct (filter _ (keys auth_users)) eqn:Ef; [|discriminate].
    pose proof (filter_nil_forall _ _ Ef ["id"%string]) as Hc.
    cbv beta in Hc.
    assert (Hk : In ["id"%string] (keys auth_users)) by (cbn; tauto).
    pose proof (existsb_false_forall _ _ (Hc Hk) p Hp) as Hs.
    cbn in Hs. rewrite Hid in Hs. cbn in Hs.
    rewrite andb_true_r in Hs.
    assert (jsstring_eqb id id = true) by (apply jsstring_eqb_eq; reflexivity).
    congruence.
Qed.

Lemma new_user_has_no_role_witness :
  exists db',
    sign_up (js "12121212-1212-4121-8121-121212121212")
            (js "eve@student.edu") Null t0 db2 = inr db'
    /\ forall ro,
         has_role db' (Some (js "12121212-1212-4121-8121-121212121212")) ro
         = false.
Proof.
  destruct (sign_up (js "12121212-1212-4121-8121-121212121212")
              (js "eve@student.edu") Null t0 db2) as [e|db'] eqn:E;
    [vm_compute in E; discriminate|].
  exists db'. split; [reflexivity|].
  apply (new_user_has_no_role db2 db'
           (js "12121212-1212-4121-8121-121212121212")
           (js "eve@student.edu") Null t0 db2_reachable E).
Defined.

Lemma unique_on_onb (cols : list string) (l : list row) :
  unique_on cols l -> unique_onb cols l = true.
Proof.
  induction l as [|r l IH]; [reflexivity|].
  cbn [unique_on unique_onb]. intros [H1 H2].
  apply andb_true_iff. split; [|apply IH; exact H2].
  apply forallb_forall. intros r' Hr'. rewrite (H1 r' Hr'). reflexivity.
Qed.

Lemma first_some_all_None {A B} (f : A -> option B) (l : list A) :
  (forall a, In a l -> f a = None) -> first_some f l = None.
Proof.
  induction l as [|a l IH]; [reflexivity|]. intros H. cbn.
  rewrite (H a (or_introl eq_refl)). apply IH. intros; apply H; right; auto.
Qed.

Lemma forall_filter_nil {A} (f : A -> bool) (l : list A) :
  (forall a, In a l -> f a = false) -> filter f l = [].
Proof.
  induction l as [|a l IH]; [reflexivity|]. intros H. cbn.
  rewrite (H a (or_introl eq_refl)). apply IH. intros; apply H; right; auto.
Qed.

Lemma reachable_fk_broken (db : database) :
  reachable db -> fk_broken db = None.
Proof.
  intros Hr. unfold fk_broken.
  apply first_some_all_None. intros t _.
  apply first_some_all_None. intros r Hin.
  unfold fk_violation. rewrite forall_filter_nil; [reflexivity|].
  intros fk Hfk. apply foreign_keys_of_listed in Hfk.
  destruct Hfk as [Hfk <-].
  destruct (reachable_resolved db Hr fk r Hfk Hin) as [-> | []]. reflexivity.
Qed.

(** X5.  An UPDATE by id on a row the UPDATE policies do not
    let the client change (or on no row at all) succeeds and leaves the
    database as it was. *)
Theorem update_not_permitted (t : table) (uid : option uuid) (id : uuid)
    (changes : row) (clock : Z) (db : database) :
  reachable db ->
  (forall r, In r (rows_of t db) -> get "id" r = Uuid id ->
     rls t UPDATE db uid r = false) ->
  api_update t uid id changes clock db = inr db.
Proof.
  intros Hr Hno.
  destruct (reachable_keeps db Hr) as [Hk Hw].
  assert (Hhit : forall r, In r (rows_of t db) ->
            sql_eq (get "id" r) (Uuid id) && rls t UPDATE db uid r = false).
  { intros r Hin. destruct (sql_eq (get "id" r) (Uuid id)) eqn:E;
      [|reflexivity].
    apply sql_eq_uuid in E. cbn. apply Hno; assumption. }
  unfold api_update. cbv zeta.
  assert (Hl : map (fun r => if sql_eq (get "id" r) (Uuid id)
                                && rls t UPDATE db uid r
                             then before_update t clock (changes ++ r)
                             else r) (rows_of t db) = rows_of t db).
  { rewrite <- (map_id (rows_of t db)) at 2. apply map_ext_in.
    intros r Hin. rewrite (Hhit r Hin). reflexivity. }
  rewrite Hl, with_rows_same.
  replace (forallb _ (rows_of t db)) with true.
  2:{ symmetry. apply forallb_forall. intros r Hin.
      rewrite (Hhit r Hin). reflexivity. }
  replace (forallb (well_typed t) (rows_of t db)) with true.
  2:{ symmetry. apply forallb_forall. intros r Hin. apply (Hw t r Hin). }
  cbn [negb].
  rewrite first_some_all_None by (intros r Hin; apply (Hw t r Hin)).
  rewrite forall_filter_nil.
  2:{ intros cols Hin. rewrite unique_on_onb; [reflexivity|].
      apply Hk. exact Hin. }
  rewrite reachable_fk_broken by exact Hr. reflexivity.
Qed.

Lemma update_not_permitted_witness :
  api_update courses (Some ada) algebra
    [("name"%string, TextV (js "Easy"))] t0 db0 = inr db0.
Proof.
  apply (update_not_permitted courses (Some ada) algebra
           [("name"%string, TextV (js "Easy"))] t0 db0).
  - apply (execute_all_reachable history0 empty_db db0);
      [apply reach_empty | vm_compute; reflexivity].
  - intros r Hin _. vm_compute in Hin. destruct Hin as [<- | []].
    vm_compute. reflexivity.
Defined.

(** X6.  A successful UPDATE keeps the other tables and the
    number of rows; every row it changed passes the UPDATE policy of the
    table as it is after the change, and, in [profiles] and [courses],
    carries the time of the statement in [updated_at], whatever the
    client sent for that column (triggers of lines 125-143). *)
Theorem update_is_stamped (t : table) (uid : option uuid) (id : uuid)
    (changes : row) (clock : Z) (db db' : database) :
  api_update t uid id changes clock db = inr db' ->
  (forall t', table_eqb t t' = false -> rows_of t' db' = rows_of t' db)
  /\ List.length (rows_of t db') = List.length (rows_of t db)
  /\ forall r', In r' (rows_of t db') ->
       In r' (rows_of t db)
       \/ (rls t UPDATE db uid r' = true
           /\ match t with
              | profiles | courses =>
                  get "updated_at" r' = Timestamptz clock
              | _ => True
              end).
Proof.
  unfold api_update. cbv zeta. intros H.
  destruct (forallb _ (rows_of t db)) eqn:Ep; [|discriminate].
  cbn [negb] in H.
  destruct (negb (forallb (well_typed t) _)); [discriminate|].
  destruct (first_some (not_null_violation t) _); [discriminate|].
  destruct (filter _ (keys t)); [|discriminate].
  destruct (fk_broken _); [discriminate|].
  injection H as <-. split; [|split].
  - intros t' E. rewrite rows_of_with_rows, E. reflexivity.
  - rewrite rows_of_with_rows, table_eqb_refl. apply length_map.
  - intros r'. rewrite rows_of_with_rows, table_eqb_refl.
    intros Hin. apply in_map_iff in Hin. destruct Hin as (r & <- & Hin).
    rewrite forallb_forall in Ep. specialize (Ep r Hin).
    destruct (sql_eq (get "id" r) (Uuid id) && rls t UPDATE db uid r);
      [right | left; exact Hin].
    cbn [negb orb] in Ep. split; [exact Ep|].
    destruct t; try exact I; reflexivity.
Qed.

Lemma update_is_stamped_witness :
  exists db',
    api_update courses (Some prof) algebra
      [("name"%string, TextV (js "Linear algebra"));
       ("updated_at"%string, Timestamptz 0)] t0 db0 = inr db'
    /\ forall r', In r' (rows_of courses db') ->
         In r' (rows_of courses db0)
         \/ (rls courses UPDATE db0 (Some prof) r' = true
             /\ get "updated_at" r' = Timestamptz t0).
Proof.
  destruct (api_update courses (Some prof) algebra
              [("name"%string, TextV (js "Linear algebra"));
               ("updated_at"%string, Timestamptz 0)] t0 db0)
    as [e|db'] eqn:E; [vm_compute in E; discriminate|].
  exists db'. split; [reflexivity|].
  apply (update_is_stamped courses (Some prof) algebra
           [("name"%string, TextV (js "Linear algebra"));
            ("updated_at"%string, Timestamptz 0)] t0 db0 db' E).
Defined.

(** The rows a key value selects, when the key identifies the rows. *)
Lemma filter_by_id (l : list row) (c : row) (u : uuid) :
  unique_on ["id"%string] l -> In c l -> get "id" c = Uuid u ->
  filter (fun r => sql_eq (get "id" r) (Uuid u)) l = [c].
Proof.
  induction l as [|r l IH]; [intros _ []|].
  cbn [unique_on filter In]. intros [Hr Hl] [-> | Hin] Hid.
  - rewrite Hid, sql_eq_refl_uuid. f_equal.
    apply forall_filter_nil. intros x Hx.
    specialize (Hr x Hx). cbn in Hr. rewrite andb_true_r, Hid in Hr.
    exact Hr.
  - replace (sql_eq (get "id" r) (Uuid u)) with false;
      [apply IH; assumption|].
    symmetry. apply not_true_iff_false. intros E. apply sql_eq_uuid in E.
    specialize (Hr c Hin). cbn in Hr.
    rewrite andb_true_r, Hid, E, sql_eq_refl_uuid in Hr. discriminate.
Qed.

(** X7.  In every database the statements lead to, the rows fit the
    tables of the migration: in each table an id selects at most one
    row, every value has the type of its column, and no primary key or
    NOT NULL column is NULL. *)
Theorem stored_rows_fit_schema (db : database) :
  reachable db ->
  (forall t u,
     (List.length (filter (fun r => sql_eq (get "id" r) (Uuid u))
                          (rows_of t db)) <= 1)%nat)
  /\ (forall t r c,
        In r (rows_of t db) -> In c (columns t) ->
        has_type (c_type c) (get (c_name c) r) = true
        /\ (c_primary_key c || c_not_null c = true ->
            is_null (get (c_name c) r) = false)).
Proof.
  intros Hr. destruct (reachable_keeps db Hr) as [Hk Hw]. split.
  - intros t u.
    destruct (filter _ (rows_of t db)) as [|c l] eqn:E; [cbn; lia|].
    assert (Hin : In c (filter (fun r => sql_eq (get "id" r) (Uuid u))
                               (rows_of t db))) by (rewrite E; left; auto).
    apply filter_In in Hin. destruct Hin as [Hin Hid].
    apply sql_eq_uuid in Hid.
    rewrite (filter_by_id _ c u) in E; [injection E as <-; cbn; lia | |
                                        exact Hin | exact Hid].
    apply Hk. destruct t; cbn; tauto.
  - intros t r c Hin Hc. destruct (Hw t r Hin) as [Hty Hnn]. split.
    + unfold well_typed in Hty. rewrite forallb_forall in Hty.
      apply Hty. exact Hc.
    + intros Hreq. unfold not_null_violation in Hnn.
      destruct (filter _ (columns t)) eqn:E; [|discriminate].
      pose proof (filter_nil_forall _ _ E c Hc) as Hf. cbv beta in Hf.
      rewrite Hreq in Hf. exact Hf.
Qed.

Lemma stored_rows_fit_schema_witness :
  (forall t u,
     (List.length (filter (fun r => sql_eq (get "id" r) (Uuid u))
                          (rows_of t db2)) <= 1)%nat)
  /\ (forall t r c,
        In r (rows_of t db2) -> In c (columns t) ->
        has_type (c_type c) (get (c_name c) r) = true
        /\ (c_primary_key c || c_not_null c = true ->
            is_null (get (c_name c) r) = false)).
Proof. apply (stored_rows_fit_schema db2). exact db2_reachable. Defined.

End IntegrityFacts.

(* ================================================================== *)
(** * More on scanning                                                  *)
(* ================================================================== *)

Module CheckInFacts.

Import Schema Supabase ScanQR QRCodeGenerator JsonFacts SchemaFacts Samples.
Import ScanFacts IntegrityFacts Scans.

(** X8.  The text of a QR code is JSON for an object with the
    four fields [course_id], [course_name], [course_code] and
    [timestamp], and [JSON.parse] gives back the values they were given,
    whatever characters the course's name and code hold. *)
Theorem qr_payload_is_json (courseId courseName courseCode timestamp : jsstring) :
  JSON_parse (qrData courseId courseName courseCode timestamp)
  = Some (VObj [ (js "course_id", VStr courseId);
                 (js "course_name", VStr courseName);
                 (js "course_code", VStr courseCode);
                 (js "timestamp", VStr timestamp) ]).
Proof. unfold qrData. rewrite JSON_parse_stringify. reflexivity. Qed.

(** X9.  A scanned text that is not JSON and not empty is taken
    as the course id itself: the handler's first step is the lookup of
    the course with that text as id (inner [catch] of lines 296-303). *)
Theorem plain_text_payload (B : Browser) (st : state) (qrData : jsstring) :
  JSON_parse qrData = None -> qrData <> [] ->
  course_id_of (courseData qrData) = Some (VStr qrData)
  /\ exists k,
       handleQRCodeScanned B st qrData
       = Await (CoursesSelectSingle (VStr qrData)) k.
Proof.
  intros Hp Hne.
  assert (Hc : course_id_of (courseData qrData) = Some (VStr qrData)).
  { unfold courseData. rewrite Hp. unfold course_id_of.
    cbn. destruct qrData; [congruence | reflexivity]. }
  split; [exact Hc|].
  unfold courseData in Hc. unfold handleQRCodeScanned. rewrite Hc.
  destruct qrData as [|c r]; [congruence|].
  cbn [truthy has_text is_empty negb try_catch bind]. eexists. reflexivity.
Qed.


(** X10.  A scanned text that is JSON but not an object never
    reaches the backend: a number, a string, a boolean or an array shows
    [Invalid QR Code]; [null] makes the property read throw, which shows
    [Check-in failed] after logging the error.  Scanning stops in both
    cases. *)
Theorem non_object_payload {S : Type} (b : backend S) (B : Browser)
    (st : state) (qrData : jsstring) (s : S) (v : value) :
  JSON_parse qrData = Some v -> not_an_object v ->
  run b (handleQRCodeScanned B st qrData) s
  = match v with
    | VNull | VUndefined =>
        ([ Ev (ConsoleError (js "Error processing QR code:") TypeError);
           Ev (Toast (check_in_failed TypeError)); Ev StopScanning ], tt, s)
    | _ => ([ Ev (Toast invalid_qr); Ev StopScanning ], tt, s)
    end.
Proof.
  intros Hp Hv. rewrite scan_run. unfold courseData. rewrite Hp.
  destruct v; try reflexivity. exfalso. eapply Hv. reflexivity.
Qed.

Lemma non_object_payload_witness :
  run (supabase platform0)
      (handleQRCodeScanned browser0 ada_here (js "[1, 2]")) server0
  = ([ Ev (Toast invalid_qr); Ev StopScanning ], tt, server0).
Proof.
  apply (non_object_payload (supabase platform0) browser0 ada_here
           (js "[1, 2]") server0 (VArr [VNum 1 0; VNum 2 0])).
  - vm_compute. reflexivity.
  - intros props. discriminate.
Defined.

Lemma scan_first_call (B : Browser) (st : state) (qrData : jsstring)
    (courseId : value) :
  course_id_of (courseData qrData) = Some courseId ->
  truthy courseId = true -> has_text courseId = true ->
  exists k,
    handleQRCodeScanned B st qrData = Await (CoursesSelectSingle courseId) k.
Proof.
  intros Hc Ht Hx. unfold courseData in Hc. unfold handleQRCodeScanned.
  rewrite Hc, Ht, Hx. cbn [negb try_catch bind]. eexists. reflexivity.
Qed.

(** X11.  The course id is read from [course_id], and from [id]
    when [course_id] is missing or empty: an object with only an [id], or
    with an empty [course_id] and an [id], is looked up by that [id];
    with both, [course_id] wins. *)
Theorem id_key_payload (B : Browser) (st : state) (a b : jsstring) :
  b <> [] ->
  (exists k,
     handleQRCodeScanned B st (JSON_stringify [(js "id", b)])
     = Await (CoursesSelectSingle (VStr b)) k)
  /\ (exists k,
        handleQRCodeScanned B st
          (JSON_stringify [(js "course_id", []); (js "id", b)])
        = Await (CoursesSelectSingle (VStr b)) k)
  /\ (a <> [] ->
      exists k,
        handleQRCodeScanned B st
          (JSON_stringify [(js "course_id", a); (js "id", b)])
        = Await (CoursesSelectSingle (VStr a)) k).
Proof.
  intros Hb.
  assert (Tb : truthy (VStr b) = true) by (destruct b; [congruence|reflexivity]).
  split; [|split].
  - apply scan_first_call; [|exact Tb|reflexivity].
    unfold courseData. rewrite JSON_parse_stringify. reflexivity.
  - apply scan_first_call; [|exact Tb|reflexivity].
    unfold courseData. rewrite JSON_parse_stringify. reflexivity.
  - intros Ha. apply scan_first_call.
    + unfold courseData. rewrite JSON_parse_stringify. unfold course_id_of.
      cbn. destruct a; [congruence | reflexivity].
    + destruct a; [congruence|reflexivity].
    + reflexivity.
Qed.

Lemma id_key_payload_witness :
  (exists k,
     handleQRCodeScanned browser0 ada_here (JSON_stringify [(js "id", algebra)])
     = Await (CoursesSelectSingle (VStr algebra)) k)
  /\ (exists k,
        handleQRCodeScanned browser0 ada_here
          (JSON_stringify [(js "course_id", []); (js "id", algebra)])
        = Await (CoursesSelectSingle (VStr algebra)) k)
  /\ (prof <> [] ->
      exists k,
        handleQRCodeScanned browser0 ada_here
          (JSON_stringify [(js "course_id", prof); (js "id", algebra)])
        = Await (CoursesSelectSingle (VStr prof)) k).
Proof.
  apply (id_key_payload browser0 ada_here prof algebra).
  vm_compute. discriminate.
Defined.

Lemma plain_text_payload_witness :
  course_id_of (courseData algebra) = Some (VStr algebra)
  /\ exists k,
       handleQRCodeScanned browser0 ada_here algebra
       = Await (CoursesSelectSingle (VStr algebra)) k.
Proof.
  apply (plain_text_payload browser0 ada_here algebra).
  - vm_compute. reflexivity.
  - vm_compute. discriminate.
Defined.

Lemma insert_without_student (P : platform) (p : attendance_insert)
    (s : server) :
  ai_student_id p = VUndefined ->
  exists e, do_insert attendance_records (attendance_row P p s) s = (Some e, s).
Proof.
  intros Hs. unfold do_insert, attendance_row. rewrite Hs. cbn [json_uuid].
  destruct (json_uuid P (ai_course_id p)); [eauto|].
  destruct (json_numeric P 10 8 _); [eauto|].
  destruct (json_numeric P 11 8 _); [eauto|].
  destruct (json_numeric P 10 2 _); [eauto|].
  unfold api_insert.
  match goal with |- context [rls ?t ?c ?d ?u ?r] =>
    replace (rls t c d u r) with false end.
  - eauto.
  - unfold rls. cbn. destruct (auth_uid s); reflexivity.
Qed.

(** X12.  With no signed-in user in the page's state, a scan
    never checks in, whatever the QR code and the backend's state: the
    insert, if the handler gets that far, is refused (its [student_id] is
    NULL), and the backend is left as it was. *)
Theorem scan_without_user (P : platform) (B : Browser)
    (location : option Location) (qrData : jsstring) (s : server) :
  let st := mkState None location in
  exists f,
    result_of (supabase P) B st qrData s = Failed f
    /\ final (supabase P) (handleQRCodeScanned B st qrData) s = s.
Proof.
  intros st.
  assert (H : exists f, result_of (supabase P) B st qrData s = Failed f).
  { unfold result_of.
    destruct (course_id_of (courseData qrData)) as [courseId|];
      [|eexists; reflexivity].
    destruct (truthy courseId); [|eexists; reflexivity].
    destruct (has_text courseId); [|eexists; reflexivity].
    cbn [negb supabase serve lookup_call duplicate_call insert_call].
    destruct (error _), (data (courses_select_single P courseId s));
      eauto.
    destruct (data (attendance_select_single P _ _ _ _ s)); [eauto|].
    destruct (insert_without_student P
                (mkAttendanceInsert (user_id_opt (user st)) courseId
                   (coord (ScanQR.location st) lat)
                   (coord (ScanQR.location st) lng)
                   (coord (ScanQR.location st) accuracy)) s eq_refl)
      as [e He].
    rewrite He. cbn [fst]. eauto. }
  destruct H as [f Hf]. exists f. split; [exact Hf|].
  eapply scan_failure_keeps_backend. exact Hf.
Qed.

Lemma single_data {A} (l : list A) (x : A) :
  data (single l) = Some x -> l = [x].
Proof.
  destruct l as [|a [|b l]]; cbn; try discriminate. intros [= ->]. reflexivity.
Qed.

Lemma json_uuid_inr (P : platform) (v : value) (x : sqlval) :
  json_uuid P v = inr x -> truthy v = true ->
  exists t u, v = VStr t /\ uuid_in P t = Some u /\ x = Uuid u.
Proof.
  destruct v; cbn; try discriminate.
  destruct (uuid_in P s) as [u|] eqn:Hu; [|discriminate].
  intros [= <-] _. eauto.
Qed.

(** X13.  A scan that ends in [Check-in successful!] has added
    exactly one attendance record and changed nothing else: the record
    is for the client the backend authenticated, for the course the
    notification names, which exists, and it is stamped with the time of
    the server. *)
Theorem check_in_recorded (P : platform) (B : Browser) (st : state)
    (qrData : jsstring) (s : server) (course : course_row) :
  result_of (supabase P) B st qrData s = CheckedIn course ->
  let s' := final (supabase P) (handleQRCodeScanned B st qrData) s in
  exists (u co : uuid) (c r : row),
    auth_uid s = Some u
    /\ In c (rows_of courses (db s))
    /\ get "id" c = Uuid co
    /\ course = mkCourseRow (as_text (get "id" c)) (as_text (get "name" c))
                            (as_text (get "code" c))
    /\ db s' = with_rows attendance_records
                 (rows_of attendance_records (db s) ++ [r]) (db s)
    /\ get "student_id" r = Uuid u
    /\ get "course_id" r = Uuid co
    /\ get "checked_in_at" r = Timestamptz (clock s)
    /\ auth_uid s' = auth_uid s /\ clock s' = clock s.
Proof.
  intros H s'. subst s'.
  destruct (scan_checked_in P B st qrData s course H)
    as (courseId & r & d & Hc & Ht & _ & He & Hl & _ & Hr & Hi & ->).
  unfold attendance_row in Hr. cbn [ai_student_id ai_course_id ai_latitude
    ai_longitude ai_location_accuracy] in Hr.
  destruct (json_uuid P (user_id_opt (user st))) as [|sv] eqn:Hs;
    [discriminate|].
  destruct (json_uuid P courseId) as [|cv] eqn:Hco; [discriminate|].
  destruct (json_uuid_inr P courseId cv Hco Ht) as (t & co & -> & Hu & ->).
  destruct (json_numeric P 10 8 _) as [|la]; [discriminate|].
  destruct (json_numeric P 11 8 _) as [|lo]; [discriminate|].
  destruct (json_numeric P 10 2 _) as [|ac]; [discriminate|].
  injection Hr as <-.
  unfold api_insert in Hi.
  destruct (rls attendance_records INSERT (db s) (auth_uid s) _) eqn:Hrls;
    [|discriminate].
  assert (Hsv : exists u, auth_uid s = Some u /\ sv = Uuid u).
  { unfold rls in Hrls. cbn in Hrls. rewrite orb_false_r in Hrls.
    destruct (auth_uid s) as [u|]; [|discriminate].
    exists u. split; [reflexivity|].
    apply (is_uid_spec u sv). exact Hrls. }
  destruct Hsv as (u & Hau & ->).
  destruct (insert_inr _ _ _ _ Hi) as (_ & _ & _ & _ & ->).
  (* the course of the toast *)
  unfold courses_select_single, filter_uuid in Hl. cbn [ToString] in Hl.
  rewrite Hu in Hl. apply single_data in Hl.
  destruct (filter _ (rows_of courses (db s))) as [|c [|c' l]] eqn:Hf;
    try discriminate.
  injection Hl as <-.
  assert (Hin : In c (filter (fun r => visible courses s r
                                && sql_eq (get "id" r) (Uuid co))
                             (rows_of courses (db s)))).
  { rewrite Hf. left. reflexivity. }
  apply filter_In in Hin. destruct Hin as [Hin Hp].
  apply andb_true_iff in Hp. destruct Hp as [_ Hid].
  apply sql_eq_uuid in Hid.
  do 3 eexists. eexists. repeat split; eauto.
Qed.

Lemma check_in_recorded_witness :
  let s' := final (supabase platform0)
              (handleQRCodeScanned browser0 ada_here payload0) server0 in
  exists (u co : uuid) (c r : row),
    auth_uid server0 = Some u
    /\ In c (rows_of courses (db server0))
    /\ get "id" c = Uuid co
    /\ algebra_row = mkCourseRow (as_text (get "id" c))
                       (as_text (get "name" c)) (as_text (get "code" c))
    /\ db s' = with_rows attendance_records
                 (rows_of attendance_records (db server0) ++ [r]) (db server0)
    /\ get "student_id" r = Uuid u
    /\ get "course_id" r = Uuid co
    /\ get "checked_in_at" r = Timestamptz (clock server0)
    /\ auth_uid s' = auth_uid server0 /\ clock s' = clock server0.
Proof.
  apply (check_in_recorded platform0 browser0 ada_here payload0 server0
           algebra_row).
  vm_compute. reflexivity.
Defined.



(** X14.  After a first check-in of the day, a second scan of the
    same QR code is refused with [Already checked in] and adds no record,
    provided the server's clock is within the day of the browser. *)
Theorem second_scan_is_refused (P : platform) (B : Browser) (st : state)
    (qrData : jsstring) (s : server) (course : course_row) (u : uuid) :
  result_of (supabase P) B st qrData s = CheckedIn course ->
  auth_uid s = Some u ->
  checked_in_today B u (cr_id course) (db s) = [] ->
  (setHours0 B (Date_now B) <= clock s
   < nextDate B (setHours0 B (Date_now B)))%Z ->
  let s' := final (supabase P) (handleQRCodeScanned B st qrData) s in
  result_of (supabase P) B st qrData s' = Failed (DuplicateCheckIn course)
  /\ final (supabase P) (handleQRCodeScanned B st qrData) s' = s'.
Proof.
  intros H Hau Hnone Hclock s'.
  assert (R : result_of (supabase P) B st qrData s'
              = Failed (DuplicateCheckIn course)).
  2:{ split; [exact R|]. eapply scan_failure_keeps_backend. exact R. }
  subst s'.
  destruct (scan_checked_in P B st qrData s course H)
    as (courseId & r & d & Hc & Ht & _ & He & Hl & _ & Hr & Hi & ->).
  unfold attendance_row in Hr. cbn [ai_student_id ai_course_id ai_latitude
    ai_longitude ai_location_accuracy] in Hr.
  destruct (json_uuid P (user_id_opt (user st))) as [|sv] eqn:Hs;
    [discriminate|].
  destruct (json_uuid P courseId) as [|cv] eqn:Hco; [discriminate|].
  destruct (json_uuid_inr P courseId cv Hco Ht) as (t & co & -> & Hu & ->).
  destruct (json_numeric P 10 8 _) as [|la]; [discriminate|].
  destruct (json_numeric P 11 8 _) as [|lo]; [discriminate|].
  destruct (json_numeric P 10 2 _) as [|ac]; [discriminate|].
  injection Hr as <-.
  unfold api_insert in Hi.
  destruct (rls attendance_records INSERT (db s) (auth_uid s) _) eqn:Hrls;
    [|discriminate].
  rewrite Hau in Hrls.
  assert (sv = Uuid u) as ->.
  { unfold rls in Hrls. cbn in Hrls. rewrite orb_false_r in Hrls.
    apply (is_uid_spec u sv). exact Hrls. }
  destruct (insert_inr _ _ _ _ Hi) as (_ & _ & _ & _ & ->).
  (* the signed-in user of the page *)
  assert (Hst : filter_uuid P (user_id_opt (user st)) = Some u).
  { unfold filter_uuid.
    destruct (user st) as [[uid]|]; cbn in Hs |- *; [|discriminate].
    destruct (uuid_in P uid); [|discriminate]. congruence. }
  (* the course *)
  assert (Hcid : cr_id course = co).
  { unfold courses_select_single, filter_uuid in Hl. cbn [ToString] in Hl.
    rewrite Hu in Hl. apply single_data in Hl.
    destruct (filter _ (rows_of courses (db s))) as [|c [|c' l]] eqn:Hf;
      try discriminate.
    injection Hl as <-.
    assert (Hin : In c (filter (fun r => visible courses s r
                                  && sql_eq (get "id" r) (Uuid co))
                               (rows_of courses (db s)))).
    { rewrite Hf. left. reflexivity. }
    apply filter_In in Hin. destruct Hin as [_ Hp].
    apply andb_true_iff in Hp. destruct Hp as [_ Hid].
    apply sql_eq_uuid in Hid. cbn. rewrite Hid. reflexivity. }
  subst co.
  unfold result_of. rewrite Hc, Ht.
  cbn [has_text negb supabase serve lookup_call duplicate_call insert_call].
  (* the lookup answers as before *)
  assert (Hl' : forall d', rows_of courses d' = rows_of courses (db s) ->
            courses_select_single P (VStr t) (with_db s d')
            = courses_select_single P (VStr t) s).
  { intros d' E. unfold courses_select_single, filter_uuid. cbn [ToString].
    destruct (uuid_in P t); [|reflexivity].
    cbn [with_db db]. rewrite E. reflexivity. }
  rewrite Hl' by reflexivity.
  rewrite He.
  rewrite Hl.
  (* the duplicate check finds the new record *)
  unfold attendance_select_single. rewrite Hst.
  unfold filter_uuid. cbn [ToString]. rewrite Hu.
  cbn [with_db db]. rewrite rows_of_with_rows. cbn [table_eqb].
  rewrite filter_app.
  match goal with
  | |- context [filter ?f (rows_of attendance_records (db s))] =>
      replace (filter f (rows_of attendance_records (db s))) with (@nil row)
  end.
  - cbn [filter app]. unfold visible, rls, with_db. cbn [db auth_uid].
    rewrite Hau. cbn.
    assert (E : forall x, jsstring_eqb x x = true)
      by (intros x; apply jsstring_eqb_eq; reflexivity).
    rewrite ?sql_eq_refl_uuid, ?E. cbn.
    replace ((_ <=? clock s) && (clock s <? _))%Z with true.
    + cbn. reflexivity.
    + symmetry. apply andb_true_iff. split; [apply Z.leb_le | apply Z.ltb_lt];
        lia.
  - symmetry. unfold checked_in_today in Hnone.
    pose proof (filter_nil_forall _ _ Hnone) as Hall.
    clear - Hall.
    induction (rows_of attendance_records (db s)) as [|x l IH];
      [reflexivity|].
    cbn [filter].
    assert (A : forall v a b c : bool, v && a && b && c = v && (a && b && c))
      by (intros [] [] [] []; reflexivity).
    rewrite A, (Hall x (or_introl eq_refl)), andb_false_r. apply IH. intros y Hy. apply Hall. right. exact Hy.
Qed.

Lemma second_scan_is_refused_witness :
  let s' := final (supabase platform0)
              (handleQRCodeScanned browser0 ada_here payload0) server0 in
  result_of (supabase platform0) browser0 ada_here payload0 s'
  = Failed (DuplicateCheckIn algebra_row)
  /\ final (supabase platform0)
       (handleQRCodeScanned browser0 ada_here payload0) s' = s'.
Proof.
  apply (second_scan_is_refused platform0 browser0 ada_here payload0 server0
           algebra_row ada).
  - vm_compute. reflexivity.
  - reflexivity.
  - vm_compute. reflexivity.
  - vm_compute. split; [discriminate | reflexivity].
Defined.

Lemma course_id_of_qrData (courseId courseName courseCode timestamp
    : jsstring) :
  course_id_of (courseData (qrData courseId courseName courseCode timestamp))
  = if is_empty courseId then Some VUndefined else Some (VStr courseId).
Proof.
  unfold courseData, qrData. rewrite JSON_parse_stringify.
  unfold course_id_of. cbn. destruct courseId; reflexivity.
Qed.

(** X15.  Of the text of a QR code the scanner uses the course id
    only: two codes for the same id, whatever name, code and timestamp
    they carry, make the same requests, show the same notifications and
    leave the backend in the same state.  In particular a QR code does
    not expire. *)
Theorem scan_ignores_timestamp {S : Type} (b : backend S) (B : Browser)
    (st : state) (s : S)
    (courseId name1 code1 time1 name2 code2 time2 : jsstring) :
  run b (handleQRCodeScanned B st (qrData courseId name1 code1 time1)) s
  = run b (handleQRCodeScanned B st (qrData courseId name2 code2 time2)) s.
Proof.
  rewrite !scan_run, !course_id_of_qrData. reflexivity.
Qed.

(** X16.  A scan whose course id is not the id of a course checks
    nobody in and leaves the backend as it was.  When the id has a text
    (it is no uuid, or no course has it) one request is made, the lookup,
    and the scan ends in [Course not found]; when it has none (an object
    [String] throws on) no request is made and the scan ends in
    [Check-in failed], after logging the TypeError.  Scanning stops in
    both cases. *)
Theorem unknown_course_is_refused (P : platform) (B : Browser) (st : state)
    (qrData : jsstring) (s : server) (courseId : value) :
  course_id_of (courseData qrData) = Some courseId ->
  truthy courseId = true ->
  (forall text u c,
     ToString P courseId = Some text -> uuid_in P text = Some u ->
     In c (rows_of courses (db s)) -> get "id" c <> Uuid u) ->
  run (supabase P) (handleQRCodeScanned B st qrData) s
  = match ToString P courseId with
    | Some _ =>
        ([ Net (CoursesSelectSingle courseId); Ev (Toast course_not_found);
           Ev StopScanning ], tt, s)
    | None =>
        ([ Ev (ConsoleError (js "Error processing QR code:") TypeError);
           Ev (Toast (check_in_failed TypeError)); Ev StopScanning ], tt, s)
    end.
Proof.
  intros Hc Ht Hno. rewrite scan_run, Hc, Ht. cbn [negb].
  destruct (has_text courseId) eqn:Hx.
  - destruct (proj1 (ToString_has_text P courseId) Hx) as [text Htext].
    rewrite Htext. cbn [negb supabase serve lookup_call].
    assert (Hd : data (courses_select_single P courseId s) = None).
    { unfold courses_select_single, filter_uuid. rewrite Htext.
      destruct (uuid_in P text) as [u|] eqn:Hu; [|reflexivity].
      rewrite forall_filter_nil; [reflexivity|].
      intros c Hin. apply not_true_iff_false. intros E.
      apply andb_true_iff in E. destruct E as [_ E].
      apply sql_eq_uuid in E. exact (Hno text u c Htext Hu Hin E). }
    rewrite Hd. destruct (error _); reflexivity.
  - rewrite (ToString_no_text P courseId Hx). reflexivity.
Qed.

Lemma unknown_course_is_refused_witness :
  run (supabase platform0) (handleQRCodeScanned browser0 ada_here prof)
      server0
  = match ToString platform0 (VStr prof) with
    | Some _ =>
        ([ Net (CoursesSelectSingle (VStr prof)); Ev (Toast course_not_found);
           Ev StopScanning ], tt, server0)
    | None =>
        ([ Ev (ConsoleError (js "Error processing QR code:") TypeError);
           Ev (Toast (check_in_failed TypeError)); Ev StopScanning ], tt,
         server0)
    end.
Proof.
  apply (unknown_course_is_refused platform0 browser0 ada_here prof server0
           (VStr prof)).
  - vm_compute. reflexivity.
  - vm_compute. reflexivity.
  - intros text u c Ht Hu Hin. injection Ht as <-.
    vm_compute in Hu. injection Hu as <-.
    vm_compute in Hin. destruct Hin as [<- | []]. vm_compute. discriminate.
Defined.

(** The same for a course id without text: nothing is sent. *)
Lemma unknown_course_without_text :
  run (supabase platform0)
      (handleQRCodeScanned browser0 ada_here payload_toString) server0
  = ([ Ev (ConsoleError (js "Error processing QR code:") TypeError);
       Ev (Toast (check_in_failed TypeError)); Ev StopScanning ], tt,
     server0).
Proof. vm_compute. reflexivity. Qed.

End CheckInFacts.

(* ================================================================== *)
(** * More on creating a course                                         *)
(* ================================================================== *)

Module CourseFacts.

Import Schema Supabase SchemaFacts Samples CreateCourse CreateCourseFacts.
Import IntegrityFacts Years.

(** What a successful submission went through. *)
Lemma submit_created (P : platform) (user : option User)
    (formData : FormData) (s : server) (data : course_data) :
  result_of (supabase P) user formData s = Created data ->
  exists r,
    parsed_form formData = inr data
    /\ course_row_of P (course_of user data) s = inr r
    /\ rls courses INSERT (db s) (auth_uid s) r = true
    /\ insert courses r (db s)
       = inr (with_rows courses (rows_of courses (db s) ++ [r]) (db s))
    /\ final (supabase P) (handleSubmit user formData) s
       = with_db s (with_rows courses (rows_of courses (db s) ++ [r]) (db s)).
Proof.
  unfold final, result_of. rewrite submit_run.
  destruct (parsed_form formData) as [issues|data']; [discriminate|].
  cbn [supabase serve]. unfold do_insert.
  destruct (course_row_of P (course_of user data') s) as [e|r] eqn:Er;
    [discriminate|].
  destruct (api_insert courses (auth_uid s) r (db s)) as [e|d] eqn:Ea;
    [discriminate|].
  cbn [fst snd]. intros H. injection H as ->.
  unfold api_insert in Ea.
  destruct (rls courses INSERT (db s) (auth_uid s) r) eqn:Hrls;
    [|discriminate].
  pose proof Ea as Ea'. apply insert_inr in Ea'.
  destruct Ea' as (_ & _ & _ & _ & ->).
  exists r. repeat split; auto.
Qed.


(** X17.  A client with neither the professor nor the admin
    role cannot create a course: whatever the form holds, the submission
    fails and the backend is left as it was (policy
    [Professors can create courses]). *)
Theorem course_creation_needs_role (P : platform) (user : option User)
    (formData : FormData) (s : server) :
  has_role (db s) (auth_uid s) professor = false ->
  has_role (db s) (auth_uid s) admin = false ->
  exists f,
    result_of (supabase P) user formData s = Failed f
    /\ final (supabase P) (handleSubmit user formData) s = s.
Proof.
  intros Hp Ha.
  destruct (result_of (supabase P) user formData s) as [f|data] eqn:E.
  - exists f. split; [reflexivity|].
    eapply submit_failure_keeps_backend. exact E.
  - exfalso.
    destruct (submit_created P user formData s data E)
      as (r & _ & _ & Hrls & _).
    rewrite rls_courses_insert, Hp, Ha in Hrls. discriminate.
Qed.

Lemma course_creation_needs_role_witness :
  exists f,
    result_of (supabase platform0) (Some (mkUser ada)) geometry_form server0
    = Failed f
    /\ final (supabase platform0)
         (handleSubmit (Some (mkUser ada)) geometry_form) server0 = server0.
Proof.
  apply (course_creation_needs_role platform0 (Some (mkUser ada))
           geometry_form server0); vm_compute; reflexivity.
Defined.

(** X18.  A submission that ends in [Course created!] has added
    exactly one course and changed nothing else: the course has the name
    and the code of the form, the page's user as professor, who exists,
    no QR code URL, and the time of the server as creation and update
    time; and the client holds the professor or the admin role. *)
Theorem created_course_is_owned (P : platform) (user : option User)
    (formData : FormData) (s : server) (data : course_data) :
  result_of (supabase P) user formData s = Created data ->
  let s' := final (supabase P) (handleSubmit user formData) s in
  exists (uid : jsstring) (u : uuid) (a r : row),
    user = Some (mkUser uid)
    /\ uuid_in P uid = Some u
    /\ In a (rows_of auth_users (db s)) /\ get "id" a = Uuid u
    /\ (has_role (db s) (auth_uid s) professor = true
        \/ has_role (db s) (auth_uid s) admin = true)
    /\ db s' = with_rows courses (rows_of courses (db s) ++ [r]) (db s)
    /\ get "professor_id" r = Uuid u
    /\ get "name" r = TextV (name data)
    /\ get "code" r = TextV (code data)
    /\ get_name formData = Some (name data)
    /\ get_code formData = Some (code data)
    /\ get "qr_code_url" r = Null
    /\ get "created_at" r = Timestamptz (clock s)
    /\ get "updated_at" r = Timestamptz (clock s).
Proof.
  intros H s'. subst s'.
  destruct (submit_created P user formData s data H)
    as (r & Hpf & Hr & Hrls & Hins & ->).
  unfold course_row_of in Hr. cbn [course_of ci_professor_id ci_year
    ci_name ci_code ci_semester] in Hr.
  destruct (json_uuid P (user_id_opt user)) as [|pv] eqn:Hu; [discriminate|].
  destruct (json_integer _) as [|yr]; [discriminate|].
  injection Hr as <-.
  apply insert_inr in Hins. destruct Hins as (_ & Hnn & _ & Hfk & _).
  (* the professor *)
  destruct user as [[uid]|]; cbn in Hu.
  2:{ injection Hu as <-. vm_compute in Hnn. discriminate. }
  destruct (uuid_in P uid) as [u|] eqn:Huid; [|discriminate].
  injection Hu as <-.
  (* who exists *)
  unfold fk_violation in Hfk.
  destruct (filter _ (foreign_keys_of courses)) eqn:Ef; [|discriminate].
  pose proof (filter_nil_forall _ _ Ef
                (mkFk courses "professor_id" auth_users Cascade)) as Hc.
  cbv beta in Hc.
  assert (Hof : In (mkFk courses "professor_id" auth_users Cascade)
                   (foreign_keys_of courses)) by (cbn; tauto).
  specialize (Hc Hof). apply negb_false_iff in Hc.
  unfold fk_resolved in Hc. cbn [fk_column fk_ref] in Hc.
  cbn [get String.eqb Ascii.eqb Bool.eqb is_null orb] in Hc.
  apply existsb_exists in Hc. destruct Hc as (a & Ha & Hid).
  apply sql_eq_uuid in Hid.
  (* the form *)
  assert (Hform : get_name formData = Some (name data)
                  /\ get_code formData = Some (code data)).
  { unfold parsed_form, courseSchema_parse in Hpf.
    destruct (get_name formData) as [n|], (get_code formData) as [c|];
      cbn in Hpf;
      repeat (match type of Hpf with
              | context [if ?b then _ else _] => destruct b
              end; cbn in Hpf);
      try discriminate.
    injection Hpf as <-. split; reflexivity. }
  rewrite rls_courses_insert in Hrls. apply orb_true_iff in Hrls.
  exists uid, u, a. eexists. cbn [with_db db].
  repeat split; try reflexivity; try tauto; assumption.
Qed.

Lemma created_course_is_owned_witness :
  let s' := final (supabase platform0)
              (handleSubmit (Some (mkUser prof)) geometry_form) prof_server in
  exists (uid : jsstring) (u : uuid) (a r : row),
    Some (mkUser prof) = Some (mkUser uid)
    /\ uuid_in platform0 uid = Some u
    /\ In a (rows_of auth_users (db prof_server)) /\ get "id" a = Uuid u
    /\ (has_role (db prof_server) (auth_uid prof_server) professor = true
        \/ has_role (db prof_server) (auth_uid prof_server) admin = true)
    /\ db s' = with_rows courses (rows_of courses (db prof_server) ++ [r])
                 (db prof_server)
    /\ get "professor_id" r = Uuid u
    /\ get "name" r = TextV (js "Geometry")
    /\ get "code" r = TextV (js "MATH102")
    /\ get_name geometry_form = Some (js "Geometry")
    /\ get_code geometry_form = Some (js "MATH102")
    /\ get "qr_code_url" r = Null
    /\ get "created_at" r = Timestamptz (clock prof_server)
    /\ get "updated_at" r = Timestamptz (clock prof_server).
Proof.
  apply (created_course_is_owned platform0 (Some (mkUser prof)) geometry_form
           prof_server
           (mkCourseData (js "Geometry") (js "MATH102") None None)).
  vm_compute. reflexivity.
Defined.


Lemma digit_value_digit (c : N) :
  is_digit c = true -> digit_value 10 c = Some (c - 48)%N.
Proof.
  unfold is_digit, digit_value, hexval. intros H. rewrite H.
  apply andb_true_iff in H. destruct H as [H1 H2].
  apply N.leb_le in H1, H2.
  replace (c - 48 <? 10)%N with true; [reflexivity|].
  symmetry. apply N.ltb_lt. lia.
Qed.

Lemma digits_prefix_digits (ds : jsstring) :
  forallb is_digit ds = true ->
  forall acc,
    digits_prefix 10 ds acc
    = match ds with
      | [] => acc
      | _ :: _ =>
          Some (fold_left (fun a d => (a * 10 + Z.of_N d)%Z)
                  (map (fun c => c - 48)%N ds)
                  (match acc with Some a => a | None => 0%Z end))
      end.
Proof.
  induction ds as [|c r IH]; [reflexivity|].
  cbn [forallb]. intros H acc. apply andb_true_iff in H. destruct H as [Hc Hr].
  cbn [digits_prefix]. rewrite (digit_value_digit c Hc), (IH Hr).
  destruct r; reflexivity.
Qed.

Lemma digit_not_space (c : N) :
  is_digit c = true -> is_StrWhiteSpaceChar c = false.
Proof.
  unfold is_digit. intros H. apply andb_true_iff in H. destruct H as [H1 H2].
  apply N.leb_le in H1, H2. unfold is_StrWhiteSpaceChar. cbn [existsb].
  repeat (match goal with
          | |- context [N.eqb c ?k] =>
              replace (N.eqb c k) with false
                by (symmetry; apply N.eqb_neq; lia)
          end).
  reflexivity.
Qed.

Lemma parseInt_digits (ds : jsstring) :
  ds <> [] -> forallb is_digit ds = true ->
  parseInt ds = Some (decimal_value ds).
Proof.
  intros Hne Hd. pose proof (digits_prefix_digits ds Hd None) as Hp.
  destruct ds as [|c r]; [congruence|]. clear Hne.
  pose proof Hd as Hd0. cbn [forallb] in Hd.
  apply andb_true_iff in Hd. destruct Hd as [Hc Hr].
  unfold parseInt. cbn [trim_start]. rewrite (digit_not_space c Hc).
  assert (Hcases : In c [48; 49; 50; 51; 52; 53; 54; 55; 56; 57]%N).
  { unfold is_digit in Hc. apply andb_true_iff in Hc. destruct Hc as [H1 H2].
    apply N.leb_le in H1, H2. cbn.
    assert (c = 48 \/ c = 49 \/ c = 50 \/ c = 51 \/ c = 52 \/ c = 53
            \/ c = 54 \/ c = 55 \/ c = 56 \/ c = 57)%N by lia.
    intuition auto. }
  assert (Hx : forall x r', r = x :: r' ->
            (x =? 120)%N || (x =? 88)%N = false).
  { intros x r' ->. cbn [forallb] in Hr. apply andb_true_iff in Hr.
    destruct Hr as [Hx _]. unfold is_digit in Hx.
    apply andb_true_iff in Hx. destruct Hx as [H1 H2].
    apply N.leb_le in H1, H2. apply orb_false_iff.
    split; apply N.eqb_neq; lia. }
  cbn in Hcases.
  repeat (destruct Hcases as [<- | Hcases];
          [ try (destruct r as [|x r']; [|rewrite (Hx x r' eq_refl)]);
            rewrite Hp; reflexivity |]).
  destruct Hcases.
Qed.

(** X19.  A year typed in decimal digits is stored as that number:
    the course that was created has it in [year], and it is below 2^31;
    but for a text of digits so long that [parseInt] gives [Infinity],
    which is sent as [null]. *)
Theorem year_digits_are_stored (P : platform) (user : option User)
    (formData : FormData) (s : server) (data : course_data) (ds : jsstring) :
  result_of (supabase P) user formData s = Created data ->
  get_year formData = Some ds -> ds <> [] -> forallb is_digit ds = true ->
  let s' := final (supabase P) (handleSubmit user formData) s in
  exists r,
    rows_of courses (db s') = rows_of courses (db s) ++ [r]
    /\ ((get "year" r = IntV (decimal_value ds)
         /\ (decimal_value ds < 2 ^ 31)%Z)
        \/ (get "year" r = Null
            /\ (2 ^ 1024 - 2 ^ 970 <= decimal_value ds)%Z)).
Proof.
  intros H Hy Hne Hd s'. subst s'.
  destruct (submit_created P user formData s data H)
    as (r & Hpf & Hr & _ & _ & ->).
  exists r. split; [cbn [with_db db]; apply rows_of_with_rows|].
  destruct (parsed_form_data formData data Hpf) as [_ Hyear].
  assert (Ho : or_undefined (Some ds) = Some ds).
  { destruct ds; [congruence | reflexivity]. }
  unfold course_row_of in Hr. cbn [course_of ci_professor_id ci_year
    ci_name ci_code ci_semester] in Hr.
  rewrite Hyear, Hy, Ho, Ho, (parseInt_digits ds Hne Hd) in Hr.
  destruct (json_uuid P _); [discriminate|].
  unfold json_integer in Hr.
  destruct (2 ^ 1024 - 2 ^ 970 <=? Z.abs (decimal_value ds))%Z eqn:Ebig.
  - injection Hr as <-. right. split; [reflexivity|].
    apply Z.leb_le in Ebig.
    assert (0 <= decimal_value ds)%Z; [|lia].
    unfold decimal_value, digits_value.
    assert (G : forall l a, (0 <= a)%Z ->
              (0 <= fold_left (fun acc d => acc * 10 + Z.of_N d) l a)%Z).
    { induction l as [|d l IH]; intros a Ha; [exact Ha|].
      cbn [fold_left]. apply IH. lia. }
    apply G. lia.
  - destruct ((- 2 ^ 31 <=? decimal_value ds)
              && (decimal_value ds <? 2 ^ 31))%Z eqn:Er; [|discriminate].
    injection Hr as <-. left. split; [reflexivity|].
    apply andb_true_iff in Er. destruct Er as [_ Er].
    apply Z.ltb_lt in Er. exact Er.
Qed.


Lemma year_digits_are_stored_witness :
  let s' := final (supabase platform0)
              (handleSubmit (Some (mkUser prof)) form_2025) prof_server in
  exists r,
    rows_of courses (db s') = rows_of courses (db prof_server) ++ [r]
    /\ ((get "year" r = IntV (decimal_value (js "2025"))
         /\ (decimal_value (js "2025") < 2 ^ 31)%Z)
        \/ (get "year" r = Null
            /\ (2 ^ 1024 - 2 ^ 970 <= decimal_value (js "2025"))%Z)).
Proof.
  apply (year_digits_are_stored platform0 (Some (mkUser prof)) form_2025
           prof_server
           (mkCourseData (js "Geometry") (js "MATH102") (Some (js "Fall"))
              (Some (js "2025"))) (js "2025")).
  - vm_compute. reflexivity.
  - reflexivity.
  - vm_compute. discriminate.
  - vm_compute. reflexivity.
Defined.

End CourseFacts.

(* ================================================================== *)
(** * The professor's dashboard                                         *)
(* ================================================================== *)

Module DashboardFacts.

Import Schema Supabase JsonFacts SchemaFacts Samples ProfessorDashboard.
Import IntegrityFacts.

Lemma insert_desc_In (r x : row) (l : list row) :
  In x (insert_desc r l) <-> x = r \/ In x l.
Proof.
  induction l as [|y l IH]; cbn.
  - intuition auto.
  - destruct (_ <=? _)%Z; cbn; [intuition auto|]. rewrite IH. intuition auto.
Qed.

Lemma order_In (x : row) (l : list row) :
  In x (order_created_at_desc l) <-> In x l.
Proof.
  unfold order_created_at_desc.
  induction l as [|r l IH]; cbn [fold_right In]; [tauto|].
  rewrite insert_desc_In, IH. intuition auto.
Qed.

Lemma insert_desc_length (r : row) (l : list row) :
  List.length (insert_desc r l) = S (List.length l).
Proof.
  induction l as [|y l IH]; cbn; [reflexivity|].
  destruct (_ <=? _)%Z; cbn; [reflexivity|]. rewrite IH. reflexivity.
Qed.

Lemma order_length (l : list row) :
  List.length (order_created_at_desc l) = List.length l.
Proof.
  unfold order_created_at_desc.
  induction l as [|r l IH]; cbn [fold_right]; [reflexivity|].
  rewrite insert_desc_length, IH. reflexivity.
Qed.

Lemma insert_desc_sorted (r : row) (l : list row) :
  newest_first l -> newest_first (insert_desc r l).
Proof.
  induction l as [|y l IH]; cbn [insert_desc newest_first].
  - intros _. split; [intros x []|exact I].
  - intros [Hy Hl].
    destruct (_ <=? _)%Z eqn:E; cbn [newest_first].
    + apply Z.leb_le in E. split; [|split; assumption].
      intros x [<- | Hx]; [exact E|]. specialize (Hy x Hx). lia.
    + apply Z.leb_gt in E. split; [|apply IH; exact Hl].
      intros x Hx. apply insert_desc_In in Hx.
      destruct Hx as [-> | Hx]; [lia | apply Hy; exact Hx].
Qed.

Lemma order_sorted (l : list row) : newest_first (order_created_at_desc l).
Proof.
  unfold order_created_at_desc.
  induction l as [|r l IH]; cbn [fold_right]; [exact I|].
  apply insert_desc_sorted. exact IH.
Qed.

Lemma courses_visible (s : server) (r : row) : visible courses s r = true.
Proof. reflexivity. Qed.

(** X20.  The dashboard lists the courses of the signed-in
    professor and no others, each once, from the newest to the oldest
    ([loadCourses], lines 20-36). *)
Theorem dashboard_lists_own_courses (P : platform) (userId : jsstring)
    (u : uuid) (s : server) :
  uuid_in P userId = Some u ->
  exists data,
    loadCourses P userId s = [SetCourses data]
    /\ (forall r, In r data <->
          In r (rows_of courses (db s)) /\ get "professor_id" r = Uuid u)
    /\ newest_first data
    /\ List.length data
       = List.length
           (filter (fun r => sql_eq (get "professor_id" r) (Uuid u))
                   (rows_of courses (db s))).
Proof.
  intros Hu. unfold loadCourses, courses_of_professor. rewrite Hu.
  eexists. split; [reflexivity|]. split; [|split].
  - intros r. rewrite order_In, filter_In, courses_visible. cbn [andb].
    rewrite sql_eq_uuid. tauto.
  - apply order_sorted.
  - rewrite order_length. reflexivity.
Qed.

Lemma dashboard_lists_own_courses_witness :
  exists data,
    loadCourses platform0 prof prof_server = [SetCourses data]
    /\ (forall r, In r data <->
          In r (rows_of courses (db prof_server))
          /\ get "professor_id" r = Uuid prof)
    /\ newest_first data
    /\ List.length data
       = List.length
           (filter (fun r => sql_eq (get "professor_id" r) (Uuid prof))
                   (rows_of courses (db prof_server))).
Proof.
  apply (dashboard_lists_own_courses platform0 prof prof prof_server).
  vm_compute. reflexivity.
Defined.

(** X21.  A course that was just created is on the dashboard
    of its professor when the page is loaded again: the list holds the
    courses it held before and one more, with the name and the code of
    the form. *)
Theorem created_course_is_listed (P : platform) (uid : jsstring)
    (formData : CreateCourse.FormData) (s : server)
    (data : CreateCourse.course_data) :
  CreateCourse.result_of (supabase P) (Some (mkUser uid)) formData s
  = CreateCourse.Created data ->
  let s' := final (supabase P)
              (CreateCourse.handleSubmit (Some (mkUser uid)) formData) s in
  exists l l' r,
    loadCourses P uid s = [SetCourses l]
    /\ loadCourses P uid s' = [SetCourses l']
    /\ In r l'
    /\ get "name" r = TextV (CreateCourse.name data)
    /\ get "code" r = TextV (CreateCourse.code data)
    /\ List.length l' = S (List.length l)
    /\ (forall x, In x l -> In x l').
Proof.
  intros H s'. subst s'.
  destruct (CourseFacts.submit_created P (Some (mkUser uid)) formData s data H)
    as (r & _ & Hr & _ & _ & ->).
  unfold course_row_of in Hr.
  cbn [CreateCourse.course_of ci_professor_id ci_year ci_name ci_code
       ci_semester user_id_opt user_id json_uuid] in Hr.
  destruct (uuid_in P uid) as [u|] eqn:Hu; [|discriminate].
  destruct (json_integer _) as [|yr]; [discriminate|].
  injection Hr as <-.
  unfold loadCourses, courses_of_professor. rewrite Hu.
  cbn [with_db db]. rewrite rows_of_with_rows. cbn [table_eqb].
  rewrite filter_app. cbn [filter]. rewrite courses_visible.
  cbn [andb get String.eqb Ascii.eqb Bool.eqb].
  rewrite sql_eq_refl_uuid.
  do 3 eexists. split; [reflexivity|]. split; [reflexivity|].
  split; [|split; [|split; [|split]]].
  - apply (proj2 (order_In _ _)). apply in_or_app. right. left. reflexivity.
  - reflexivity.
  - reflexivity.
  - rewrite !order_length, length_app. cbn [List.length].
    rewrite Nat.add_1_r. f_equal.
  - intros x Hx. apply (proj2 (order_In _ _)).
    apply (proj1 (order_In _ _)) in Hx.
    apply in_or_app. left. exact Hx.
Qed.

Lemma created_course_is_listed_witness :
  let s' := final (supabase platform0)
              (CreateCourse.handleSubmit (Some (mkUser prof)) geometry_form)
              prof_server in
  exists l l' r,
    loadCourses platform0 prof prof_server = [SetCourses l]
    /\ loadCourses platform0 prof s' = [SetCourses l']
    /\ In r l'
    /\ get "name" r = TextV (js "Geometry")
    /\ get "code" r = TextV (js "MATH102")
    /\ List.length l' = S (List.length l)
    /\ (forall x, In x l -> In x l').
Proof.
  apply (created_course_is_listed platform0 prof geometry_form prof_server
           (CreateCourse.mkCourseData (js "Geometry") (js "MATH102")
              None None)).
  vm_compute. reflexivity.
Defined.

(** X22.  The QR code the dashboard shows for a course is
    accepted by the scanner: the payload names the course's id, the
    lookup finds that course and no other, so the scan never ends in
    [Invalid QR Code] or [Course not found]; it checks the student in
    for that course, or reports a duplicate or the error of the insert. *)
Theorem dashboard_qr_is_accepted (P : platform) (B : ScanQR.Browser)
    (st : ScanQR.state) (s : server) (c : row) (u : uuid)
    (timestamp : jsstring) :
  reachable (db s) ->
  In c (rows_of courses (db s)) -> get "id" c = Uuid u ->
  u <> [] -> uuid_in P u = Some u ->
  let payload := qr_of timestamp c in
  let course :=
    mkCourseRow u (as_text (get "name" c)) (as_text (get "code" c)) in
  (exists k,
     ScanQR.handleQRCodeScanned B st payload
     = Await (CoursesSelectSingle (VStr u)) k)
  /\ courses_select_single P (VStr u) s = mkSingle (Some course) None
  /\ (ScanQR.result_of (supabase P) B st payload s = ScanQR.CheckedIn course
      \/ ScanQR.result_of (supabase P) B st payload s
         = ScanQR.Failed (ScanQR.DuplicateCheckIn course)
      \/ exists e,
           ScanQR.result_of (supabase P) B st payload s
           = ScanQR.Failed (ScanQR.InsertError e)).
Proof.
  intros Hr Hin Hid Hne Hu payload course.
  assert (Hc : ScanQR.course_id_of (ScanQR.courseData payload)
               = Some (VStr u)).
  { unfold payload, qr_of, QRCodeGenerator.qrData, ScanQR.courseData.
    rewrite JSON_parse_stringify, Hid. unfold ScanQR.course_id_of. cbn.
    destruct u; [congruence | reflexivity]. }
  assert (Ht : truthy (VStr u) = true)
    by (destruct u; [congruence | reflexivity]).
  assert (Hl : courses_select_single P (VStr u) s
               = mkSingle (Some course) None).
  { unfold courses_select_single, filter_uuid. cbn [ToString]. rewrite Hu.
    destruct (reachable_keeps _ Hr) as [Hk _].
    assert (Hf : filter (fun r => visible courses s r
                            && sql_eq (get "id" r) (Uuid u))
                        (rows_of courses (db s)) = [c]).
    { apply (filter_by_id _ c u); [|exact Hin|exact Hid].
      apply Hk. cbn. tauto. }
    rewrite Hf. cbn [map single]. rewrite Hid. reflexivity. }
  split; [|split; [exact Hl|]].
  - apply CheckInFacts.scan_first_call; [assumption|assumption|reflexivity].
  - unfold ScanQR.result_of. rewrite Hc, Ht.
    cbn [has_text negb supabase serve ScanQR.lookup_call
         ScanQR.duplicate_call ScanQR.insert_call].
    rewrite Hl. cbn [error data].
    destruct (data (attendance_select_single P _ _ _ _ s));
      [right; left; reflexivity|].
    match goal with
    | |- context [do_insert ?t ?r s] =>
        destruct (do_insert t r s) as [[e|] s3]
    end; cbn [fst]; [right; right; eauto | left; reflexivity].
Qed.

Lemma dashboard_qr_is_accepted_witness :
  let payload := qr_of (js "2025-11-08T10:00:00.000Z") algebra_course in
  let course :=
    mkCourseRow algebra (as_text (get "name" algebra_course))
      (as_text (get "code" algebra_course)) in
  (exists k,
     ScanQR.handleQRCodeScanned browser0 ada_here payload
     = Await (CoursesSelectSingle (VStr algebra)) k)
  /\ courses_select_single platform0 (VStr algebra) server0
     = mkSingle (Some course) None
  /\ (ScanQR.result_of (supabase platform0) browser0 ada_here payload server0
      = ScanQR.CheckedIn course
      \/ ScanQR.result_of (supabase platform0) browser0 ada_here payload
           server0
         = ScanQR.Failed (ScanQR.DuplicateCheckIn course)
      \/ exists e,
           ScanQR.result_of (supabase platform0) browser0 ada_here payload
             server0
           = ScanQR.Failed (ScanQR.InsertError e)).
Proof.
  apply (dashboard_qr_is_accepted platform0 browser0 ada_here server0
           algebra_course algebra (js "2025-11-08T10:00:00.000Z")).
  - apply (execute_all_reachable history0 empty_db db0);
      [apply reach_empty | vm_compute; reflexivity].
  - vm_compute. left. reflexivity.
  - reflexivity.
  - vm_compute. discriminate.
  - vm_compute. reflexivity.
Defined.

End DashboardFacts.

(* ================================================================== *)
(** * More on the analytics panel                                       *)
(* ================================================================== *)

Module ViewFacts.

Import ChatAnalytics AnalyticsFacts Samples AnalyticsView.

Local Open Scope Z_scope.

Lemma blocks_length (courses : list Course) (blocks : list (list Student)) :
  Forall2 (fun course block =>
             (15 <= List.length block <= 44)%nat
             /\ Forall (generated_for course) block) courses blocks ->
  (15 * List.length courses <= List.length (List.concat blocks)
   <= 44 * List.length courses)%nat.
Proof.
  induction 1 as [|c b cs bs [Hb _] _ IH]; cbn [List.concat List.length];
    [lia|].
  rewrite length_app. lia.
Qed.

(** X23.  For the data the panel generates, with at least one
    course: the [Total Students] card shows between 15 and 44 students
    per course, and the [Avg Attendance] card a figure from 40 to 89
    (never the 0 of the empty case).  The products of the draws and the
    quotient of the average are the rounded ones of JavaScript. *)
Theorem overall_average_range (courses : list Course) (g : Random) :
  unit_draws g -> courses <> [] ->
  exists l g',
    allStudents courses g = Some (l, g')
    /\ (15 * List.length courses <= List.length l
        <= 44 * List.length courses)%nat
    /\ 40 <= overallAverage l <= 89.
Proof.
  intros Hg Hne.
  destruct (allStudents_spec courses g Hg) as (blocks & g' & Ha & Hb).
  exists (List.concat blocks), g'. split; [exact Ha|].
  pose proof (blocks_length courses blocks Hb) as Hlen.
  split; [exact Hlen|].
  assert (0 < List.length courses)%nat
    by (destruct courses; [congruence | cbn; lia]).
  unfold overallAverage.
  destruct (Nat.ltb_spec 0 (List.length (List.concat blocks))); [|lia].
  apply Math_round_mean; [lia|].
  pose proof (sum_attendance_bounds (List.concat blocks)
                (blocks_in_range courses blocks Hb) 0). lia.
Qed.

Lemma overall_average_range_witness :
  exists l g',
    allStudents two_courses g0 = Some (l, g')
    /\ (15 * List.length two_courses <= List.length l
        <= 44 * List.length two_courses)%nat
    /\ 40 <= overallAverage l <= 89.
Proof.
  apply (overall_average_range two_courses g0).
  - exact g0_unit.
  - discriminate.
Defined.

Lemma jsstring_eqb_iff (a b : jsstring) : jsstring_eqb a b = true <-> a = b.
Proof.
  revert b. induction a as [|x a IH]; intros [|y b]; cbn;
    try (split; [discriminate | congruence]); [tauto|].
  rewrite andb_true_iff, N.eqb_eq, IH. split; [intros []|intros [=]];
    subst; auto.
Qed.

Lemma courseStudents_same (c : Course) (l : list Student) :
  Forall (fun s => courseCode s = code c) l -> courseStudents c l = l.
Proof.
  unfold courseStudents. induction 1 as [|s l Hs _ IH]; [reflexivity|].
  cbn [filter]. rewrite (proj2 (jsstring_eqb_iff _ _) Hs), IH. reflexivity.
Qed.

Lemma courseStudents_other (c : Course) (l : list Student) :
  Forall (fun s => courseCode s <> code c) l -> courseStudents c l = [].
Proof.
  unfold courseStudents. induction 1 as [|s l Hs _ IH]; [reflexivity|].
  cbn [filter]. destruct (jsstring_eqb _ _) eqn:E; [|exact IH].
  apply jsstring_eqb_iff in E. contradiction.
Qed.

Lemma blocks_codes (courses : list Course) (blocks : list (list Student)) :
  Forall2 (fun c b => Forall (fun s => courseCode s = code c) b)
          courses blocks ->
  Forall (fun s => In (courseCode s) (map code courses))
         (List.concat blocks).
Proof.
  induction 1 as [|c b cs bs Hb _ IH]; cbn [List.concat map];
    [constructor|].
  apply Forall_app. split.
  - eapply Forall_impl; [|exact Hb]. intros s Hs. left. symmetry. exact Hs.
  - eapply Forall_impl; [|exact IH]. intros s Hs. right. exact Hs.
Qed.

(** With distinct course codes, the students a course is counted with are
    those that were generated for it. *)
Lemma blocks_filter (courses : list Course) (blocks : list (list Student)) :
  Forall2 (fun c b => Forall (fun s => courseCode s = code c) b)
          courses blocks ->
  NoDup (map code courses) ->
  forall pre,
    Forall (fun s => ~ In (courseCode s) (map code courses)) pre ->
    map (fun c => courseStudents c (pre ++ List.concat blocks)) courses
    = blocks.
Proof.
  induction 1 as [|c b cs bs Hb Hbs IH]; intros Hnd pre Hpre;
    [reflexivity|].
  cbn [map List.concat] in *. apply NoDup_cons_iff in Hnd.
  destruct Hnd as [Hc Hnd]. f_equal.
  - unfold courseStudents. rewrite !filter_app.
    fold (courseStudents c pre) (courseStudents c b)
         (courseStudents c (List.concat bs)).
    rewrite (courseStudents_same c b Hb).
    rewrite (courseStudents_other c pre),
            (courseStudents_other c (List.concat bs)).
    + apply app_nil_r.
    + eapply Forall_impl; [|exact (blocks_codes cs bs Hbs)].
      intros s Hs E. cbv beta in Hs. rewrite E in Hs. contradiction.
    + eapply Forall_impl; [|exact Hpre].
      intros s Hs E. apply Hs. left. symmetry. exact E.
  - rewrite app_assoc. apply IH; [exact Hnd|].
    apply Forall_app. split.
    + eapply Forall_impl; [|exact Hpre]. intros s Hs E. apply Hs. right.
      exact E.
    + eapply Forall_impl; [|exact Hb]. intros s Hs E. cbv beta in Hs.
      rewrite Hs in E. contradiction.
Qed.

Lemma total_lengths {A} (blocks : list (list A)) :
  total (map (@List.length A) blocks) = List.length (List.concat blocks).
Proof.
  induction blocks as [|b bs IH]; [reflexivity|].
  cbn [map total fold_right List.concat]. rewrite length_app.
  unfold total in IH. rewrite IH. reflexivity.
Qed.

Lemma Forall2_In_r {A B} (R : A -> B -> Prop) (l : list A) (l' : list B)
    (b : B) :
  Forall2 R l l' -> In b l' -> exists a, In a l /\ R a b.
Proof.
  induction 1 as [|x y l l' Hxy _ IH]; [intros []|].
  intros [<- | Hin]; [exists x; split; [left; reflexivity | exact Hxy]|].
  destruct (IH Hin) as (a & Ha & HR). exists a. split; [right|]; assumption.
Qed.

(** X24.  When the courses have distinct codes, the chart counts every
    generated student once: the [studentCount]s of the bars add up to the
    number of students, every bar stands for 15 to 44 students, and its
    average is from 40 to 89, the products and the quotients being the
    rounded ones of JavaScript. *)
Theorem bars_count_every_student (courses : list Course) (g : Random) :
  unit_draws g -> NoDup (map code courses) ->
  exists l g',
    allStudents courses g = Some (l, g')
    /\ total (map studentCount (courseAttendanceData courses l))
       = List.length l
    /\ forall bar,
         In bar (courseAttendanceData courses l) ->
         (15 <= studentCount bar <= 44)%nat
         /\ 40 <= averageAttendance bar <= 89.
Proof.
  intros Hg Hnd.
  destruct (allStudents_spec courses g Hg) as (blocks & g' & Ha & Hb).
  exists (List.concat blocks), g'. split; [exact Ha|].
  assert (Hcodes : Forall2 (fun c b => Forall (fun s => courseCode s = code c)
                                              b) courses blocks).
  { eapply Forall2_impl; [|exact Hb]. intros c b [_ Hf].
    eapply Forall_impl; [|exact Hf]. intros s Hs. apply Hs. }
  pose proof (blocks_filter courses blocks Hcodes Hnd [] (Forall_nil _))
    as Hfilter.
  cbn [app] in Hfilter.
  assert (Hcount : map studentCount
                     (courseAttendanceData courses (List.concat blocks))
                   = map (@List.length Student) blocks).
  { rewrite <- Hfilter at 2. unfold courseAttendanceData.
    rewrite !map_map. reflexivity. }
  split.
  - rewrite Hcount. apply total_lengths.
  - intros bar Hin.
    assert (Hn : (15 <= studentCount bar <= 44)%nat).
    { assert (Hl : In (studentCount bar)
                      (map (@List.length Student) blocks)).
      { rewrite <- Hcount. apply in_map. exact Hin. }
      apply in_map_iff in Hl. destruct Hl as (b & <- & Hbin).
      destruct (Forall2_In_r _ _ _ b Hb Hbin) as (c & _ & Hlen & _).
      exact Hlen. }
    split; [exact Hn|].
    apply (average_in_range courses (List.concat blocks)
             (blocks_in_range courses blocks Hb) bar Hin). lia.
Qed.

Lemma bars_count_every_student_witness :
  exists l g',
    allStudents two_courses g0 = Some (l, g')
    /\ total (map studentCount (courseAttendanceData two_courses l))
       = List.length l
    /\ forall bar,
         In bar (courseAttendanceData two_courses l) ->
         (15 <= studentCount bar <= 44)%nat
         /\ 40 <= averageAttendance bar <= 89.
Proof.
  apply (bars_count_every_student two_courses g0).
  - exact g0_unit.
  - vm_compute. repeat constructor; cbn; intuition discriminate.
Defined.

(** ** The ids of the generated students *)

Lemma js_inj (a b : string) : js a = js b -> a = b.
Proof.
  unfold js. intros H.
  rewrite <- (string_of_list_ascii_of_string a),
          <- (string_of_list_ascii_of_string b).
  f_equal. revert H.
  generalize (list_ascii_of_string a) (list_ascii_of_string b).
  induction l as [|x l IH]; intros [|y l']; cbn; try discriminate;
    [reflexivity|].
  intros [= Hxy Hl]. f_equal; [|apply IH; exact Hl].
  rewrite <- (ascii_N_embedding x), <- (ascii_N_embedding y), Hxy.
  reflexivity.
Qed.

Lemma decimal_inj (k k' : Z) :
  0 <= k -> 0 <= k' -> decimal k = decimal k' -> k = k'.
Proof.
  unfold decimal. intros Hk Hk' H. apply js_inj in H.
  assert (Hnn : forall n, N.to_uint n <> Decimal.Nil).
  { intros [|p]; [discriminate|]. cbn.
    apply DecimalPos.Unsigned.to_uint_nonnil. }
  pose proof (NilZero.usu _ (Hnn (Z.to_N k))) as H1.
  pose proof (NilZero.usu _ (Hnn (Z.to_N k'))) as H2.
  rewrite H in H1. rewrite H1 in H2. injection H2 as H2.
  apply DecimalN.Unsigned.to_uint_inj in H2. lia.
Qed.

Lemma uint_digits (d : Decimal.uint) :
  Forall (fun c => (48 <= c <= 57)%N) (js (NilEmpty.string_of_uint d)).
Proof.
  induction d; cbn; constructor; try exact IHd; cbn; lia.
Qed.

Lemma decimal_digits (k : Z) :
  Forall (fun c => (48 <= c <= 57)%N) (decimal k).
Proof.
  unfold decimal, NilZero.string_of_uint.
  destruct (N.to_uint (Z.to_N k)) eqn:E; try (rewrite <- E; apply uint_digits).
  cbn. constructor; [lia | constructor].
Qed.

Lemma split_at_first {A} (x : A) (l1 l2 r1 r2 : list A) :
  ~ In x l1 -> ~ In x l2 -> l1 ++ x :: r1 = l2 ++ x :: r2 ->
  l1 = l2 /\ r1 = r2.
Proof.
  revert l2. induction l1 as [|a l1 IH]; intros [|b l2] H1 H2 H; cbn in *.
  - injection H as <-. split; reflexivity.
  - injection H as -> _. exfalso. apply H2. left. reflexivity.
  - injection H as -> _. exfalso. apply H1. left. reflexivity.
  - injection H as -> H.
    destruct (IH l2) as [-> ->]; [tauto | tauto | exact H |].
    split; reflexivity.
Qed.

Lemma split_at_last {A} (x : A) (l1 l2 r1 r2 : list A) :
  ~ In x r1 -> ~ In x r2 -> l1 ++ x :: r1 = l2 ++ x :: r2 ->
  l1 = l2 /\ r1 = r2.
Proof.
  intros H1 H2 H. apply (f_equal (@rev A)) in H.
  rewrite !rev_app_distr in H. cbn [rev] in H. rewrite <- !app_assoc in H.
  cbn [app] in H.
  apply split_at_first in H; try (rewrite <- in_rev; assumption).
  destruct H as [Hr Hl]. split.
  - rewrite <- (rev_involutive l1), <- (rev_involutive l2), Hl. reflexivity.
  - rewrite <- (rev_involutive r1), <- (rev_involutive r2), Hr. reflexivity.
Qed.

(** The id of the [i]-th student of a course:
    [`student-${course.id}-${i}`]. *)
Lemma student_id_inj (a b : jsstring) (k k' : Z) :
  0 <= k -> 0 <= k' ->
  (js "student-" ++ a ++ js "-" ++ decimal k
   = js "student-" ++ b ++ js "-" ++ decimal k')%list ->
  a = b /\ k = k'.
Proof.
  intros Hk Hk' H. apply app_inv_head in H.
  change (js "-") with [45%N] in H. cbn [app] in H.
  assert (Hd : forall n, ~ In 45%N (decimal n)).
  { intros n Hin. pose proof (decimal_digits n) as Hf.
    rewrite Forall_forall in Hf. specialize (Hf _ Hin). lia. }
  apply split_at_last in H; [|apply Hd|apply Hd].
  destruct H as [-> H]. split; [reflexivity|].
  apply decimal_inj; assumption.
Qed.

Lemma generate_ids (course : Course) (n : nat) :
  forall i g l g',
    0 <= i ->
    generate course n i g = Some (l, g') ->
    NoDup (map s_id l)
    /\ Forall (fun s => exists k, i <= k
                  /\ s_id s = (js "student-" ++ id course ++ js "-"
                               ++ decimal k)%list) l.
Proof.
  induction n as [|n IH]; intros i g l g' Hi H.
  - injection H as <- _. split; constructor.
  - cbn [generate] in H.
    destruct (random_below _ g) as [fi g1].
    destruct (random_below _ g1) as [li g2].
    destruct (random_below 50 g2) as [a g3].
    destruct (index firstNames fi); [|discriminate].
    destruct (index lastNames li); [|discriminate].
    destruct (generate course n (i + 1) g3) as [[rest g4]|] eqn:E;
      [|discriminate].
    injection H as <- _.
    destruct (IH (i + 1) g3 rest g4 ltac:(lia) E) as [Hnd Hall].
    split.
    + cbn [map s_id]. constructor; [|exact Hnd].
      intros Hin. apply in_map_iff in Hin. destruct Hin as (s & Hs & Hin).
      rewrite Forall_forall in Hall. destruct (Hall s Hin) as (k & Hk & Hid).
      rewrite Hid in Hs. apply student_id_inj in Hs; lia.
    + constructor; [exists i; split; [lia | reflexivity]|].
      eapply Forall_impl; [|exact Hall].
      intros s (k & Hk & Hid). exists k. split; [lia | exact Hid].
Qed.

Lemma allStudents_ids (courses : list Course) :
  forall g l g',
    NoDup (map id courses) ->
    allStudents courses g = Some (l, g') ->
    NoDup (map s_id l) /\ Forall (made_for courses) l.
Proof.
  induction courses as [|c cs IH]; intros g l g' Hnd H.
  - injection H as <- _. split; constructor.
  - cbn [allStudents] in H.
    destruct (students_of_course c g) as [[l1 g1]|] eqn:E1; [|discriminate].
    destruct (allStudents cs g1) as [[l2 g2]|] eqn:E2; [|discriminate].
    injection H as <- _.
    cbn [map] in Hnd. apply NoDup_cons_iff in Hnd. destruct Hnd as [Hc Hnd].
    destruct (IH g1 l2 g2 Hnd E2) as [Hnd2 Hall2].
    unfold students_of_course in E1.
    destruct (random_below 30 g) as [n g0'].
    destruct (generate_ids c _ 0 g0' l1 g1 ltac:(lia) E1) as [Hnd1 Hall1].
    split.
    + rewrite map_app. apply NoDup_app; [exact Hnd1 | exact Hnd2 |].
      intros x Hx1 Hx2.
      apply in_map_iff in Hx1. destruct Hx1 as (s1 & <- & Hs1).
      apply in_map_iff in Hx2. destruct Hx2 as (s2 & Hs & Hs2).
      rewrite Forall_forall in Hall1, Hall2.
      destruct (Hall1 s1 Hs1) as (k1 & Hk1 & Hid1).
      destruct (Hall2 s2 Hs2) as (c2 & k2 & Hc2 & Hk2 & Hid2).
      rewrite Hid1, Hid2 in Hs. apply student_id_inj in Hs; [|lia|lia].
      destruct Hs as [Hs _]. apply Hc. rewrite <- Hs.
      apply in_map. exact Hc2.
    + apply Forall_app. split.
      * eapply Forall_impl; [|exact Hall1].
        intros s (k & Hk & Hid). exists c, k.
        split; [left; reflexivity | split; [lia | exact Hid]].
      * eapply Forall_impl; [|exact Hall2].
        intros s (c2 & k & Hc2 & Hk & Hid). exists c2, k.
        split; [right; exact Hc2 | split; assumption].
Qed.

(** X25.  When the courses have distinct ids, the generated students
    have distinct ids, so the rows of the tables, keyed by
    [student.id], have distinct keys. *)
Theorem student_ids_are_unique (courses : list Course) (g g' : Random)
    (l : list Student) :
  NoDup (map id courses) ->
  allStudents courses g = Some (l, g') ->
  NoDup (map s_id l)
  /\ NoDup (map s_id (lowAttendanceStudents l)).
Proof.
  intros Hnd H.
  destruct (allStudents_ids courses g l g' Hnd H) as [Hl _].
  split; [exact Hl|].
  unfold lowAttendanceStudents. clear - Hl.
  induction l as [|s l IH]; [constructor|].
  cbn [map] in Hl. apply NoDup_cons_iff in Hl. destruct Hl as [Hs Hl].
  cbn [filter]. destruct (attendance s <? 75); [|apply IH; exact Hl].
  cbn [map]. constructor; [|apply IH; exact Hl].
  intros Hin. apply Hs. apply in_map_iff in Hin.
  destruct Hin as (x & Hx & Hin). apply filter_In in Hin.
  rewrite <- Hx. apply in_map. apply Hin.
Qed.

Lemma student_ids_are_unique_witness :
  exists l,
    option_map fst (allStudents two_courses g0) = Some l
    /\ NoDup (map s_id l)
    /\ NoDup (map s_id (lowAttendanceStudents l)).
Proof.
  destruct (allStudents two_courses g0) as [[l g']|] eqn:E;
    [|vm_compute in E; discriminate].
  exists l. split; [reflexivity|].
  apply (student_ids_are_unique two_courses g0 g' l); [|exact E].
  vm_compute. repeat constructor; cbn; intuition discriminate.
Defined.

End ViewFacts.
